(** * playwright-e2e-framework: reporting pipeline

  A shallow embedding of the test-report parser
  ([src/utils/sendEmailReport.ts]), the email reporter
  ([src/utils/EmailReporter.ts]), the Squash TM client
  ([src/integrations/SquashTM.ts]) and the test data loader
  ([src/utils/TestDataLoader.ts]), followed by the properties the
  specification states about them.

  Conventions.  A JavaScript string is a [string], one [ascii] per code
  unit.  Integer-valued numbers (counters, lengths, durations in
  milliseconds) are [Z]; the one place where the source divides, the pass
  rate, is computed on binary64 [float]s.  An optional field or an
  [| undefined] type is an [option].  Code that logs, calls a transport or
  throws runs in the monad [M]: it threads the trace of observable events
  and returns either a value or the thrown value. *)

From Stdlib Require Import ZArith List String Ascii Bool Lia.
From Stdlib Require Import Numbers.DecimalString Floats Uint63.
From Stdlib Require Import Reals Lra.
From stdpp Require Import base option list gmap strings.

Set Warnings "-register-all".
Local Open Scope Z_scope.

(* ===================================================================== *)
(** * Part I: the embedding                                              *)
(* ===================================================================== *)

(** ** JavaScript primitives shared by the modules *)

Module Js.

(** [`${n}`] and [String(n)] for an integer-valued number. *)
Definition string_of_Z (n : Z) : string :=
  NilZero.string_of_int (Z.to_int n).

(** [a || b] on strings: the empty string is falsy. *)
Definition or_string (a : option string) (b : string) : string :=
  match a with
  | Some (String c s) => String c s
  | _ => b
  end.

(** [a || b] on integer-valued numbers: [0] and [undefined] are falsy. *)
Definition or_number (a : option Z) (b : Z) : Z :=
  match a with
  | Some n => if n =? 0 then b else n
  | None => b
  end.

(** [s.substring(0, n)]. *)
Fixpoint substring0 (n : nat) (s : string) : string :=
  match n, s with
  | S n', String c s' => String c (substring0 n' s')
  | _, _ => EmptyString
  end.

(** Lower-case form of an ASCII letter; every other code unit is left
    alone.  Case-insensitive matching of a pattern made of ASCII
    characters compares code units up to this map. *)
Definition lower (c : ascii) : ascii :=
  let n := nat_of_ascii c in
  if (65 <=? n)%nat && (n <=? 90)%nat then ascii_of_nat (n + 32) else c.

Definition upper (c : ascii) : ascii :=
  let n := nat_of_ascii c in
  if (97 <=? n)%nat && (n <=? 122)%nat then ascii_of_nat (n - 32) else c.

Fixpoint map_string (f : ascii → ascii) (s : string) : string :=
  match s with
  | EmptyString => EmptyString
  | String c s' => String (f c) (map_string f s')
  end.

(** Text made of ASCII characters only (code units below 128). *)
Fixpoint ascii_text (s : string) : bool :=
  match s with
  | EmptyString => true
  | String c s' => (nat_of_ascii c <? 128)%nat && ascii_text s'
  end.

(** [s.toUpperCase()] and [s.toLowerCase()].  The letters of ASCII change
    case and every other code unit is kept, which is what JavaScript does
    on [ascii_text]: the environment names, formats and statuses the
    repository writes.  The case mappings of other characters (the sharp s
    becoming SS, accented letters) are not part of this embedding, so a
    statement that upper-cases a text it does not fix is about [ascii_text]
    only. *)
Definition toUpperCase (s : string) : string := map_string upper s.
Definition toLowerCase (s : string) : string := map_string lower s.

(** [array.join(sep)] *)
Definition join (sep : string) (l : list string) : string := String.concat sep l.

(** [s.includes(needle)] *)
Fixpoint includes (needle s : string) : bool :=
  String.prefix needle s ||
  match s with
  | String _ s' => includes needle s'
  | EmptyString => false
  end.

(** A literal in which the double quote is written [']. *)
Definition dq (s : string) : string :=
  map_string (λ c, if Ascii.eqb c "'" then ascii_of_nat 34 else c) s.

Definition is_digit (c : ascii) : bool :=
  let n := nat_of_ascii c in (48 <=? n)%nat && (n <=? 57)%nat.

Definition is_letter (c : ascii) : bool :=
  let n := nat_of_ascii (lower c) in (97 <=? n)%nat && (n <=? 122)%nat.

(** A thrown value: an [Error] object with its message, or any other
    value, kept as the text [String(value)] gives. *)
Inductive thrown : Type :=
| JsError (message : string)
| JsValue (text : string).

(** [error instanceof Error ? error.message : String(error)] *)
Definition errorMessage (e : thrown) : string :=
  match e with
  | JsError m => m
  | JsValue t => t
  end.

Inductive outcome (A : Type) : Type :=
| Ok (a : A)
| Throw (e : thrown).
Arguments Ok {A} a.
Arguments Throw {A} e.

End Js.
Export Js.

(** ** Observable effects

  The transports (HTTP client, SMTP client) and the log sinks are outside
  the repository.  A call to one of them is recorded as an [event]; what
  it answers is read from the [World]. *)

Module Effects.

Inductive LogLevel : Type := ERROR | WARN | INFO | DEBUG.

(** Body of a Squash TM request. *)
Inductive Payload : Type :=
| ExecutionPayload (executionStatus comment lastExecutedOn : string)
| AttachmentPayload (name content contentType : string).

Record Attachment : Type := mkAttachment {
  filename : string;
  path : string
}.

Record SendMailOptions : Type := mkMail {
  from : string;
  to : string;
  subject : string;
  html : string;
  attachments : list Attachment
}.

Inductive event : Type :=
| Logged (level : LogLevel) (line : string)
| HttpPatch (url : string) (body : Payload)
| HttpPost (url : string) (body : Payload)
| MailSent (options : SendMailOptions).

(** A computation: the trace so far goes in, the result and the extended
    trace come out. *)
Definition M (A : Type) : Type := list event → outcome A * list event.

Definition ret {A} (a : A) : M A := λ tr, (Ok a, tr).

Definition bind {A B} (c : M A) (k : A → M B) : M B :=
  λ tr, match c tr with
        | (Ok a, tr') => k a tr'
        | (Throw e, tr') => (Throw e, tr')
        end.

Definition throw {A} (e : thrown) : M A := λ tr, (Throw e, tr).

(** [try { body } catch (error) { handler }] *)
Definition try_catch {A} (body : M A) (handler : thrown → M A) : M A :=
  λ tr, match body tr with
        | (Ok a, tr') => (Ok a, tr')
        | (Throw e, tr') => handler e tr'
        end.

Definition emit (e : event) : M unit := λ tr, (Ok tt, tr ++ [e]).

(** An awaited call that resolves ([None]) or rejects ([Some e]). *)
Definition settle (r : option thrown) : M unit :=
  match r with
  | None => ret tt
  | Some e => throw e
  end.

Definition lift {A} (o : outcome A) : M A := λ tr, (o, tr).

#[global] Instance M_ret : MRet M := @ret.
#[global] Instance M_bind : MBind M := λ A B k c, bind c k.

End Effects.
Export Effects.

(** ** [src/utils/Logger.ts] *)

Module Logger.

(** The methods of class [Logger] used by the pipeline.  Each hands one
    line, prefixed by the logger's context, to the winston logger. *)
Definition log (level : LogLevel) (context message : string) : M unit :=
  emit (Logged level ("[" +:+ context +:+ "] " +:+ message)).

Definition info := log INFO.
Definition warn := log WARN.
Definition debug := log DEBUG.

(** [error(message, error?)]; the pipeline never passes the second
    argument, so [errorDetails] is the empty string. *)
Definition error (context message : string) (err : option thrown) : M unit :=
  let errorDetails :=
    match err with
    | Some e => " | " +:+ errorMessage e
    | None => ""
    end in
  emit (Logged ERROR ("[" +:+ context +:+ "] " +:+ message +:+ errorDetails)).

End Logger.

(** ** [src/config/settings.ts] and the process environment *)

Module Settings.

Inductive DataFormat : Type := json_format | yaml_format.

Record SquashSettings : Type := mkSquash {
  url : string;
  apiToken : string;
  campaignId : string
}.

Record EmailSettings : Type := mkEmail {
  host : string;
  user : string;
  password : string;
  recipients : list string;
  from : string
}.

Record Settings : Type := mkSettings {
  testEnv : string;
  dataFormat : DataFormat;
  reportToSquash : bool;
  squashTM : SquashSettings;
  email : EmailSettings
}.

End Settings.

(** ** Values read from files *)

Module Json.

(** A parsed JSON (or YAML) document.  An object is a finite map from its
    own property names to their values. *)
Inductive json : Type :=
| JNull
| JBool (b : bool)
| JNum (x : float)
| JStr (s : string)
| JArr (items : list json)
| JObj (members : gmap string json).

(** What reading a property gives: a value of the document, or a member
    that the value inherits from its prototype chain (a built-in method or
    a prototype object), named by the path that leads to it.  No document
    holds a built-in. *)
Inductive value : Type :=
| Data (j : json)
| Builtin (path : string).
Coercion Data : json >-> value.

(** [!!v]: JavaScript truthiness.  [undefined] is [None]; functions and
    objects are truthy. *)
Definition truthy (v : option value) : bool :=
  match v with
  | None => false
  | Some (Data JNull) => false
  | Some (Data (JBool b)) => b
  | Some (Data (JNum x)) => negb (PrimFloat.eqb x 0%float || PrimFloat.is_nan x)
  | Some (Data (JStr s)) => negb (String.eqb s "")
  | Some (Data (JArr _)) => true
  | Some (Data (JObj _)) => true
  | Some (Builtin _) => true
  end.

(** [Array.isArray(v)] *)
Definition isArray (v : option value) : bool :=
  match v with
  | Some (Data (JArr _)) => true
  | _ => false
  end.

(** The index a property name denotes: a decimal numeral without sign or
    leading zero. *)
Fixpoint digits_value (acc : nat) (s : string) : option nat :=
  match s with
  | EmptyString => Some acc
  | String c s' =>
      if is_digit c
      then digits_value (10 * acc + (nat_of_ascii c - 48))%nat s'
      else None
  end.

Definition array_index (k : string) : option nat :=
  match k with
  | EmptyString => None
  | String "0" EmptyString => Some 0%nat
  | String "0" _ => None
  | _ => digits_value 0 k
  end.

(** The string-named members of the prototypes a document value can
    inherit from.  [Object.prototype] is the same in every version of
    JavaScript; the other lists are those of Node.js 18, the version the
    README asks for. *)
Definition Object_prototype : list string :=
  ["constructor"; "__defineGetter__"; "__defineSetter__"; "hasOwnProperty";
   "__lookupGetter__"; "__lookupSetter__"; "isPrototypeOf";
   "propertyIsEnumerable"; "toString"; "valueOf"; "__proto__"; "toLocaleString"].

Definition Boolean_prototype : list string := ["constructor"; "toString"; "valueOf"].

Definition Number_prototype : list string :=
  ["constructor"; "toExponential"; "toFixed"; "toLocaleString"; "toPrecision";
   "toString"; "valueOf"].

Definition String_prototype : list string :=
  ["anchor"; "at"; "big"; "blink"; "bold"; "charAt"; "charCodeAt"; "codePointAt";
   "concat"; "constructor"; "endsWith"; "fixed"; "fontcolor"; "fontsize";
   "includes"; "indexOf"; "italics"; "lastIndexOf"; "link"; "localeCompare";
   "match"; "matchAll"; "normalize"; "padEnd"; "padStart"; "repeat"; "replace";
   "replaceAll"; "search"; "slice"; "small"; "split"; "startsWith"; "strike";
   "sub"; "substr"; "substring"; "sup"; "toLocaleLowerCase"; "toLocaleUpperCase";
   "toLowerCase"; "toString"; "toUpperCase"; "trim"; "trimEnd"; "trimLeft";
   "trimRight"; "trimStart"; "valueOf"].

Definition Array_prototype : list string :=
  ["at"; "concat"; "constructor"; "copyWithin"; "entries"; "every"; "fill";
   "filter"; "find"; "findIndex"; "findLast"; "findLastIndex"; "flat"; "flatMap";
   "forEach"; "includes"; "indexOf"; "join"; "keys"; "lastIndexOf"; "map"; "pop";
   "push"; "reduce"; "reduceRight"; "reverse"; "shift"; "slice"; "some"; "sort";
   "splice"; "toLocaleString"; "toString"; "unshift"; "values"].

Definition has_name (names : list string) (key : string) : bool :=
  existsb (String.eqb key) names.

(** The member a name denotes on a prototype chain that starts at
    [prototype], whose own names are [names], and ends at
    [Object.prototype]: the first prototype that has the name gives the
    member.  [__proto__], an accessor of [Object.prototype], gives the
    first prototype itself. *)
Definition inherited (prototype : string) (names : list string) (key : string)
    : option value :=
  if String.eqb key "__proto__" then Some (Builtin prototype)
  else if has_name names key then Some (Builtin (prototype +:+ "." +:+ key))
  else if has_name Object_prototype key then Some (Builtin ("Object.prototype." +:+ key))
  else None.

(** [data[key]] on a parsed document.  Reading a property of [null] throws
    a [TypeError].  An object has its own properties; arrays and strings
    have [length] and their indices.  A name that is not an own property is
    looked up on the prototype chain; the prototype of an array is itself
    an empty array. *)
Definition property (data : json) (key : string) : outcome (option value) :=
  match data with
  | JNull =>
      Throw (JsError ("Cannot read properties of null (reading '" +:+ key +:+ "')"))
  | JBool _ => Ok (inherited "Boolean.prototype" Boolean_prototype key)
  | JNum _ => Ok (inherited "Number.prototype" Number_prototype key)
  | JStr s =>
      if String.eqb key "length"
      then Ok (Some (Data (JNum (PrimFloat.of_uint63
                                   (Uint63.of_Z (Z.of_nat (String.length s)))))))
      else match array_index key with
           | Some i =>
               Ok (match String.get i s with
                   | Some c => Some (Data (JStr (String c EmptyString)))
                   | None => None
                   end)
           | None => Ok (inherited "String.prototype" String_prototype key)
           end
  | JArr items =>
      if String.eqb key "length"
      then Ok (Some (Data (JNum (PrimFloat.of_uint63
                                   (Uint63.of_Z (Z.of_nat (length items)))))))
      else match array_index key with
           | Some i => Ok (Data <$> items !! i)
           | None =>
               if String.eqb key "__proto__" then Ok (Some (Data (JArr [])))
               else Ok (inherited "Array.prototype" Array_prototype key)
           end
  | JObj members =>
      match members !! key with
      | Some v => Ok (Some (Data v))
      | None => Ok (inherited "Object.prototype" [] key)
      end
  end.

End Json.
Export Json.

(** ** The serialized test report

    The shape [parsePlaywrightReport] and [parseTestSuite] read through
    their casts: [suites[].specs[].tests[].results[]], with nested
    [suites], top-level [stats] and [config.projects]. *)

Module PlaywrightReport.

(** [{ message?: string }] *)
Record ResultError : Type := mkResultError {
  message : option string
}.

(** One element of [results]: one attempt.  [status] is whatever the
    reporter wrote; the source casts it without a check. *)
Record Result : Type := mkResult {
  status : string;
  duration : option Z;
  error : option ResultError
}.

(** One element of a spec's [tests]. *)
Record Test : Type := mkTest {
  results : option (list Result)
}.

Record Spec : Type := mkSpec {
  title : string;
  tests : option (list Test)
}.

Inductive Suite : Type :=
| mkSuite (specs : option (list Spec)) (suites : option (list Suite)).

Record Stats : Type := mkStats {
  stats_duration : option Z;
  startTime : option string;
  endTime : option string
}.

Record Project : Type := mkProject {
  name : option string
}.

Record Config : Type := mkConfig {
  projects : option (list Project)
}.

Record Report : Type := mkReport {
  report_suites : option (list Suite);
  stats : option Stats;
  config : option Config
}.

End PlaywrightReport.

(** ** The Node.js runtime and the libraries *)

Module Node.

(** [new Date(value)] *)
Inductive Date : Type :=
| DateOfString (s : string)
| DateOfMillis (ms : Z).

Record Runtime : Type := mkRuntime {
  (** [process.cwd()] and [process.env] *)
  cwd : string;
  env : gmap string string;
  (** the files that exist, with their content *)
  files : gmap string string;
  (** [Date.now()] *)
  now : Z;
  settings : Settings.Settings;
  (** module [path] *)
  path_resolve : string → string → string;
  path_join : string → string → string;
  path_basename : string → string;
  (** [date.toISOString()], which throws a [RangeError] on an invalid date *)
  toISOString : Date → outcome string;
  (** [buffer.toString('base64')] *)
  base64 : string → string;
  (** [JSON.parse] and [YAML.parse] *)
  JSON_parse : string → outcome json;
  YAML_parse : string → outcome json;
  (** [JSON.parse] of a report file, seen through the casts of the parser *)
  JSON_parse_report : string → outcome PlaywrightReport.Report;
  (** the axios instance of the Squash TM client *)
  client_patch : string → Payload → option thrown;
  client_post : string → Payload → option thrown;
  (** the nodemailer transporter *)
  transporter_sendMail : SendMailOptions → option thrown
}.

(** [fs.existsSync(p)] *)
Definition existsSync (rt : Runtime) (p : string) : bool :=
  bool_decide (is_Some (files rt !! p)).

(** [fs.readFileSync(p, 'utf-8')] *)
Definition readFileSync (rt : Runtime) (p : string) : outcome string :=
  match files rt !! p with
  | Some content => Ok content
  | None => Throw (JsError ("ENOENT: no such file or directory, open '" +:+ p +:+ "'"))
  end.

End Node.
Export Node.

(** ** [src/utils/EmailReporter.ts] *)

Module EmailReporter.

Module TestResultSummary.
Record t : Type := mk {
  totalTests : Z;
  passed : Z;
  failed : Z;
  skipped : Z;
  duration : Z;
  startTime : Date;
  endTime : Date;
  environment : string;
  browserName : option string
}.
End TestResultSummary.

Module TestResult.
Record t : Type := mk {
  name : string;
  status : string;
  duration : Z;
  error : option string;
  retries : option Z
}.
End TestResult.

Module EmailReportData.
Record t : Type := mk {
  summary : TestResultSummary.t;
  tests : list TestResult.t;
  projectName : option string;
  buildUrl : option string
}.
End EmailReportData.

(** *** Numbers

    The pass rate and the duration in minutes are quotients, so they are
    computed as JavaScript computes them, on binary64 floats. *)

(** The number an integer counter denotes: exact below [2^53] in
    magnitude, where every integer is a float. *)
Definition number (n : Z) : float :=
  if n <? 0
  then PrimFloat.opp (PrimFloat.of_uint63 (Uint63.of_Z (- n)))
  else PrimFloat.of_uint63 (Uint63.of_Z n).

(** What [Math.round] can return. *)
Inductive rounded : Type :=
| NaN
| Infinity (negative : bool)
| Integer (z : Z).

(** [Math.round(x)]: the integer nearest to [x], a tie going to the larger
    one; [NaN] and the infinities are returned as they are.  A finite float
    is [m * 2^e] exactly, so the result is [floor (m * 2^e + 1/2)]. *)
Definition Math_round (x : float) : rounded :=
  match Prim2SF x with
  | S754_nan => NaN
  | S754_infinity s => Infinity s
  | S754_zero _ => Integer 0
  | S754_finite s m e =>
      let v := if s then Z.neg m else Z.pos m in
      Integer (if 0 <=? e
               then v * 2 ^ e
               else (2 * v + 2 ^ (- e)) / 2 ^ (- e + 1))
  end.

(** [String(r)] and [`${r}`], for integers below [10^21] in magnitude. *)
Definition String_of_rounded (r : rounded) : string :=
  match r with
  | NaN => "NaN"
  | Infinity false => "Infinity"
  | Infinity true => "-Infinity"
  | Integer z => string_of_Z z
  end.

(** [Math.round((summary.passed / summary.totalTests) * 100)], as written
    in [generateSubject] and again in [generateHtmlReport]. *)
Definition passRate (passed totalTests : Z) : rounded :=
  Math_round
    (PrimFloat.mul (PrimFloat.div (number passed) (number totalTests)) (number 100)).

(** [Math.round(data.summary.duration / 60000)] *)
Definition durationMinutes (duration : Z) : rounded :=
  Math_round (PrimFloat.div (number duration) (number 60000)).

(** *** Strings *)

Fixpoint drop_string (n : nat) (s : string) : string :=
  match n, s with
  | S n', String _ s' => drop_string n' s'
  | _, _ => s
  end.

(** The text a replacement string stands for at one match (no capture
    groups): [$$] is a dollar sign, [$&] the matched text, [$`] the text
    before the match and [$'] the text after it. *)
Fixpoint substitution (replacement matched before after : string) : string :=
  match replacement with
  | EmptyString => EmptyString
  | String "$" (String "$" r) => String "$" (substitution r matched before after)
  | String "$" (String "&" r) => matched +:+ substitution r matched before after
  | String "$" (String "`" r) => before +:+ substitution r matched before after
  | String "$" (String "'" r) => after +:+ substitution r matched before after
  | String c r => String c (substitution r matched before after)
  end.

(** [s.replace(pattern, replacement)] for a pattern that is literal text:
    every occurrence from left to right when [global] (a [/.../g] regular
    expression), the first one only otherwise.  [before] is the text
    already passed and [skip] counts the rest of a match just replaced. *)
Fixpoint replace_from (global : bool) (pattern replacement before : string)
    (skip : nat) (s : string) {struct s} : string :=
  match s with
  | EmptyString => EmptyString
  | String c s' =>
      match skip with
      | S k =>
          replace_from global pattern replacement (before +:+ String c "") k s'
      | O =>
          if String.prefix pattern s
          then
            let after := drop_string (String.length pattern) s in
            substitution replacement pattern before after +:+
            (if global
             then replace_from global pattern replacement (before +:+ String c "")
                    (String.length pattern - 1) s'
             else after)
          else
            String c (replace_from global pattern replacement
                        (before +:+ String c "") 0 s')
      end
  end.

Definition replace_all (pattern replacement s : string) : string :=
  replace_from true pattern replacement "" 0 s.

Definition replace_first (pattern replacement s : string) : string :=
  replace_from false pattern replacement "" 0 s.

(** *** class [EmailReporter] *)

Definition logger : string := "EmailReporter".

Definition generateSubject (summary : TestResultSummary.t) : string :=
  let status : string :=
    if 0 <? TestResultSummary.failed summary then "❌ FAILED" else "✅ PASSED" in
  let passRate :=
    passRate (TestResultSummary.passed summary) (TestResultSummary.totalTests summary) in
  status +:+ " | Test Report | " +:+ String_of_rounded passRate +:+
  "% Pass Rate | " +:+ toUpperCase (TestResultSummary.environment summary) +:+
  " | " +:+ string_of_Z (TestResultSummary.totalTests summary) +:+ " Tests".

Definition getDefaultTemplate : string :=
  dq "
<!DOCTYPE html>
<html>
<head>
  <meta charset='UTF-8'>
  <title>Test Report</title>
</head>
<body style='font-family: Arial, sans-serif; margin: 0; padding: 20px; background-color: #f5f5f5;'>
  <div style='max-width: 800px; margin: 0 auto; background-color: #fff; border-radius: 8px; overflow: hidden; box-shadow: 0 2px 10px rgba(0,0,0,0.1);'>
    <!-- Header -->
    <div style='background-color: {{STATUS_COLOR}}; color: white; padding: 20px; text-align: center;'>
      <h1 style='margin: 0;'>{{STATUS_EMOJI}} {{PROJECT_NAME}}</h1>
      <p style='margin: 10px 0 0 0; opacity: 0.9;'>Environment: {{ENVIRONMENT}}</p>
    </div>
    
    <!-- Summary -->
    <div style='padding: 20px;'>
      <h2 style='color: #333; border-bottom: 2px solid #eee; padding-bottom: 10px;'>Summary</h2>
      <div style='display: flex; flex-wrap: wrap; gap: 20px;'>
        <div style='flex: 1; min-width: 150px; background: #f8f9fa; padding: 15px; border-radius: 8px; text-align: center;'>
          <div style='font-size: 32px; font-weight: bold; color: #333;'>{{TOTAL_TESTS}}</div>
          <div style='color: #666;'>Total Tests</div>
        </div>
        <div style='flex: 1; min-width: 150px; background: #d4edda; padding: 15px; border-radius: 8px; text-align: center;'>
          <div style='font-size: 32px; font-weight: bold; color: #28a745;'>{{PASSED}}</div>
          <div style='color: #666;'>Passed</div>
        </div>
        <div style='flex: 1; min-width: 150px; background: #f8d7da; padding: 15px; border-radius: 8px; text-align: center;'>
          <div style='font-size: 32px; font-weight: bold; color: #dc3545;'>{{FAILED}}</div>
          <div style='color: #666;'>Failed</div>
        </div>
        <div style='flex: 1; min-width: 150px; background: #fff3cd; padding: 15px; border-radius: 8px; text-align: center;'>
          <div style='font-size: 32px; font-weight: bold; color: #856404;'>{{SKIPPED}}</div>
          <div style='color: #666;'>Skipped</div>
        </div>
      </div>
      
      <div style='margin-top: 20px; padding: 15px; background: #e9ecef; border-radius: 8px;'>
        <p style='margin: 5px 0;'><strong>Pass Rate:</strong> {{PASS_RATE}}%</p>
        <p style='margin: 5px 0;'><strong>Duration:</strong> {{DURATION}}</p>
        <p style='margin: 5px 0;'><strong>Started:</strong> {{START_TIME}}</p>
        <p style='margin: 5px 0;'><strong>Ended:</strong> {{END_TIME}}</p>
      </div>
    </div>
    
    <!-- Test Results -->
    <div style='padding: 20px;'>
      <h2 style='color: #333; border-bottom: 2px solid #eee; padding-bottom: 10px;'>Test Results</h2>
      <table style='width: 100%; border-collapse: collapse;'>
        <thead>
          <tr style='background-color: #f8f9fa;'>
            <th style='padding: 12px; text-align: left; border-bottom: 2px solid #dee2e6;'>Test Name</th>
            <th style='padding: 12px; text-align: center; border-bottom: 2px solid #dee2e6;'>Status</th>
            <th style='padding: 12px; text-align: center; border-bottom: 2px solid #dee2e6;'>Duration</th>
            <th style='padding: 12px; text-align: left; border-bottom: 2px solid #dee2e6;'>Error</th>
          </tr>
        </thead>
        <tbody>
          {{TEST_RESULTS_ROWS}}
        </tbody>
      </table>
    </div>
    
    <!-- Footer -->
    <div style='background-color: #f8f9fa; padding: 15px; text-align: center; color: #666;'>
      <p style='margin: 0;'>Generated by Playwright E2E Framework</p>
      <p style='margin: 5px 0 0 0;'><a href='{{BUILD_URL}}' style='color: #007bff;'>View Full Report</a></p>
    </div>
  </div>
</body>
</html>
    ".

Definition getStatusColor (status : string) : string :=
  if String.eqb status "passed" then "#28a745"
  else if String.eqb status "failed" then "#dc3545"
  else if String.eqb status "skipped" then "#856404"
  else "#666".

Definition getStatusEmoji (status : string) : string :=
  if String.eqb status "passed" then "✅"
  else if String.eqb status "failed" then "❌"
  else if String.eqb status "skipped" then "⏭️"
  else "❓".

(** One row of the results table. *)
Definition testRow (test : TestResult.t) : string :=
  dq "
      <tr>
        <td style='padding: 8px; border-bottom: 1px solid #ddd;'>" +:+
  TestResult.name test +:+
  dq "</td>
        <td style='padding: 8px; border-bottom: 1px solid #ddd; text-align: center;'>
          <span style='color: " +:+
  getStatusColor (TestResult.status test) +:+
  dq "; font-weight: bold;'>
            " +:+
  getStatusEmoji (TestResult.status test) +:+
  dq " " +:+
  toUpperCase (TestResult.status test) +:+
  dq "
          </span>
        </td>
        <td style='padding: 8px; border-bottom: 1px solid #ddd; text-align: center;'>" +:+
  string_of_Z (TestResult.duration test) +:+
  dq "ms</td>
        <td style='padding: 8px; border-bottom: 1px solid #ddd; color: #dc3545;'>" +:+
  or_string (TestResult.error test) "-" +:+
  dq "</td>
      </tr>
    ".

Definition templatePath (rt : Runtime) : string :=
  path_resolve rt (cwd rt) "templates/email-report.html".

Definition generateHtmlReport (rt : Runtime) (data : EmailReportData.t) : M string :=
  let summary := EmailReportData.summary data in
  template ← (if existsSync rt (templatePath rt)
              then lift (readFileSync rt (templatePath rt))
              else ret getDefaultTemplate);
  let passRate :=
    passRate (TestResultSummary.passed summary) (TestResultSummary.totalTests summary) in
  let durationMinutes := durationMinutes (TestResultSummary.duration summary) in
  start ← lift (toISOString rt (TestResultSummary.startTime summary));
  finish ← lift (toISOString rt (TestResultSummary.endTime summary));
  let html :=
    replace_all "{{BUILD_URL}}" (or_string (EmailReportData.buildUrl data) "#")
    (replace_all "{{STATUS_COLOR}}"
       (if 0 <? TestResultSummary.failed summary then "#dc3545" else "#28a745")
    (replace_all "{{STATUS_EMOJI}}"
       (if 0 <? TestResultSummary.failed summary then "❌" else "✅")
    (replace_all "{{END_TIME}}" finish
    (replace_all "{{START_TIME}}" start
    (replace_all "{{DURATION}}" (String_of_rounded durationMinutes +:+ " min")
    (replace_all "{{PASS_RATE}}" (String_of_rounded passRate)
    (replace_all "{{SKIPPED}}" (string_of_Z (TestResultSummary.skipped summary))
    (replace_all "{{FAILED}}" (string_of_Z (TestResultSummary.failed summary))
    (replace_all "{{PASSED}}" (string_of_Z (TestResultSummary.passed summary))
    (replace_all "{{TOTAL_TESTS}}" (string_of_Z (TestResultSummary.totalTests summary))
    (replace_all "{{ENVIRONMENT}}" (toUpperCase (TestResultSummary.environment summary))
    (replace_all "{{PROJECT_NAME}}"
       (or_string (EmailReportData.projectName data) "Playwright E2E Tests")
       template)))))))))))) in
  let testRows := join "" (map testRow (EmailReportData.tests data)) in
  mret (replace_first "{{TEST_RESULTS_ROWS}}" testRows html).

Definition prepareAttachments (rt : Runtime) (attachmentPaths : option (list string))
    : list Attachment :=
  match attachmentPaths with
  | None | Some [] => []
  | Some paths =>
      map (λ filePath, mkAttachment (path_basename rt filePath) filePath)
          (filter (λ filePath, existsSync rt filePath = true) paths)
  end.

Definition sendReport (rt : Runtime) (data : EmailReportData.t)
    (attachmentPaths : option (list string)) : M bool :=
  let recipients := join ", " (Settings.recipients (Settings.email (settings rt))) in
  try_catch
    (Logger.info logger "Preparing email report...";;
     htmlContent ← generateHtmlReport rt data;
     let subject := generateSubject (EmailReportData.summary data) in
     let attachments := prepareAttachments rt attachmentPaths in
     let mailOptions :=
       mkMail (Settings.from (Settings.email (settings rt))) recipients
              subject htmlContent attachments in
     emit (MailSent mailOptions);;
     settle (transporter_sendMail rt mailOptions);;
     Logger.info logger ("Report sent to: " +:+ recipients);;
     mret true)
    (λ error,
       Logger.error logger ("Failed to send email report: " +:+ errorMessage error) None;;
       mret false).

(** [verifyConnection()].  What [transporter.verify()] answers is the
    parameter: it resolves ([None]) or rejects. *)
Definition verifyConnection (transporter_verify : option thrown) : M bool :=
  try_catch
    (settle transporter_verify;;
     Logger.info logger "SMTP connection verified";;
     mret true)
    (λ error,
       Logger.error logger ("SMTP connection failed: " +:+ errorMessage error) None;;
       mret false).

End EmailReporter.

(** ** [src/utils/sendEmailReport.ts] *)

Module SendEmailReport.
Import PlaywrightReport EmailReporter.

Definition logger : string := "SendReport".

(** The unused third parameter of [parseTestSuite]. *)
Record Counts : Type := mkCounts {
  counts_passed : Z;
  counts_failed : Z;
  counts_skipped : Z
}.

(** [String(lastResult.error)] for the object the reporter writes. *)
Definition String_of_error (e : ResultError) : string := "[object Object]".

(** Body of the loop over [spec.tests]: one element, pushed onto [tests]
    when its [results] list has a last element. *)
Definition parseTest (spec : Spec) (result : Test) (tests : list TestResult.t)
    : list TestResult.t :=
  match results result with
  | Some resultsList =>
      match last resultsList with
      | Some lastResult =>
          tests ++
          [ TestResult.mk
              (title spec)
              (status lastResult)
              (or_number (duration lastResult) 0)
              (match error lastResult with
               | Some e =>
                   Some (substring0 200
                           (or_string (message e) (String_of_error e)))
               | None => None
               end)
              (Some (Z.of_nat (length resultsList) - 1)) ]
      | None => tests
      end
  | None => tests
  end.

(** Body of the loop over [suite.specs]. *)
Definition parseSpec (spec : Spec) (tests : list TestResult.t) : list TestResult.t :=
  match PlaywrightReport.tests spec with
  | Some results => fold_left (λ acc result, parseTest spec result acc) results tests
  | None => tests
  end.

(** [parseTestSuite(suite, tests, _counts)]: [tests] is the array the
    calls share; the function returns it as the pushes left it. *)
Fixpoint parseTestSuite (suite : Suite) (tests : list TestResult.t)
    (_counts : Counts) {struct suite} : list TestResult.t :=
  match suite with
  | mkSuite specs nestedSuites =>
      let tests1 :=
        match specs with
        | Some specs => fold_left (λ acc spec, parseSpec spec acc) specs tests
        | None => tests
        end in
      match nestedSuites with
      | Some nestedSuites =>
          (fix each (l : list Suite) (acc : list TestResult.t) : list TestResult.t :=
             match l with
             | [] => acc
             | nestedSuite :: l' => each l' (parseTestSuite nestedSuite acc _counts)
             end) nestedSuites tests1
      | None => tests1
      end
  end.

(** The counting loop of [parsePlaywrightReport]: one pass over [tests],
    a [switch] on the status with three cases and no default. *)
Definition countResults (tests : list TestResult.t) : Z * Z * Z :=
  fold_left
    (λ '(passed, failed, skipped) test,
       if String.eqb (TestResult.status test) "passed" then (passed + 1, failed, skipped)
       else if String.eqb (TestResult.status test) "failed" then (passed, failed + 1, skipped)
       else if String.eqb (TestResult.status test) "skipped" then (passed, failed, skipped + 1)
       else (passed, failed, skipped))
    tests (0, 0, 0).

(** [new Date(value || Date.now())] *)
Definition date_or_now (rt : Runtime) (value : option string) : Date :=
  match value with
  | Some (String c s) => DateOfString (String c s)
  | _ => DateOfMillis (now rt)
  end.

(** [report.stats?.field] *)
Definition stats_field {A} (field : Stats → option A) (report : Report) : option A :=
  match stats report with
  | Some s => field s
  | None => None
  end.

(** [report.config?.projects?.[0]?.name] *)
Definition first_project_name (report : Report) : option string :=
  match config report with
  | Some c =>
      match projects c with
      | Some (project :: _) => PlaywrightReport.name project
      | _ => None
      end
  | None => None
  end.

(** The list [parsePlaywrightReport] builds before it counts. *)
Definition flatten (report : Report) : list TestResult.t :=
  fold_left (λ acc suite, parseTestSuite suite acc (mkCounts 0 0 0))
            (default [] (report_suites report)) [].

Definition parsePlaywrightReport (rt : Runtime) (reportPath : string)
    : M EmailReportData.t :=
  if negb (existsSync rt reportPath)
  then throw (JsError ("Report file not found: " +:+ reportPath))
  else
    reportContent ← lift (readFileSync rt reportPath);
    report ← lift (JSON_parse_report rt reportContent);
    let tests := flatten report in
    let '(passed, failed, skipped) := countResults tests in
    let summary :=
      TestResultSummary.mk
        (Z.of_nat (length tests)) passed failed skipped
        (or_number (stats_field stats_duration report) 0)
        (date_or_now rt (stats_field startTime report))
        (date_or_now rt (stats_field endTime report))
        (Settings.testEnv (settings rt))
        (Some (or_string (first_project_name report) "chromium")) in
    mret (EmailReportData.mk summary tests
            (Some "Playwright E2E Tests")
            (Some (or_string (env rt !! "CI_JOB_URL")
                     (or_string (env rt !! "BUILD_URL") "#")))).

(** [main()].  The result is the code [process.exit] was called with, or
    [None] when the function returns without calling it. *)
Definition main (rt : Runtime) (transporter_verify : option thrown) : M (option Z) :=
  Logger.info logger "Starting email report generation...";;
  try_catch
    (let reportPath := path_resolve rt (cwd rt) "reports/test-results.json" in
     Logger.info logger ("Parsing report from: " +:+ reportPath);;
     reportData ← parsePlaywrightReport rt reportPath;
     Logger.info logger
       ("Found " +:+
        string_of_Z (Z.of_nat (length (EmailReportData.tests reportData))) +:+ " tests");;
     Logger.info logger
       ("Results: " +:+
        string_of_Z (TestResultSummary.passed (EmailReportData.summary reportData)) +:+
        " passed, " +:+
        string_of_Z (TestResultSummary.failed (EmailReportData.summary reportData)) +:+
        " failed, " +:+
        string_of_Z (TestResultSummary.skipped (EmailReportData.summary reportData)) +:+
        " skipped");;
     connected ← verifyConnection transporter_verify;
     if negb connected
     then throw (JsError "Could not connect to SMTP server")
     else
       let attachments : list string := [] in
       let htmlReportPath := path_resolve rt (cwd rt) "playwright-report/index.html" in
       (if existsSync rt htmlReportPath
        then Logger.info logger "HTML report found, will include link in email"
        else mret tt);;
       sent ← sendReport rt reportData (Some attachments);
       if (sent : bool)
       then
         Logger.info logger "âœ… Email report sent successfully!";;
         mret (None : option Z)
       else throw (JsError "Failed to send email report"))
    (λ error,
       Logger.error logger ("Failed to send report: " +:+ errorMessage error) None;;
       mret (Some 1)).

End SendEmailReport.

(** ** [src/integrations/SquashTM.ts] *)

Module SquashTM.

Definition logger : string := "SquashTM".

Inductive SquashTestStatus : Type :=
| PASSED | FAILED | BLOCKED | NOT_RUN | UNTESTABLE | SETTLED.

(** The string value of an enum member. *)
Definition status_text (s : SquashTestStatus) : string :=
  match s with
  | PASSED => "PASSED"
  | FAILED => "FAILED"
  | BLOCKED => "BLOCKED"
  | NOT_RUN => "NOT_RUN"
  | UNTESTABLE => "UNTESTABLE"
  | SETTLED => "SETTLED"
  end.

Module TestExecutionResult.
Record t : Type := mk {
  squashId : string;
  status : SquashTestStatus;
  comment : option string;
  screenshotPath : option string;
  duration : option Z;
  iterationIndex : option Z;
  iterationData : option string
}.
End TestExecutionResult.
Import TestExecutionResult.

(** *** The two regular expressions

    Both have the shape [/literal(class+)/i]: literal text, then one capture
    group holding a non-empty, greedy run of characters of one class; the
    [i] flag makes every comparison case-insensitive. *)

(** The literal at the head of [s]; what follows it is returned. *)
Fixpoint match_literal (literal s : string) : option string :=
  match literal with
  | EmptyString => Some s
  | String x literal' =>
      match s with
      | String c s' =>
          if Ascii.eqb (lower c) (lower x) then match_literal literal' s' else None
      | EmptyString => None
      end
  end.

(** The longest prefix of [s] made of characters of the class. *)
Fixpoint take_class (class : ascii → bool) (s : string) : string :=
  match s with
  | String c s' => if class c then String c (take_class class s') else EmptyString
  | EmptyString => EmptyString
  end.

(** A match that starts at the head of [s]: the capture group. *)
Definition match_here (literal : string) (class : ascii → bool) (s : string)
    : option string :=
  match match_literal literal s with
  | Some rest =>
      match take_class class rest with
      | EmptyString => None
      | String c run => Some (String c run)
      end
  | None => None
  end.

(** [s.match(re)]: the capture group of the leftmost match, [None] for
    [null]. *)
Fixpoint search (literal : string) (class : ascii → bool) (s : string)
    : option string :=
  match match_here literal class s with
  | Some capture => Some capture
  | None =>
      match s with
      | String _ s' => search literal class s'
      | EmptyString => None
      end
  end.

(** [[A-Z0-9-]] under the [i] flag *)
Definition id_char (c : ascii) : bool :=
  is_letter c || is_digit c || Ascii.eqb c "-".

(** [static parseSquashId(testTitle)]: [/@squashTM:([A-Z0-9-]+)/i] *)
Definition parseSquashId (testTitle : string) : option string :=
  search "@squashTM:" id_char testTitle.

(** [extractTestCaseId(squashId)]: [/TC-(\d+)/i] *)
Definition extractTestCaseId (squashId : string) : option string :=
  search "TC-" is_digit squashId.

(** *** class [SquashTMClient] *)

Record SquashTMClient : Type := mkClient {
  baseURL : string;
  campaignId : string;
  enabled : bool
}.

(** The constructor. *)
Definition new_SquashTMClient (rt : Runtime) : M SquashTMClient :=
  let this :=
    mkClient (Settings.url (Settings.squashTM (settings rt)) +:+ "/api/rest/latest")
             (Settings.campaignId (Settings.squashTM (settings rt)))
             (Settings.reportToSquash (settings rt)) in
  (if enabled this
   then Logger.info logger
          ("Squash TM integration enabled for campaign: " +:+ campaignId this)
   else mret tt);;
  mret this.

Definition isEnabled (this : SquashTMClient) : bool := enabled this.

Definition newline : string := String (ascii_of_nat 10) EmptyString.

Definition uploadScreenshot (rt : Runtime) (this : SquashTMClient)
    (testCaseId screenshotPath : string) : M unit :=
  try_catch
    (if negb (existsSync rt screenshotPath)
     then Logger.warn logger ("Screenshot file not found: " +:+ screenshotPath)
     else
       fileBuffer ← lift (readFileSync rt screenshotPath);
       let base64File := base64 rt fileBuffer in
       let url := baseURL this +:+ "/iterations/" +:+ testCaseId +:+ "/attachments" in
       let body :=
         AttachmentPayload
           ("failure-screenshot-" +:+ string_of_Z (now rt) +:+ ".png")
           base64File "image/png" in
       emit (HttpPost url body);;
       settle (client_post rt url body);;
       Logger.info logger ("Screenshot uploaded for test case: " +:+ testCaseId))
    (λ error,
       Logger.error logger ("Failed to upload screenshot: " +:+ errorMessage error) None).

(** The comment sent with a result. *)
Definition buildComment (result : TestExecutionResult.t) : string :=
  let comment := or_string (comment result) "" in
  let comment :=
    match iterationIndex result with
    | Some index =>
        let comment := "[DDT Iteration " +:+ string_of_Z (index + 1) +:+ "] " +:+ comment in
        match iterationData result with
        | Some (String c d) => comment +:+ newline +:+ "Test Data: " +:+ String c d
        | _ => comment
        end
    | None => comment
    end in
  match duration result with
  | Some d =>
      if d =? 0 then comment
      else comment +:+ newline +:+ "Duration: " +:+ string_of_Z d +:+ "ms"
  | None => comment
  end.

Definition is_FAILED (s : SquashTestStatus) : bool :=
  match s with
  | FAILED => true
  | _ => false
  end.

Definition reportResult (rt : Runtime) (this : SquashTMClient)
    (result : TestExecutionResult.t) : M bool :=
  if negb (enabled this)
  then
    Logger.debug logger "Squash TM reporting is disabled";;
    mret false
  else
    try_catch
      (Logger.info logger
         ("Reporting result to Squash TM: " +:+ squashId result +:+ " - " +:+
          status_text (status result));;
       let comment := buildComment result in
       match extractTestCaseId (squashId result) with
       | Some (String c d) =>
           let testCaseId := String c d in
           let url := baseURL this +:+ "/iterations/" +:+ testCaseId +:+ "/test-plan" in
           lastExecutedOn ← lift (toISOString rt (DateOfMillis (now rt)));
           let payload :=
             ExecutionPayload (status_text (status result)) comment lastExecutedOn in
           emit (HttpPatch url payload);;
           settle (client_patch rt url payload);;
           (match screenshotPath result with
            | Some (String p q) =>
                if is_FAILED (status result)
                then uploadScreenshot rt this testCaseId (String p q)
                else mret tt
            | _ => mret tt
            end);;
           Logger.info logger ("Successfully reported result for: " +:+ squashId result);;
           mret true
       | _ =>
           Logger.warn logger
             ("Could not extract test case ID from: " +:+ squashId result);;
           mret false
       end)
      (λ error,
         Logger.error logger ("Failed to report to Squash TM: " +:+ errorMessage error) None;;
         mret false).

(** [reportDDTResults(results)]: one call per result, in order, each with
    its position as [iterationIndex]; the booleans are dropped. *)
Fixpoint reportDDTResults_from (rt : Runtime) (this : SquashTMClient) (i : Z)
    (results : list TestExecutionResult.t) : M unit :=
  match results with
  | [] => mret tt
  | r :: results' =>
      let result :=
        TestExecutionResult.mk (squashId r) (status r) (comment r)
          (screenshotPath r) (duration r) (Some i) (iterationData r) in
      reportResult rt this result;;
      reportDDTResults_from rt this (i + 1) results'
  end.

Definition reportDDTResults (rt : Runtime) (this : SquashTMClient)
    (results : list TestExecutionResult.t) : M unit :=
  if negb (enabled this) then mret tt
  else
    Logger.info logger
      ("Reporting " +:+ string_of_Z (Z.of_nat (length results)) +:+
       " DDT iteration results");;
    reportDDTResults_from rt this 0 results.

(** [squashTM(testCaseId)] *)
Definition squashTM (testCaseId : string) : string := "@squashTM:" +:+ testCaseId.

(** [toSquashStatus(playwrightStatus)] *)
Definition toSquashStatus (playwrightStatus : string) : SquashTestStatus :=
  let s := toLowerCase playwrightStatus in
  if String.eqb s "passed" then PASSED
  else if String.eqb s "failed" || String.eqb s "timedout" then FAILED
  else NOT_RUN.

(** [getSquashTMClient()].  The module variable [squashClient] goes in and
    comes out. *)
Definition getSquashTMClient (rt : Runtime) (squashClient : option SquashTMClient)
    : M (SquashTMClient * option SquashTMClient) :=
  match squashClient with
  | Some client => mret (client, Some client)
  | None =>
      client ← new_SquashTMClient rt;
      mret (client, Some client)
  end.

End SquashTM.

(** ** [src/utils/TestDataLoader.ts] *)

Module TestDataLoader.
Import Settings.

Definition logger : string := "TestDataLoader".

Definition format_text (f : DataFormat) : string :=
  match f with
  | json_format => "json"
  | yaml_format => "yaml"
  end.

(** [DATA_DIRS[format]] *)
Definition DATA_DIRS (rt : Runtime) (f : DataFormat) : string :=
  path_resolve rt (cwd rt) ("test-data/" +:+ format_text f).

(** [getDataFormat()] of [settings.ts] *)
Definition getDataFormat (rt : Runtime) : DataFormat := dataFormat (settings rt).

Definition loadTestData (rt : Runtime) (filename : string) (format : option DataFormat)
    : M json :=
  let dataFormat := default (getDataFormat rt) format in
  let extension : string :=
    match dataFormat with
    | json_format => ".json"
    | yaml_format => ".yaml"
    end in
  let dataDir := DATA_DIRS rt dataFormat in
  let filePath := path_join rt dataDir (filename +:+ extension) in
  Logger.debug logger ("Loading test data from: " +:+ filePath);;
  if negb (existsSync rt filePath)
  then throw (JsError ("Test data file not found: " +:+ filePath))
  else
    fileContent ← lift (readFileSync rt filePath);
    try_catch
      (match dataFormat with
       | json_format => lift (JSON_parse rt fileContent)
       | yaml_format => lift (YAML_parse rt fileContent)
       end)
      (λ error,
         throw (JsError ("Failed to parse " +:+
                         toUpperCase (format_text dataFormat) +:+
                         " file " +:+ filePath +:+ ": " +:+ errorMessage error))).

(** The two errors of [loadTestDataArray]. *)
Definition key_not_found (arrayKey filename : string) : thrown :=
  JsError (dq "Key '" +:+ arrayKey +:+
           dq "' not found in test data file: " +:+ filename).

Definition key_not_an_array (arrayKey filename : string) : thrown :=
  JsError (dq "Key '" +:+ arrayKey +:+
           dq "' is not an array in test data file: " +:+ filename).

Definition loadTestDataArray (rt : Runtime) (filename arrayKey : string)
    : M (list json) :=
  data ← loadTestData rt filename None;
  value ← lift (property data arrayKey);
  if negb (truthy value)
  then throw (key_not_found arrayKey filename)
  else
    match value with
    | Some (Data (JArr items)) => mret items
    | _ => throw (key_not_an_array arrayKey filename)
    end.

(** [value === text] for a string [text] *)
Definition strictly_equals (value : option value) (text : string) : bool :=
  match value with
  | Some (Data (JStr s)) => String.eqb s text
  | _ => false
  end.

(** [dataArray.find((item) => item[idKey] === testCaseId)] *)
Fixpoint find_by_id (idKey testCaseId : string) (dataArray : list json)
    : outcome (option json) :=
  match dataArray with
  | [] => Ok None
  | item :: rest =>
      match property item idKey with
      | Throw e => Throw e
      | Ok value =>
          if strictly_equals value testCaseId
          then Ok (Some item)
          else find_by_id idKey testCaseId rest
      end
  end.

Definition test_case_not_found (idKey testCaseId filename arrayKey : string) : thrown :=
  JsError ("Test case with " +:+ idKey +:+ dq "='" +:+ testCaseId +:+
           dq "' not found in " +:+ filename +:+ "." +:+ arrayKey).

(** [getTestDataById(filename, arrayKey, testCaseId, idKey = 'id')] *)
Definition getTestDataById (rt : Runtime) (filename arrayKey testCaseId : string)
    (idKey : option string) : M json :=
  let idKey := default "id" idKey in
  dataArray ← loadTestDataArray rt filename arrayKey;
  testCase ← lift (find_by_id idKey testCaseId dataArray);
  if negb (truthy (Data <$> testCase))
  then throw (test_case_not_found idKey testCaseId filename arrayKey)
  else
    match testCase with
    | Some item => mret item
    | None => throw (test_case_not_found idKey testCaseId filename arrayKey)
    end.

(** [ParameterizedTestData<T>], with the fields as the values they hold
    at run time. *)
Module ParameterizedTestData.
Record t : Type := mk {
  name : value;
  data : json;
  tags : option value;
  squashId : option value
}.
End ParameterizedTestData.

(** The callback of [dataArray.map], from position [index] on. *)
Fixpoint toParameterized_from (nameKey : string) (index : Z) (dataArray : list json)
    : outcome (list ParameterizedTestData.t) :=
  match dataArray with
  | [] => Ok []
  | item :: rest =>
      match property item nameKey with
      | Throw e => Throw e
      | Ok name =>
          match property item "tags" with
          | Throw e => Throw e
          | Ok tags =>
              match property item "squashId" with
              | Throw e => Throw e
              | Ok squashId =>
                  let entry :=
                    ParameterizedTestData.mk
                      (match name with
                       | Some value =>
                           if truthy name then value
                           else Data (JStr ("Test Case " +:+ string_of_Z (index + 1)))
                       | None => Data (JStr ("Test Case " +:+ string_of_Z (index + 1)))
                       end)
                      item tags squashId in
                  match toParameterized_from nameKey (index + 1) rest with
                  | Ok entries => Ok (entry :: entries)
                  | Throw e => Throw e
                  end
              end
          end
      end
  end.

(** [toParameterizedTests(filename, arrayKey, nameKey = 'name')] *)
Definition toParameterizedTests (rt : Runtime) (filename arrayKey : string)
    (nameKey : option string) : M (list ParameterizedTestData.t) :=
  let nameKey := default "name" nameKey in
  dataArray ← loadTestDataArray rt filename arrayKey;
  lift (toParameterized_from nameKey 0 dataArray).

End TestDataLoader.

(* ===================================================================== *)
(** * Part II: vocabulary of the statements and sample inputs            *)
(* ===================================================================== *)

Module ReportShape.
Import PlaywrightReport.

(** The specs of a suite at any depth, in the order the parser meets them:
    the suite's own specs, then those of its nested suites. *)
Fixpoint suite_specs (suite : Suite) : list Spec :=
  match suite with
  | mkSuite specs nestedSuites =>
      default [] specs ++
      match nestedSuites with
      | Some nestedSuites =>
          (fix each (l : list Suite) : list Spec :=
             match l with
             | [] => []
             | nestedSuite :: l' => suite_specs nestedSuite ++ each l'
             end) nestedSuites
      | None => []
      end
  end.

Definition report_specs (report : Report) : list Spec :=
  flat_map suite_specs (default [] (report_suites report)).

(** The elements of a spec's [tests], and the attempts of one of them. *)
Definition spec_tests (spec : Spec) : list Test := default [] (tests spec).
Definition attempts (t : Test) : list Result := default [] (results t).

(** Every (spec, element of its [tests]) pair of the report, in order. *)
Definition report_entries (report : Report) : list (Spec * Test) :=
  flat_map (λ spec, map (pair spec) (spec_tests spec)) (report_specs report).

Definition has_attempts (t : Test) : bool :=
  match attempts t with
  | [] => false
  | _ :: _ => true
  end.

(** A spec has an attempt when one element of its [tests] has one. *)
Definition spec_has_attempt (spec : Spec) : Prop :=
  ∃ t, t ∈ spec_tests spec ∧ has_attempts t = true.

(** A status the counting loop of [parsePlaywrightReport] has a case for. *)
Definition counted (test : EmailReporter.TestResult.t) : bool :=
  String.eqb (EmailReporter.TestResult.status test) "passed" ||
  String.eqb (EmailReporter.TestResult.status test) "failed" ||
  String.eqb (EmailReporter.TestResult.status test) "skipped".

End ReportShape.

Module PassRate.
Import EmailReporter.

(** Follows the spec's words, [round(100 × passed / total)]: the integer
    nearest to the exact quotient [100 * passed / total], a tie (a quotient
    ending in one half) going up. *)
Definition round_percent (passed total : Z) : Z :=
  (200 * passed + total) / (2 * total).

(** The exact quotient [100 * passed / total] ends in one half. *)
Definition tie (passed total : Z) : bool :=
  (200 * passed) mod (2 * total) =? total.

(** The computed pass rate is the exact rounding, or one below it at a tie. *)
Definition agrees (passed total : Z) : bool :=
  match passRate passed total with
  | Integer k =>
      (k =? round_percent passed total) ||
      (tie passed total && (k =? round_percent passed total - 1))
  | _ => false
  end.

(** [agrees] for every [total] in [1..bound] and [passed] in [0..total]. *)
Definition agrees_upto (bound : nat) : bool :=
  forallb
    (λ total, forallb (λ passed, agrees (Z.of_nat passed) (Z.of_nat total))
                      (seq 0 (S total)))
    (seq 1 bound).

(** The real number a positive finite float [m * 2^e] stands for. *)
Definition float_value (m : positive) (e : Z) : R := (IZR (Z.pos m) * powerRZ 2 e)%R.

End PassRate.

Module Markers.

(** Two texts are the same up to the case of ASCII letters. *)
Fixpoint ci_eqb (a b : string) : bool :=
  match a, b with
  | EmptyString, EmptyString => true
  | String x a', String y b' => Ascii.eqb (lower x) (lower y) && ci_eqb a' b'
  | _, _ => false
  end.

(** Every character of [s] is of the class. *)
Fixpoint all_class (class : ascii → bool) (s : string) : bool :=
  match s with
  | EmptyString => true
  | String c s' => class c && all_class class s'
  end.

(** [s] is empty or starts with a character outside the class: a run of
    class characters put before [s] ends where [s] starts. *)
Definition stops (class : ascii → bool) (s : string) : bool :=
  match s with
  | EmptyString => true
  | String c _ => negb (class c)
  end.

(** No character of [s] is [c] up to case. *)
Fixpoint free_of (c : ascii) (s : string) : bool :=
  match s with
  | EmptyString => true
  | String x s' => negb (Ascii.eqb (lower x) (lower c)) && free_of c s'
  end.

End Markers.

Module Traces.

(** The remote calls of a trace: the HTTP requests and the mails. *)
Definition remote_call (e : event) : bool :=
  match e with
  | HttpPatch _ _ | HttpPost _ _ | MailSent _ => true
  | Logged _ _ => false
  end.

Definition remote_calls (tr : list event) : list event := List.filter remote_call tr.

(** The PATCH requests of a trace, in order. *)
Definition patch_request (e : event) : bool :=
  match e with
  | HttpPatch _ _ => true
  | _ => false
  end.

Definition patch_requests (tr : list event) : list event := List.filter patch_request tr.

(** The PATCH request [reportResult] issues for a result whose identifier
    holds the test case id [testCaseId]. *)
Definition patch_of (rt : Runtime) (this : SquashTM.SquashTMClient)
    (result : SquashTM.TestExecutionResult.t) (testCaseId lastExecutedOn : string) : event :=
  HttpPatch
    (SquashTM.baseURL this +:+ "/iterations/" +:+ testCaseId +:+ "/test-plan")
    (ExecutionPayload
       (SquashTM.status_text (SquashTM.TestExecutionResult.status result))
       (SquashTM.buildComment result) lastExecutedOn).

(** A result with its position in a batch as iteration index. *)
Definition at_iteration (i : Z) (r : SquashTM.TestExecutionResult.t)
    : SquashTM.TestExecutionResult.t :=
  SquashTM.TestExecutionResult.mk
    (SquashTM.TestExecutionResult.squashId r) (SquashTM.TestExecutionResult.status r)
    (SquashTM.TestExecutionResult.comment r) (SquashTM.TestExecutionResult.screenshotPath r)
    (SquashTM.TestExecutionResult.duration r) (Some i)
    (SquashTM.TestExecutionResult.iterationData r).

(** The PATCH requests a batch gives rise to, from position [i] on: one
    for each result whose identifier holds a test case id. *)
Fixpoint batch_patches (rt : Runtime) (this : SquashTM.SquashTMClient)
    (lastExecutedOn : string) (i : Z) (results : list SquashTM.TestExecutionResult.t)
    : list event :=
  match results with
  | [] => []
  | r :: results' =>
      match SquashTM.extractTestCaseId (SquashTM.TestExecutionResult.squashId r) with
      | Some (String c d) =>
          [patch_of rt this (at_iteration i r) (String c d) lastExecutedOn]
      | _ => []
      end ++ batch_patches rt this lastExecutedOn (i + 1) results'
  end.

End Traces.

Module Files.
Import Settings.

(** The runtime with one more file. *)
Definition with_file (rt : Runtime) (p content : string) : Runtime :=
  mkRuntime (cwd rt) (env rt) (<[p := content]> (files rt)) (now rt) (settings rt)
    (path_resolve rt) (path_join rt) (path_basename rt) (toISOString rt) (base64 rt)
    (JSON_parse rt) (YAML_parse rt) (JSON_parse_report rt)
    (client_patch rt) (client_post rt) (transporter_sendMail rt).

(** The path [loadTestData] reads for a file name and a format. *)
Definition data_file_path (rt : Runtime) (filename : string) (format : option DataFormat)
    : string :=
  let dataFormat := default (dataFormat (settings rt)) format in
  path_join rt (TestDataLoader.DATA_DIRS rt dataFormat)
    (filename +:+ match dataFormat with
                  | json_format => ".json"
                  | yaml_format => ".yaml"
                  end).

(** The message [sendReport] hands to the transporter. *)
Definition mailOptions (rt : Runtime) (data : EmailReporter.EmailReportData.t)
    (attachmentPaths : option (list string)) (htmlContent : string) : SendMailOptions :=
  mkMail (Settings.from (email (settings rt)))
         (join ", " (recipients (email (settings rt))))
         (EmailReporter.generateSubject (EmailReporter.EmailReportData.summary data))
         htmlContent
         (EmailReporter.prepareAttachments rt attachmentPaths).

(** The path [main] reads the report from. *)
Definition main_report_path (rt : Runtime) : string :=
  path_resolve rt (cwd rt) "reports/test-results.json".

End Files.

Module Samples.
Import PlaywrightReport EmailReporter.

Definition attempt (status : string) (duration : Z) : Result :=
  mkResult status (Some duration) None.

Definition spec_of (title : string) (entries : list (list Result)) : Spec :=
  mkSpec title (Some (map (λ rs, mkTest (Some rs)) entries)).

Definition report_of (specs : list Spec) : Report :=
  mkReport (Some [mkSuite (Some specs) None]) None None.

(** One spec that failed and then passed on retry. *)
Definition retried_report : Report :=
  report_of [spec_of "login works" [[attempt "failed" 1200; attempt "passed" 900]]].

(** One spec run under two projects, one attempt each. *)
Definition two_project_report : Report :=
  report_of [spec_of "login works" [[attempt "passed" 900]; [attempt "passed" 1100]]].

(** One spec whose only attempt ran into the test timeout. *)
Definition timed_out_report : Report :=
  report_of [spec_of "checkout" [[attempt "timedOut" 60000]]].

(** A spec nested two suites deep, beside a spec without attempts. *)
Definition nested_report : Report :=
  mkReport
    (Some [mkSuite (Some [spec_of "never ran" [[]]])
             (Some [mkSuite None
                      (Some [mkSuite (Some [spec_of "deep" [[attempt "skipped" 0]]])
                               None])])])
    None None.

Definition sample_settings : Settings.Settings :=
  Settings.mkSettings "qa" Settings.json_format false
    (Settings.mkSquash "https://demo.squashtest.org" "" "4")
    (Settings.mkEmail "smtp.gmail.com" "" "" ["qa@example.com"] "test-reports@example.com").

(** A runtime with the given files, a transport that answers [mail] to
    every message and an HTTP client that answers [http]. *)
Definition runtime_with (files : gmap string string) (cfg : Settings.Settings)
    (parse : string → outcome json) (report : outcome Report)
    (mail http : option thrown) : Runtime :=
  mkRuntime "/repo" ∅ files 1700000000000 cfg
    (λ a b, a +:+ "/" +:+ b) (λ a b, a +:+ "/" +:+ b) (λ p, p)
    (λ _, Ok "2023-11-14T22:13:20.000Z") (λ s, s)
    parse parse (λ _, report)
    (λ _ _, http) (λ _ _, http) (λ _, mail).

(** The client the default settings give: reporting is off. *)
Definition disabled_client : SquashTM.SquashTMClient :=
  SquashTM.mkClient "https://demo.squashtest.org/api/rest/latest" "4" false.

Definition failed_result : SquashTM.TestExecutionResult.t :=
  SquashTM.TestExecutionResult.mk "CAMP-4-TC-101" SquashTM.FAILED
    (Some "locked out") (Some "test-results/login/failure.png") (Some 900) None None.

(** A runtime whose template file is one line. *)
Definition one_line_template : gmap string string :=
  {[ "/repo/templates/email-report.html" := "<p>{{PASS_RATE}}% of {{TOTAL_TESTS}}</p>" ]}.

(** A users file of the data loader and what it deserializes to. *)
Definition users_file : gmap string string :=
  {[ "/repo/test-data/json/users.json" := dq "{'validUsers':[{'username':'a'}]}" ]}.

Definition users_record : gmap string json :=
  {[ "validUsers" := JArr [JObj {[ "username" := JStr "a" ]}] ]}.

(** A data file whose keys are bound to no array. *)
Definition drafts_file : gmap string string :=
  {[ "/repo/test-data/json/drafts.json" :=
       dq "{'users':null,'ready':false,'count':0,'label':'','owner':'qa'}" ]}.

Definition drafts_record : gmap string json :=
  {[ "users" := JNull; "ready" := JBool false; "count" := JNum 0;
     "label" := JStr ""; "owner" := JStr "qa" ]}.

Definition summary_of (passed failed skipped : Z) : TestResultSummary.t :=
  TestResultSummary.mk (passed + failed + skipped) passed failed skipped 125000
    (DateOfMillis 0) (DateOfMillis 0) "qa" (Some "chromium").

(** The one user of the users file, and the line loading that file logs. *)
Definition user_a : json := JObj {[ "username" := JStr "a" ]}.

Definition users_log : list event :=
  [Logged DEBUG "[TestDataLoader] Loading test data from: /repo/test-data/json/users.json"].

(** A users record whose array starts with a null item. *)
Definition null_first_record : gmap string json :=
  {[ "validUsers" := JArr [JNull; user_a] ]}.

End Samples.

(* ===================================================================== *)
(** * Part III: properties                                               *)
(* ===================================================================== *)

(** ** Strings *)

Section Strings.
#[local] Arguments String.append !_ _ / : simpl nomatch.

Lemma string_app_assoc (a b c : string) : (a +:+ b) +:+ c = a +:+ (b +:+ c).
Proof. induction a as [|x a IH]; simpl; congruence. Qed.

Lemma string_app_nil_r (a : string) : a +:+ "" = a.
Proof. induction a as [|x a IH]; simpl; congruence. Qed.

End Strings.

(** ** The report parser *)

Section Parser.
Import PlaywrightReport EmailReporter SendEmailReport ReportShape.

(** A loop that pushes onto a shared array appends, element after
    element, what each iteration pushes. *)
Lemma fold_left_push {A B} (f : B → list A → list A) (g : B → list A) :
  (∀ x acc, f x acc = acc ++ g x) →
  ∀ l acc, fold_left (λ acc x, f x acc) l acc = acc ++ flat_map g l.
Proof.
  intros Hf l. induction l as [|x l IH]; intros acc; simpl.
  - by rewrite app_nil_r.
  - by rewrite IH, Hf, <- app_assoc.
Qed.

Lemma parseTest_push spec t acc :
  parseTest spec t acc = acc ++ parseTest spec t [].
Proof.
  unfold parseTest. destruct (results t) as [rs|]; [|by rewrite app_nil_r].
  destruct (last rs); [done|by rewrite app_nil_r].
Qed.

Lemma parseSpec_push spec acc :
  parseSpec spec acc = acc ++ flat_map (λ t, parseTest spec t []) (spec_tests spec).
Proof.
  unfold parseSpec, spec_tests. destruct (tests spec) as [ts|]; simpl.
  - apply (fold_left_push (parseTest spec)). intros. apply parseTest_push.
  - by rewrite app_nil_r.
Qed.

(** Induction on a suite, with the property known for its nested suites. *)
Lemma Suite_nested_ind (P : Suite → Prop) :
  (∀ specs nestedSuites,
     Forall P (default [] nestedSuites) → P (mkSuite specs nestedSuites)) →
  ∀ suite, P suite.
Proof.
  intros H. fix IH 1. intros [specs nestedSuites]. apply H.
  destruct nestedSuites as [l|]; simpl; [|constructor].
  induction l as [|s l IHl]; constructor; [apply IH|apply IHl].
Qed.

Lemma parseTestSuite_push suite counts : ∀ acc,
  parseTestSuite suite acc counts =
  acc ++ flat_map (λ spec, parseSpec spec []) (suite_specs suite).
Proof.
  induction suite as [specs nestedSuites IH] using Suite_nested_ind.
  intros acc. simpl.
  set (tests1 := match specs with
                 | Some specs0 => fold_left (λ acc spec, parseSpec spec acc) specs0 acc
                 | None => acc
                 end).
  assert (H1 : tests1 = acc ++ flat_map (λ spec, parseSpec spec []) (default [] specs)).
  { subst tests1. destruct specs as [sp|]; simpl; [|by rewrite app_nil_r].
    apply (fold_left_push (λ spec acc, parseSpec spec acc)).
    intros x a. rewrite parseSpec_push. f_equal.
    rewrite (parseSpec_push x []). done. }
  rewrite flat_map_app, app_assoc, <- H1. clear H1. generalize tests1. clear tests1.
  destruct nestedSuites as [l|]; simpl in *; [|intros; by rewrite app_nil_r].
  induction IH as [|s l Hs _ IHl]; intros acc'; simpl.
  - by rewrite app_nil_r.
  - rewrite IHl, Hs, flat_map_app, app_assoc. done.
Qed.

(** The flattened list is the concatenation, in traversal order, of what
    each element of each spec's [tests] contributes. *)
Lemma flatten_entries report :
  flatten report =
  flat_map (λ '(spec, t), parseTest spec t []) (report_entries report).
Proof.
  unfold flatten, report_entries, report_specs.
  rewrite (fold_left_push (λ suite acc, parseTestSuite suite acc (mkCounts 0 0 0))
             (λ suite, flat_map (λ spec, parseSpec spec []) (suite_specs suite)))
    by (intros; apply parseTestSuite_push).
  simpl. induction (default [] (report_suites report)) as [|s l IH]; simpl; [done|].
  rewrite !flat_map_app, IH. f_equal.
  induction (suite_specs s) as [|sp sps IHs]; simpl; [done|].
  rewrite flat_map_app, IHs. f_equal.
  rewrite (parseSpec_push sp []). simpl.
  induction (spec_tests sp) as [|t ts IHt]; simpl; [done|]. by rewrite IHt.
Qed.

End Parser.

Section ParserClaims.
Import PlaywrightReport EmailReporter SendEmailReport ReportShape Samples.

(** What the parser pushes for one element of [tests] is decided by the
    last element of its [results]. *)
Lemma parseTest_last spec t rs lastResult :
  results t = Some rs → last rs = Some lastResult →
  ∃ r, parseTest spec t [] = [r] ∧
       TestResult.name r = title spec ∧
       TestResult.status r = status lastResult ∧
       TestResult.duration r = or_number (duration lastResult) 0 ∧
       TestResult.retries r = Some (Z.of_nat (length rs) - 1).
Proof.
  intros Hrs Hlast. unfold parseTest. rewrite Hrs, Hlast. simpl.
  eexists. split; [reflexivity|]. by repeat split.
Qed.

Lemma parseTest_inv spec t r :
  r ∈ parseTest spec t [] →
  ∃ rs lastResult,
    results t = Some rs ∧ last rs = Some lastResult ∧
    TestResult.name r = title spec ∧
    TestResult.status r = status lastResult ∧
    TestResult.duration r = or_number (duration lastResult) 0 ∧
    TestResult.retries r = Some (Z.of_nat (length rs) - 1).
Proof.
  unfold parseTest. destruct (results t) as [rs|] eqn:Hrs; [|by intros ?%elem_of_nil].
  destruct (last rs) as [l|] eqn:Hl; [|by intros ?%elem_of_nil].
  simpl. intros ->%list_elem_of_singleton. exists rs, l. by repeat split.
Qed.

Lemma or_number_present d : or_number (Some d) 0 = d.
Proof. unfold or_number. destruct (Z.eqb_spec d 0); congruence. Qed.

Lemma elem_of_flatten report r :
  r ∈ flatten report ↔
  ∃ spec t, (spec, t) ∈ report_entries report ∧ r ∈ parseTest spec t [].
Proof.
  rewrite flatten_entries, list_elem_of_In, in_flat_map. split.
  - intros [[spec t] [Hin Hr]]. exists spec, t. by rewrite !list_elem_of_In.
  - intros (spec & t & Hin & Hr). exists (spec, t). by rewrite <- !list_elem_of_In.
Qed.

(** C1.  Last attempt wins.  For every spec of a parsed report and every
    element of its [tests] whose list of attempts is non-empty, the parser
    emits a flattened result named after the spec whose status and duration
    are those of the last attempt (a duration that is present is taken as it
    is, a missing one reads 0) and whose retry count is the number of
    attempts minus 1; and every flattened result arises that way.  A spec
    with attempts failed, passed flattens to status passed with retry
    count 1. *)
Theorem C1_last_attempt_wins :
  (∀ report spec t rs lastResult,
     (spec, t) ∈ report_entries report →
     results t = Some rs → last rs = Some lastResult →
     ∃ r, r ∈ flatten report ∧
          TestResult.name r = title spec ∧
          TestResult.status r = status lastResult ∧
          TestResult.duration r = or_number (duration lastResult) 0 ∧
          (∀ d, duration lastResult = Some d → TestResult.duration r = d) ∧
          TestResult.retries r = Some (Z.of_nat (length rs) - 1)) ∧
  (∀ report r,
     r ∈ flatten report →
     ∃ spec t rs lastResult,
       (spec, t) ∈ report_entries report ∧
       results t = Some rs ∧ last rs = Some lastResult ∧
       TestResult.name r = title spec ∧
       TestResult.status r = status lastResult ∧
       TestResult.duration r = or_number (duration lastResult) 0 ∧
       TestResult.retries r = Some (Z.of_nat (length rs) - 1)) ∧
  flatten retried_report =
    [TestResult.mk "login works" "passed" 900 None (Some 1)].
Proof.
  split; [|split].
  - intros report spec t rs l Hin Hrs Hl.
    destruct (parseTest_last spec t rs l Hrs Hl) as (r & Hr & Hn & Hs & Hd & Hc).
    exists r. split; [|repeat split; try done].
    + apply elem_of_flatten. exists spec, t. split; [done|].
      rewrite Hr. by apply list_elem_of_singleton.
    + intros d Hd'. by rewrite Hd, Hd', or_number_present.
  - intros report r (spec & t & Hin & Hr)%elem_of_flatten.
    destruct (parseTest_inv spec t r Hr) as (rs & l & ?). exists spec, t, rs, l. tauto.
  - reflexivity.
Qed.

(** C1 at the retried spec of [retried_report]. *)
Lemma C1_last_attempt_wins_witness :
  ∃ r, r ∈ flatten retried_report ∧
       TestResult.name r = "login works" ∧
       TestResult.status r = "passed" ∧
       TestResult.duration r = 900 ∧
       (∀ d, Some 900 = Some d → TestResult.duration r = d) ∧
       TestResult.retries r = Some 1.
Proof.
  apply (proj1 C1_last_attempt_wins retried_report
           (spec_of "login works" [[attempt "failed" 1200; attempt "passed" 900]])
           (mkTest (Some [attempt "failed" 1200; attempt "passed" 900]))
           [attempt "failed" 1200; attempt "passed" 900]
           (attempt "passed" 900)).
  - apply list_elem_of_In. simpl. auto.
  - reflexivity.
  - reflexivity.
Defined.

Lemma has_attempts_last t :
  has_attempts t = true ↔ ∃ rs l, results t = Some rs ∧ last rs = Some l.
Proof.
  unfold has_attempts, attempts. destruct (results t) as [rs|]; simpl.
  - destruct rs as [|x rs] using rev_ind; simpl.
    + split; [done|]. by intros (? & ? & [= <-] & ?).
    + split; [|by destruct (rs ++ [x]) eqn:E; [destruct rs; discriminate|]].
      intros _. exists (rs ++ [x]), x. by rewrite last_snoc.
  - split; [done|]. by intros (? & ? & ? & ?).
Qed.

Lemma parseTest_length spec t :
  length (parseTest spec t []) = if has_attempts t then 1%nat else 0%nat.
Proof.
  destruct (has_attempts t) eqn:H.
  - apply has_attempts_last in H as (rs & l & Hrs & Hl).
    by destruct (parseTest_last spec t rs l Hrs Hl) as (r & -> & _).
  - unfold parseTest. destruct (results t) as [rs|] eqn:Hrs; [|done].
    destruct (last rs) as [l|] eqn:Hl; [|done].
    assert (has_attempts t = true) by (apply has_attempts_last; eauto). congruence.
Qed.

Lemma flatten_length report :
  length (flatten report) =
  length (List.filter (λ e, has_attempts e.2) (report_entries report)).
Proof.
  rewrite flatten_entries.
  induction (report_entries report) as [|[spec t] es IH]; simpl; [done|].
  rewrite length_app, IH, parseTest_length. by destruct (has_attempts t).
Qed.

Lemma parsePlaywrightReport_ok rt reportPath content report tr :
  files rt !! reportPath = Some content →
  JSON_parse_report rt content = Ok report →
  ∃ data, parsePlaywrightReport rt reportPath tr = (Ok data, tr) ∧
          EmailReportData.tests data = flatten report ∧
          TestResultSummary.totalTests (EmailReportData.summary data) =
            Z.of_nat (length (flatten report)) ∧
          (TestResultSummary.passed (EmailReportData.summary data),
           TestResultSummary.failed (EmailReportData.summary data),
           TestResultSummary.skipped (EmailReportData.summary data)) =
            countResults (flatten report).
Proof.
  intros Hfile Hparse. unfold parsePlaywrightReport, existsSync, readFileSync.
  rewrite Hfile. rewrite bool_decide_true by eauto. simpl.
  unfold mbind, M_bind, bind, lift. rewrite Hparse.
  destruct (countResults (flatten report)) as [[p f] k]. simpl.
  eexists. split; [reflexivity|]. by repeat split.
Qed.

(** C2, as stated, fails: a spec run under two projects has two elements
    in [tests]; each has an attempt, and each gives a flattened result.
    One spec, two results. *)
Lemma C2_counterexample :
  (∀ spec, spec ∈ report_specs two_project_report → spec_has_attempt spec) ∧
  length (report_specs two_project_report) = 1%nat ∧
  length (flatten two_project_report) = 2%nat.
Proof.
  split; [|split; reflexivity].
  intros spec Hin. apply list_elem_of_In in Hin. simpl in Hin.
  destruct Hin as [<-|[]].
  exists (mkTest (Some [attempt "passed" 900])). split; [|reflexivity].
  apply list_elem_of_In. simpl. auto.
Qed.

(** C2, amended.  The parser emits exactly one flattened result for every
    element of a spec's [tests] (at any nesting depth of suites) that has at
    least one attempt: so a report whose N specs have one such element each
    gives exactly N results.  An element with zero attempts pushes nothing,
    and parsing a report that exists and deserializes returns the flattened
    list without throwing, whatever the attempts. *)
Theorem C2_one_result_per_test_with_attempts :
  (∀ report,
     length (flatten report) =
     length (List.filter (λ e, has_attempts e.2) (report_entries report))) ∧
  (∀ report,
     (∀ spec, spec ∈ report_specs report →
              ∃ t, spec_tests spec = [t] ∧ has_attempts t = true) →
     length (flatten report) = length (report_specs report)) ∧
  (∀ spec t acc, has_attempts t = false → parseTest spec t acc = acc) ∧
  (∀ rt reportPath content report tr,
     files rt !! reportPath = Some content →
     JSON_parse_report rt content = Ok report →
     ∃ data, parsePlaywrightReport rt reportPath tr = (Ok data, tr) ∧
             EmailReportData.tests data = flatten report).
Proof.
  split; [exact flatten_length|]. split; [|split].
  - intros report H. rewrite flatten_length. unfold report_entries.
    induction (report_specs report) as [|spec specs IH]; simpl; [done|].
    destruct (H spec) as (t & Ht & Hatt); [by left|].
    rewrite Ht. simpl. rewrite Hatt. simpl. f_equal. apply IH.
    intros sp Hsp. apply H. by right.
  - intros spec t acc Hno. rewrite parseTest_push.
    pose proof (parseTest_length spec t) as Hlen. rewrite Hno in Hlen.
    destruct (parseTest spec t []); [by rewrite app_nil_r|done].
  - intros rt reportPath content report tr Hfile Hparse.
    destruct (parsePlaywrightReport_ok rt reportPath content report tr Hfile Hparse)
      as (data & ? & ? & _).
    by exists data.
Qed.

(** C2 (amended) at [nested_report]: the spec two suites deep gives the one
    result; the spec without attempts gives none. *)
Lemma C2_one_result_per_test_with_attempts_witness :
  length (flatten nested_report) = 1%nat ∧
  (∃ data,
     parsePlaywrightReport
       (runtime_with {[ "reports/test-results.json" := "{}" ]} sample_settings
          (λ _, Ok JNull) (Ok nested_report) None None)
       "reports/test-results.json" [] = (Ok data, []) ∧
     EmailReportData.tests data = flatten nested_report).
Proof.
  split.
  - exact (proj1 C2_one_result_per_test_with_attempts nested_report).
  - apply (proj2 (proj2 (proj2 C2_one_result_per_test_with_attempts))
             _ "reports/test-results.json" "{}" nested_report []).
    + reflexivity.
    + reflexivity.
Defined.

Lemma countResults_from tests : ∀ p f k,
  let '(p', f', k') :=
    fold_left
      (λ '(passed, failed, skipped) test,
         if String.eqb (TestResult.status test) "passed" then (passed + 1, failed, skipped)
         else if String.eqb (TestResult.status test) "failed" then (passed, failed + 1, skipped)
         else if String.eqb (TestResult.status test) "skipped" then (passed, failed, skipped + 1)
         else (passed, failed, skipped))
      tests (p, f, k) in
  p' + f' + k' = p + f + k + Z.of_nat (length (List.filter counted tests)).
Proof.
  induction tests as [|t tests IH]; intros p f k; simpl; [lia|].
  unfold counted at 1.
  destruct (String.eqb (TestResult.status t) "passed") eqn:E1; simpl.
  { specialize (IH (p + 1) f k). destruct (fold_left _ _ _) as [[p' f'] k'].
    simpl length. lia. }
  destruct (String.eqb (TestResult.status t) "failed") eqn:E2; simpl.
  { specialize (IH p (f + 1) k). destruct (fold_left _ _ _) as [[p' f'] k'].
    simpl length. lia. }
  destruct (String.eqb (TestResult.status t) "skipped") eqn:E3; simpl.
  { specialize (IH p f (k + 1)). destruct (fold_left _ _ _) as [[p' f'] k'].
    simpl length. lia. }
  apply IH.
Qed.

(** The three counters add up to the number of results whose status is one
    of passed, failed and skipped: to the total exactly when every status
    is. *)
Lemma countResults_sum tests :
  let '(passed, failed, skipped) := countResults tests in
  passed + failed + skipped = Z.of_nat (length (List.filter counted tests)).
Proof.
  pose proof (countResults_from tests 0 0 0) as H. unfold countResults.
  destruct (fold_left _ _ _) as [[p f] k]. lia.
Qed.

Lemma countResults_total tests :
  Forall (λ t, counted t = true) tests →
  let '(passed, failed, skipped) := countResults tests in
  Z.of_nat (length tests) = passed + failed + skipped.
Proof.
  intros Hall. pose proof (countResults_sum tests) as H.
  assert (Hfilter : List.filter counted tests = tests).
  { clear H. induction Hall as [|t ts Ht _ IH]; simpl; [done|]. by rewrite Ht, IH. }
  destruct (countResults tests) as [[p f] k]. by rewrite H, Hfilter.
Qed.

(** C3 does not hold of the code: a result whose status is none of passed,
    failed and skipped has no case in the counting loop.  A report whose one
    spec ended in the status timedOut gives a summary with one test in
    total and none passed, failed or skipped. *)
Theorem C3_timed_out_is_in_no_counter :
  ∃ data,
    parsePlaywrightReport
      (runtime_with {[ "reports/test-results.json" := "{}" ]} sample_settings
         (λ _, Ok JNull) (Ok timed_out_report) None None)
      "reports/test-results.json" [] = (Ok data, []) ∧
    TestResultSummary.totalTests (EmailReportData.summary data) = 1 ∧
    TestResultSummary.passed (EmailReportData.summary data) = 0 ∧
    TestResultSummary.failed (EmailReportData.summary data) = 0 ∧
    TestResultSummary.skipped (EmailReportData.summary data) = 0 ∧
    SquashTM.toSquashStatus "timedOut" = SquashTM.FAILED.
Proof.
  eexists. split; [vm_compute; reflexivity|]. by repeat split.
Qed.

End ParserClaims.

(** ** Binary64 arithmetic

    What the specification of the primitive floats ([FloatAxioms]) says
    about the quotient and the product the pass rate is made of: each is
    the exact result up to one part in [2^52]. *)

Section Binary64.
Import EmailReporter PassRate.

(** The number of binary digits of a positive integer. *)
Lemma digits2_pos_bounds p :
  2 ^ (Z.pos (digits2_pos p) - 1) <= Z.pos p < 2 ^ Z.pos (digits2_pos p).
Proof.
  induction p as [p IH|p IH|]; cbn [digits2_pos].
  - rewrite Pos2Z.inj_succ, Z.pow_succ_r by lia.
    replace (Z.succ (Z.pos (digits2_pos p)) - 1) with (Z.succ (Z.pos (digits2_pos p) - 1))
      by lia.
    rewrite Z.pow_succ_r by lia. lia.
  - rewrite Pos2Z.inj_succ, Z.pow_succ_r by lia.
    replace (Z.succ (Z.pos (digits2_pos p)) - 1) with (Z.succ (Z.pos (digits2_pos p) - 1))
      by lia.
    rewrite Z.pow_succ_r by lia. lia.
  - simpl. lia.
Qed.

Lemma Zdigits2_unique m d :
  2 ^ (d - 1) <= m < 2 ^ d → 0 < d → Zdigits2 m = d.
Proof.
  intros [Hlo Hhi] Hd.
  assert (0 < m) by (pose proof (Z.pow_pos_nonneg 2 (d - 1)); lia).
  destruct m as [|p|p]; try lia. cbn [Zdigits2].
  pose proof (digits2_pos_bounds p) as [Hlo' Hhi'].
  destruct (Z.lt_trichotomy (Z.pos (digits2_pos p)) d) as [Hlt|[Heq|Hgt]]; [|done|].
  - assert (2 ^ Z.pos (digits2_pos p) <= 2 ^ (d - 1)) by (apply Z.pow_le_mono_r; lia). lia.
  - assert (2 ^ d <= 2 ^ (Z.pos (digits2_pos p) - 1)) by (apply Z.pow_le_mono_r; lia). lia.
Qed.

(** Shifting a mantissa right by one bit, and by [p] bits, halves it. *)
Lemma shr_1_m mrs : 0 <= shr_m mrs → shr_m (shr_1 mrs) = shr_m mrs / 2.
Proof.
  destruct mrs as [m r s]. cbn [shr_m shr_1]. intros Hm.
  destruct m as [|[p|p|]|p]; cbn [shr_m]; try lia; try reflexivity.
  - rewrite (Pos2Z.inj_xI p). apply Z.div_unique with 1; lia.
  - rewrite (Pos2Z.inj_xO p). apply Z.div_unique with 0; lia.
Qed.

Lemma iter_shr_m p : ∀ mrs,
  0 <= shr_m mrs → shr_m (SpecFloat.iter_pos shr_1 p mrs) = shr_m mrs / 2 ^ Z.pos p.
Proof.
  assert (Hpow : ∀ q, 0 < 2 ^ Z.pos q) by (intros q; apply Z.pow_pos_nonneg; lia).
  assert (Hnn : ∀ mrs, 0 <= shr_m mrs → 0 <= shr_m (shr_1 mrs)).
  { intros mrs H. rewrite shr_1_m by done. apply Z.div_pos; lia. }
  induction p as [p IH|p IH|]; intros mrs Hm; cbn [SpecFloat.iter_pos].
  - assert (H1 : 0 <= shr_m (shr_1 mrs)) by auto.
    assert (H2 : 0 <= shr_m (SpecFloat.iter_pos shr_1 p (shr_1 mrs))).
    { rewrite IH by done. apply Z.div_pos; [done|apply Hpow]. }
    rewrite IH, IH, shr_1_m by done.
    rewrite !Z.div_div by (try apply Hpow; lia).
    f_equal. rewrite (Pos2Z.inj_xI p).
    replace (2 * Z.pos p + 1) with (1 + Z.pos p + Z.pos p) by lia.
    rewrite (Z.pow_add_r 2 (1 + Z.pos p)), (Z.pow_add_r 2 1) by lia.
    change (2 ^ 1) with 2. ring.
  - assert (H2 : 0 <= shr_m (SpecFloat.iter_pos shr_1 p mrs)).
    { rewrite IH by done. apply Z.div_pos; [done|apply Hpow]. }
    rewrite IH, IH by done.
    rewrite !Z.div_div by (try apply Hpow; lia).
    f_equal. rewrite (Pos2Z.inj_xO p).
    replace (2 * Z.pos p) with (Z.pos p + Z.pos p) by lia.
    by rewrite Z.pow_add_r by lia.
  - by rewrite shr_1_m.
Qed.

(** Rounding to nearest keeps the mantissa or adds one. *)
Lemma round_nearest_even_range m l :
  m <= round_nearest_even m l <= m + 1.
Proof. destruct l as [|[]]; cbn; try destruct (Z.even m); lia. Qed.

Lemma shr_record_of_loc_m m l : shr_m (shr_record_of_loc m l) = m.
Proof. by destruct l as [|[]]. Qed.

Lemma Zdigits2_bounds m :
  0 < m → 2 ^ (Zdigits2 m - 1) <= m < 2 ^ Zdigits2 m.
Proof. destruct m as [|p|p]; try lia. intros _. apply digits2_pos_bounds. Qed.

(** The first step of rounding: the mantissa loses its [n] low bits. *)
Lemma shr_fexp_m m e l :
  0 < m → 0 <= Zdigits2 m - 53 → -1074 <= e + (Zdigits2 m - 53) →
  ∃ mrs,
    shr_fexp prec emax m e l = (mrs, e + (Zdigits2 m - 53)) ∧
    shr_m mrs = m / 2 ^ (Zdigits2 m - 53).
Proof.
  intros Hm Hn He. unfold shr_fexp, fexp, SpecFloat.emin, prec, emax.
  rewrite Z.max_l by lia.
  replace (Zdigits2 m + e - 53 - e) with (Zdigits2 m - 53) by lia.
  destruct (Zdigits2 m - 53) as [|p|p] eqn:Hd; try lia; cbn [shr].
  - eexists. split; [by rewrite Z.add_0_r|].
    by rewrite shr_record_of_loc_m, Z.div_1_r.
  - eexists. split; [done|].
    rewrite iter_shr_m; rewrite shr_record_of_loc_m; [done|lia].
Qed.

(** Rounding a positive mantissa of at least 53 bits: the result is a
    normal number whose value, in units of the last place kept, is the
    quotient cut off or the next integer. *)
Lemma binary_round_aux_normal sx m e l :
  0 < m → 0 <= Zdigits2 m - 53 →
  -1074 <= e + (Zdigits2 m - 53) → e + (Zdigits2 m - 53) + 1 <= 971 →
  ∃ m' e',
    binary_round_aux prec emax sx m e l = S754_finite sx m' e' ∧
    2 ^ 52 <= Z.pos m' < 2 ^ 53 ∧
    e + (Zdigits2 m - 53) <= e' <= e + (Zdigits2 m - 53) + 1 ∧
    m / 2 ^ (Zdigits2 m - 53) <= Z.pos m' * 2 ^ (e' - (e + (Zdigits2 m - 53)))
      <= m / 2 ^ (Zdigits2 m - 53) + 1.
Proof.
  intros Hm Hn Hlo Hhi. unfold binary_round_aux. change (emax - prec) with 971.
  destruct (shr_fexp_m m e l Hm Hn Hlo) as (mrs & -> & Hmrs). cbv beta iota.
  pose proof (Zdigits2_bounds m Hm) as [Hd1 Hd2].
  set (n := Zdigits2 m - 53) in *. set (e0 := e + n) in *.
  assert (Hpn : 0 < 2 ^ n) by (apply Z.pow_pos_nonneg; lia).
  assert (Hm0 : 2 ^ 52 <= m / 2 ^ n < 2 ^ 53).
  { split.
    - apply Z.div_le_lower_bound; [done|]. rewrite <- Z.pow_add_r by lia.
      replace (n + 52) with (Zdigits2 m - 1) by lia. done.
    - apply Z.div_lt_upper_bound; [done|]. rewrite <- Z.pow_add_r by lia.
      replace (n + 53) with (Zdigits2 m) by lia. done. }
  pose proof (round_nearest_even_range (shr_m mrs) (loc_of_shr_record mrs)) as Hr.
  set (m1 := round_nearest_even (shr_m mrs) (loc_of_shr_record mrs)) in *.
  rewrite Hmrs in Hr. clearbody m1.
  destruct (Z.eq_dec m1 (2 ^ 53)) as [Heq|Hne].
  - assert (Hd : Zdigits2 m1 = 54) by (apply Zdigits2_unique; [rewrite Heq|]; lia).
    destruct (shr_fexp_m m1 e0 loc_Exact) as (mrs2 & -> & Hmrs2); [lia..|].
    rewrite Hd, Heq in Hmrs2. change (2 ^ 53 / 2 ^ (54 - 53)) with (2 ^ 52) in Hmrs2.
    rewrite Hmrs2, Hd. change (2 ^ 52) with (Z.pos (Z.to_pos (2 ^ 52))). cbv iota.
    rewrite (proj2 (Z.leb_le _ _)) by lia.
    eexists _, _. split; [done|]. split; [by vm_compute|]. split; [lia|].
    replace (e0 + (54 - 53) - e0) with 1 by lia.
    change (Z.pos (Z.to_pos (2 ^ 52)) * 2 ^ 1) with (2 ^ 53). lia.
  - assert (Hd : Zdigits2 m1 = 53) by (apply Zdigits2_unique; lia).
    destruct (shr_fexp_m m1 e0 loc_Exact) as (mrs2 & -> & Hmrs2); [lia..|].
    rewrite Hd in Hmrs2. change (2 ^ (53 - 53)) with 1 in Hmrs2.
    rewrite Z.div_1_r in Hmrs2. rewrite Hmrs2, Hd.
    destruct m1 as [|p1|p1] eqn:Hm1; try lia.
    rewrite (proj2 (Z.leb_le _ _)) by lia.
    eexists _, _. split; [done|]. split; [lia|]. split; [lia|].
    replace (e0 + (53 - 53) - e0) with 0 by lia. rewrite Z.mul_1_r. lia.
Qed.

(** A mantissa of 53 bits with an exponent in range is kept as it is. *)
Lemma binary_round_aux_exact sx m e :
  Z.pos (digits2_pos m) = 53 → -1074 <= e <= 971 →
  binary_round_aux prec emax sx (Z.pos m) e loc_Exact = S754_finite sx m e.
Proof.
  intros Hd He.
  unfold binary_round_aux, shr_fexp, fexp, SpecFloat.emin, prec, emax.
  cbn [Zdigits2 shr_record_of_loc]. rewrite Hd, Z.max_l by lia.
  replace (53 + e - 53 - e) with 0 by lia.
  cbn [shr shr_m loc_of_shr_record round_nearest_even].
  cbn [Zdigits2 shr_record_of_loc]. rewrite Hd, Z.max_l by lia.
  replace (53 + e - 53 - e) with 0 by lia. cbn [shr shr_m].
  by rewrite (proj2 (Z.leb_le _ _)) by lia.
Qed.

(** An integer counter below [2^53] is a float exactly: its mantissa is
    the counter shifted to 53 bits. *)
Lemma number_finite p :
  0 < p < 2 ^ 53 →
  ∃ m e,
    Prim2SF (number p) = S754_finite false m e ∧
    Z.pos (digits2_pos m) = 53 ∧ -52 <= e <= 0 ∧ Z.pos m = p * 2 ^ (- e).
Proof.
  intros Hp. unfold number. rewrite (proj2 (Z.ltb_ge _ _)) by lia.
  rewrite of_uint63_spec, of_Z_spec, Z.mod_small
    by (change wB with (2 ^ 63); split; [lia|];
        apply Z.lt_trans with (2 ^ 53); [lia|done]).
  destruct p as [|p|p]; try lia. cbn [binary_normalize].
  unfold binary_round, shl_align, fexp, SpecFloat.emin, prec, emax.
  pose proof (digits2_pos_bounds p) as [Hlo Hhi].
  assert (Hd : Z.pos (digits2_pos p) <= 53).
  { destruct (Z.le_gt_cases (Z.pos (digits2_pos p)) 53) as [|Hgt]; [done|].
    assert (2 ^ 53 <= 2 ^ (Z.pos (digits2_pos p) - 1)) by (apply Z.pow_le_mono_r; lia).
    lia. }
  rewrite Z.add_0_r, Z.sub_0_r, Z.max_l by lia.
  destruct (Z.pos (digits2_pos p) - 53) as [|k|k] eqn:Hk; try lia.
  - rewrite binary_round_aux_exact by lia.
    exists p, 0. repeat split; lia.
  - change (Pos.iter xO p k) with (shift_pos k p).
    assert (Hm : Z.pos (shift_pos k p) = Z.pos p * 2 ^ Z.pos k).
    { rewrite shift_pos_correct. change (Z.pow_pos 2 k) with (2 ^ Z.pos k). lia. }
    assert (Hpk : 0 < 2 ^ Z.pos k) by (apply Z.pow_pos_nonneg; lia).
    assert (Hdm : Z.pos (digits2_pos (shift_pos k p)) = 53).
    { apply (Zdigits2_unique (Z.pos (shift_pos k p)) 53); [|lia]. rewrite Hm. split.
      - replace (53 - 1) with (Z.pos (digits2_pos p) - 1 + Z.pos k) by lia.
        rewrite Z.pow_add_r by lia. nia.
      - replace (2 ^ 53) with (2 ^ (Z.pos (digits2_pos p) + Z.pos k)) by (f_equal; lia).
        rewrite Z.pow_add_r by lia. nia. }
    rewrite binary_round_aux_exact by lia.
    exists (shift_pos k p), (Z.neg k). repeat split; try lia.
    by rewrite Hm.
Qed.

(** Powers of two as real numbers. *)
Lemma powerRZ_2_nonneg n : 0 <= n → powerRZ 2 n = IZR (2 ^ n).
Proof.
  intros Hn. rewrite <- (Z2Nat.id n) at 1 by done.
  rewrite <- pow_powerRZ, pow_IZR. by rewrite Z2Nat.id.
Qed.

Lemma powerRZ_2_pos n : (0 < powerRZ 2 n)%R.
Proof. apply powerRZ_lt. lra. Qed.

Lemma powerRZ_2_add a b : powerRZ 2 (a + b) = (powerRZ 2 a * powerRZ 2 b)%R.
Proof. apply powerRZ_add. lra. Qed.

(** The same in real numbers: rounding a positive quantity [r * 2^e],
    whose integer part [m] has at least 53 bits, changes it by at most one
    part in [2^52]. *)
Lemma binary_round_aux_error sx m e l (r : R) :
  0 < m → 0 <= Zdigits2 m - 53 →
  -1074 <= e + (Zdigits2 m - 53) → e + (Zdigits2 m - 53) + 1 <= 971 →
  (IZR m <= r < IZR m + 1)%R →
  ∃ m' e',
    binary_round_aux prec emax sx m e l = S754_finite sx m' e' ∧
    2 ^ 52 <= Z.pos m' < 2 ^ 53 ∧
    e + (Zdigits2 m - 53) <= e' <= e + (Zdigits2 m - 53) + 1 ∧
    ((1 - / 4503599627370496) * (r * powerRZ 2 e) <= float_value m' e'
       <= (1 + / 4503599627370496) * (r * powerRZ 2 e))%R.
Proof.
  intros Hm Hn Hlo Hhi Hr.
  destruct (binary_round_aux_normal sx m e l Hm Hn Hlo Hhi)
    as (m' & e' & Heq & Hm' & He' & Hq).
  exists m', e'. split; [done|]. split; [done|]. split; [done|].
  pose proof (Zdigits2_bounds m Hm) as [Hd1 Hd2].
  set (n := Zdigits2 m - 53) in *. set (e0 := e + n) in *.
  assert (Hpn : 0 < 2 ^ n) by (apply Z.pow_pos_nonneg; lia).
  set (m0 := m / 2 ^ n) in *.
  assert (Hm0 : 2 ^ 52 <= m0).
  { apply Z.div_le_lower_bound; [done|]. rewrite <- Z.pow_add_r by lia.
    replace (n + 52) with (Zdigits2 m - 1) by lia. done. }
  assert (Hfloor : 2 ^ n * m0 <= m < 2 ^ n * (m0 + 1)).
  { split; [apply Z.mul_div_le; lia|]. apply (Z.mul_succ_div_gt m (2 ^ n)). lia. }
  unfold float_value.
  replace e' with ((e' - e0) + e0) at 1 2 by lia.
  replace e with (- n + e0) by lia.
  rewrite !powerRZ_2_add, (powerRZ_2_nonneg (e' - e0)) by lia.
  rewrite powerRZ_neg', (powerRZ_2_nonneg n) by lia.
  pose proof (powerRZ_2_pos e0) as He0.
  set (E0 := powerRZ 2 e0) in *.
  rewrite <- !Rmult_assoc, <- mult_IZR.
  set (m1 := Z.pos m' * 2 ^ (e' - e0)) in *.
  assert (HN : (0 < IZR (2 ^ n))%R) by (by apply IZR_lt).
  set (rho := (r * / IZR (2 ^ n))%R).
  assert (Hrho : (IZR m0 <= rho < IZR m0 + 1)%R).
  { destruct Hfloor as [Hf1 Hf2].
    apply IZR_le in Hf1. rewrite mult_IZR in Hf1.
    assert (Hf3 : 2 ^ n * (m0 + 1) >= m + 1) by lia.
    apply Z.ge_le, IZR_le in Hf3. rewrite mult_IZR, !plus_IZR in Hf3.
    unfold rho. split.
    - apply (Rmult_le_reg_l (IZR (2 ^ n))); [done|].
      replace (IZR (2 ^ n) * (r * / IZR (2 ^ n)))%R with r by (field; lra). lra.
    - apply (Rmult_lt_reg_l (IZR (2 ^ n))); [done|].
      replace (IZR (2 ^ n) * (r * / IZR (2 ^ n)))%R with r by (field; lra). lra. }
  assert (Hm1 : (IZR m0 <= IZR m1 <= IZR m0 + 1)%R).
  { destruct Hq as [Hq1 Hq2]. apply IZR_le in Hq1, Hq2. rewrite plus_IZR in Hq2.
    done. }
  assert (Hbig : (4503599627370496 <= IZR m0)%R) by (by apply IZR_le in Hm0).
  split.
  - apply Rmult_le_compat_r; [lra|].
    replace ((1 - / 4503599627370496) * r * / IZR (2 ^ n))%R
      with ((1 - / 4503599627370496) * rho)%R by (unfold rho; ring). lra.
  - apply Rmult_le_compat_r; [lra|].
    replace ((1 + / 4503599627370496) * r * / IZR (2 ^ n))%R
      with ((1 + / 4503599627370496) * rho)%R by (unfold rho; ring). lra.
Qed.

(** The digits of an integer between two powers of two. *)
Lemma Zdigits2_between m a b :
  0 <= a → 2 ^ a <= m < 2 ^ b → a < Zdigits2 m <= b.
Proof.
  intros Ha [Hlo Hhi].
  assert (Hm : 0 < m) by (pose proof (Z.pow_pos_nonneg 2 a); lia).
  pose proof (Zdigits2_bounds m Hm) as [Hd1 Hd2].
  assert (0 < Zdigits2 m) by (destruct m; cbn; lia).
  split.
  - destruct (Z.lt_ge_cases a (Zdigits2 m)) as [|Hge]; [done|].
    assert (2 ^ Zdigits2 m <= 2 ^ a) by (apply Z.pow_le_mono_r; lia). lia.
  - destruct (Z.le_gt_cases (Zdigits2 m) b) as [|Hgt]; [done|].
    assert (0 <= b).
    { destruct (Z.le_gt_cases 0 b); [done|]. rewrite Z.pow_neg_r in Hhi by done. lia. }
    assert (2 ^ b <= 2 ^ (Zdigits2 m - 1)) by (apply Z.pow_le_mono_r; lia). lia.
Qed.

Lemma float_value_pos m e : (0 < float_value m e)%R.
Proof.
  unfold float_value. apply Rmult_lt_0_compat; [|apply powerRZ_2_pos].
  apply (IZR_lt 0). lia.
Qed.

(** The quotient of two normal numbers, away from overflow and underflow,
    is the exact quotient up to one part in [2^52]. *)
Lemma SF64div_error mx ex my ey :
  Z.pos (digits2_pos mx) = 53 → Z.pos (digits2_pos my) = 53 →
  -500 <= ex - ey <= 500 →
  ∃ mz ez,
    SF64div (S754_finite false mx ex) (S754_finite false my ey) =
      S754_finite false mz ez ∧
    2 ^ 52 <= Z.pos mz < 2 ^ 53 ∧
    ex - ey - 53 <= ez <= ex - ey - 51 ∧
    ((1 - / 4503599627370496) * (float_value mx ex / float_value my ey)
       <= float_value mz ez
       <= (1 + / 4503599627370496) * (float_value mx ex / float_value my ey))%R.
Proof.
  intros Hdx Hdy He.
  pose proof (digits2_pos_bounds mx) as Hx. pose proof (digits2_pos_bounds my) as Hy.
  rewrite Hdx in Hx. rewrite Hdy in Hy.
  change (2 ^ (53 - 1)) with (2 ^ 52) in *.
  unfold SF64div, SFdiv, SFdiv_core_binary, fexp, SpecFloat.emin, prec, emax.
  cbn [Zdigits2 xorb]. rewrite Hdx, Hdy.
  replace (53 + ex - (53 + ey) - 53) with (ex - ey - 53) by lia.
  rewrite Z.max_l, Z.min_l by lia.
  replace (ex - ey - (ex - ey - 53)) with 53 by lia. cbv iota.
  rewrite Z.shiftl_mul_pow2 by lia.
  pose proof (Z_div_mod (Z.pos mx * 2 ^ 53) (Z.pos my) ltac:(lia)) as Hdiv.
  destruct (Z.div_eucl (Z.pos mx * 2 ^ 53) (Z.pos my)) as [q rem].
  destruct Hdiv as [Hdiv Hrem].
  assert (Hq : 2 ^ 52 <= q < 2 ^ 54) by (split; nia).
  pose proof (Zdigits2_between q 52 54 ltac:(lia) Hq) as Hdq.
  destruct (binary_round_aux_error false q (ex - ey - 53)
              (new_location (Z.pos my) rem)
              (IZR (Z.pos mx * 2 ^ 53) / IZR (Z.pos my))%R)
    as (mz & ez & Heq & Hmz & Hez & Herr); try lia.
  { assert (Hmy : (0 < IZR (Z.pos my))%R) by (apply (IZR_lt 0); lia).
    rewrite Hdiv, plus_IZR, mult_IZR.
    destruct Hrem as [Hr1 Hr2]. apply IZR_le in Hr1. apply IZR_lt in Hr2.
    split.
    - apply (Rmult_le_reg_r (IZR (Z.pos my))); [done|].
      replace ((IZR (Z.pos my) * IZR q + IZR rem) / IZR (Z.pos my) * IZR (Z.pos my))%R
        with (IZR (Z.pos my) * IZR q + IZR rem)%R by (field; lra). lra.
    - apply (Rmult_lt_reg_r (IZR (Z.pos my))); [done|].
      replace ((IZR (Z.pos my) * IZR q + IZR rem) / IZR (Z.pos my) * IZR (Z.pos my))%R
        with (IZR (Z.pos my) * IZR q + IZR rem)%R by (field; lra). lra. }
  exists mz, ez. split; [done|]. split; [done|]. split; [lia|].
  replace (float_value mx ex / float_value my ey)%R
    with (IZR (Z.pos mx * 2 ^ 53) / IZR (Z.pos my) * powerRZ 2 (ex - ey - 53))%R; [done|].
  unfold float_value.
  replace (ex - ey - 53) with (ex + (- ey + - (53))) by lia.
  rewrite !powerRZ_2_add, !powerRZ_neg', (powerRZ_2_nonneg 53), mult_IZR by lia.
  pose proof (powerRZ_2_pos ey).
  assert ((0 < IZR (Z.pos my))%R) by (apply (IZR_lt 0); lia).
  assert ((0 < IZR (2 ^ 53))%R) by (by apply (IZR_lt 0)).
  field. lra.
Qed.

(** The product of two normal numbers, away from overflow and underflow,
    is the exact product up to one part in [2^52]. *)
Lemma SF64mul_error mx ex my ey :
  Z.pos (digits2_pos mx) = 53 → Z.pos (digits2_pos my) = 53 →
  -500 <= ex + ey <= 500 →
  ∃ mz ez,
    SF64mul (S754_finite false mx ex) (S754_finite false my ey) =
      S754_finite false mz ez ∧
    2 ^ 52 <= Z.pos mz < 2 ^ 53 ∧
    ex + ey + 52 <= ez <= ex + ey + 54 ∧
    ((1 - / 4503599627370496) * (float_value mx ex * float_value my ey)
       <= float_value mz ez
       <= (1 + / 4503599627370496) * (float_value mx ex * float_value my ey))%R.
Proof.
  intros Hdx Hdy He.
  pose proof (digits2_pos_bounds mx) as Hx. pose proof (digits2_pos_bounds my) as Hy.
  rewrite Hdx in Hx. rewrite Hdy in Hy.
  change (2 ^ (53 - 1)) with (2 ^ 52) in *.
  unfold SF64mul, SFmul. cbn [xorb].
  assert (Hq : 2 ^ 104 <= Z.pos (mx * my) < 2 ^ 106).
  { rewrite Pos2Z.inj_mul. change (2 ^ 104) with (2 ^ 52 * 2 ^ 52).
    change (2 ^ 106) with (2 ^ 53 * 2 ^ 53). split; nia. }
  pose proof (Zdigits2_between _ 104 106 ltac:(lia) Hq) as Hdq.
  destruct (binary_round_aux_error false (Z.pos (mx * my)) (ex + ey) loc_Exact
              (IZR (Z.pos (mx * my))))
    as (mz & ez & Heq & Hmz & Hez & Herr); try lia; [lra|].
  exists mz, ez. split; [done|]. split; [done|]. split; [lia|].
  replace (float_value mx ex * float_value my ey)%R
    with (IZR (Z.pos (mx * my)) * powerRZ 2 (ex + ey))%R; [done|].
  unfold float_value. rewrite powerRZ_2_add, Pos2Z.inj_mul, mult_IZR. ring.
Qed.

(** The float of an integer counter stands for that integer. *)
Lemma float_value_number m e p :
  e <= 0 → Z.pos m = p * 2 ^ (- e) → float_value m e = IZR p.
Proof.
  intros He Hm. unfold float_value. rewrite Hm, mult_IZR.
  replace e with (- - e) at 2 by lia.
  rewrite powerRZ_neg', (powerRZ_2_nonneg (- e)) by lia.
  assert ((0 < IZR (2 ^ (- e)))%R).
  { apply (IZR_lt 0). apply Z.pow_pos_nonneg; lia. }
  field. lra.
Qed.

Lemma normal_digits m : 2 ^ 52 <= Z.pos m < 2 ^ 53 → Z.pos (digits2_pos m) = 53.
Proof. intros H. by apply (Zdigits2_unique (Z.pos m) 53). Qed.

(** Rounding half up a quotient [mf / w] that lies within one half of
    [100 * p / t]. *)
Lemma round_half_up_close p t mf w :
  0 < t → 0 < w →
  200 * p * w - w < 2 * mf * t < 200 * p * w + w →
  (2 * mf + w) / (2 * w) = round_percent p t ∨
  (tie p t = true ∧ (2 * mf + w) / (2 * w) = round_percent p t - 1).
Proof.
  intros Ht Hw [Hlo Hhi]. unfold round_percent, tie.
  pose proof (Z.mul_div_le (200 * p + t) (2 * t) ltac:(lia)) as HA.
  pose proof (Z.mul_succ_div_gt (200 * p + t) (2 * t) ltac:(lia)) as HB.
  set (k := (200 * p + t) / (2 * t)) in *.
  assert (Hle : (2 * mf + w) / (2 * w) <= k).
  { apply Z.lt_succ_r, Z.div_lt_upper_bound; [lia|].
    apply (Z.mul_lt_mono_pos_r t); [done|].
    assert (w * (200 * p + t + 1) <= w * (2 * t * Z.succ k))
      by (apply Z.mul_le_mono_nonneg_l; lia).
    lia. }
  assert (Hge : k - 1 <= (2 * mf + w) / (2 * w)).
  { apply Z.div_le_lower_bound; [lia|].
    apply (Z.mul_le_mono_pos_r _ _ t); [done|].
    assert (w * (2 * t * k) <= w * (200 * p + t))
      by (apply Z.mul_le_mono_nonneg_l; lia).
    assert (w * 1 <= w * t) by (apply Z.mul_le_mono_nonneg_l; lia).
    lia. }
  destruct (Z.eqb_spec ((200 * p) mod (2 * t)) t) as [Htie|Htie].
  - destruct (Z.eq_dec ((2 * mf + w) / (2 * w)) k); [by left|right].
    split; [done|lia].
  - left. apply Z.le_antisymm; [done|].
    assert (Hrem : 2 * t * k + 1 <= 200 * p + t).
    { pose proof (Z.div_mod (200 * p) (2 * t) ltac:(lia)) as Hdm.
      pose proof (Z.mod_pos_bound (200 * p) (2 * t) ltac:(lia)) as Hr.
      set (q1 := 200 * p / (2 * t)) in *. set (r1 := (200 * p) mod (2 * t)) in *.
      destruct (Z.lt_ge_cases r1 t) as [Hlt|Hgt].
      - assert (k = q1) as ->
          by (symmetry; apply (Z.div_unique _ _ q1 (r1 + t)); lia).
        lia.
      - assert (k = q1 + 1) as ->
          by (symmetry; apply (Z.div_unique _ _ (q1 + 1) (r1 - t)); lia).
        lia. }
    apply Z.div_le_lower_bound; [lia|].
    apply (Z.mul_le_mono_pos_r _ _ t); [done|].
    assert (w * (2 * t * k + 1) <= w * (200 * p + t))
      by (apply Z.mul_le_mono_nonneg_l; lia).
    lia.
Qed.

(** The pass rate of counts below [2^32]: the quotient rounded half up, or
    one less where the quotient ends in one half. *)
Lemma passRate_nearest passed totalTests :
  0 < passed < 2 ^ 32 → 0 < totalTests < 2 ^ 32 →
  passRate passed totalTests = Integer (round_percent passed totalTests) ∨
  (tie passed totalTests = true ∧
   passRate passed totalTests = Integer (round_percent passed totalTests - 1)).
Proof.
  intros Hp Ht.
  destruct (number_finite passed ltac:(lia)) as (P & ep & HP & HdP & Hep & HPv).
  destruct (number_finite totalTests ltac:(lia)) as (T & et & HT & HdT & Het & HTv).
  destruct (number_finite 100 ltac:(lia)) as (C & ec & HC & HdC & Hec & HCv).
  destruct (SF64div_error P ep T et HdP HdT ltac:(lia))
    as (mz & ez & Hdiv & Hmz & Hez & Herr1).
  destruct (SF64mul_error mz ez C ec (normal_digits mz Hmz) HdC ltac:(lia))
    as (mf & ef & Hmul & Hmf & Hef & Herr2).
  unfold passRate, Math_round.
  rewrite FloatAxioms.mul_spec, FloatAxioms.div_spec, HP, HT, HC, Hdiv, Hmul.
  rewrite (float_value_number P ep passed), (float_value_number T et totalTests)
    in Herr1 by (lia || done).
  rewrite (float_value_number C ec 100) in Herr2 by (lia || done).
  assert (HpR : (1 <= IZR passed <= 4294967295)%R).
  { split; apply IZR_le; lia. }
  assert (HtR : (1 <= IZR totalTests)%R) by (apply IZR_le; lia).
  set (pR := IZR passed) in *. set (tR := IZR totalTests) in *.
  pose proof (float_value_pos mz ez) as Hz1. pose proof (float_value_pos mf ef) as Hy.
  set (z1 := float_value mz ez) in *. set (y := float_value mf ef) in *.
  assert (Hz1t : ((1 - / 4503599627370496) * pR <= z1 * tR
                  <= (1 + / 4503599627370496) * pR)%R).
  { destruct Herr1 as [H1 H2].
    apply (Rmult_le_compat_r tR) in H1; [|lra].
    apply (Rmult_le_compat_r tR) in H2; [|lra].
    replace ((1 - / 4503599627370496) * (pR / tR) * tR)%R
      with ((1 - / 4503599627370496) * pR)%R in H1 by (field; lra).
    replace ((1 + / 4503599627370496) * (pR / tR) * tR)%R
      with ((1 + / 4503599627370496) * pR)%R in H2 by (field; lra).
    done. }
  assert (Hyt : ((1 - / 4503599627370496) * (z1 * tR * 100) <= y * tR
                 <= (1 + / 4503599627370496) * (z1 * tR * 100))%R).
  { destruct Herr2 as [H1 H2].
    apply (Rmult_le_compat_r tR) in H1; [|lra].
    apply (Rmult_le_compat_r tR) in H2; [|lra].
    split; [etrans; [|exact H1]|etrans; [exact H2|]]; right; ring. }
  assert (Hclose : (100 * pR - / 2 < y * tR < 100 * pR + / 2)%R) by lra.
  assert (Hyy : (y <= y * tR)%R).
  { rewrite <- (Rmult_1_r y) at 1. apply Rmult_le_compat_l; lra. }
  destruct (Z.leb_spec 0 ef) as [Hef0|Hef0].
  { exfalso. assert (Hbig : (4503599627370496 <= y)%R); [|lra].
    unfold y, float_value. rewrite (powerRZ_2_nonneg ef), <- mult_IZR by done.
    apply IZR_le. pose proof (Z.pow_pos_nonneg 2 ef ltac:(lia) Hef0).
    change 4503599627370496 with (2 ^ 52). nia. }
  replace (- ef + 1) with (1 + - ef) by lia. rewrite Z.pow_add_r by lia.
  change (2 ^ 1) with 2.
  assert (Hw : 0 < 2 ^ (- ef)) by (apply Z.pow_pos_nonneg; lia).
  set (w := 2 ^ (- ef)) in *.
  assert (HwR : (0 < IZR w)%R) by (by apply (IZR_lt 0)).
  assert (Hyw : (y * IZR w = IZR (Z.pos mf))%R).
  { unfold y, float_value. replace ef with (- - ef) by lia.
    rewrite powerRZ_neg', (powerRZ_2_nonneg (- ef)) by lia. fold w. field. lra. }
  destruct (round_half_up_close passed totalTests (Z.pos mf) w) as [H|[H1 H2]];
    [lia|done| |left; by f_equal|right; split; [done|by f_equal]].
  destruct Hclose as [Hc1 Hc2].
  apply (Rmult_lt_compat_r (2 * IZR w)) in Hc1; [|lra].
  apply (Rmult_lt_compat_r (2 * IZR w)) in Hc2; [|lra].
  replace (y * tR * (2 * IZR w))%R with (2 * (y * IZR w) * tR)%R in Hc1, Hc2 by ring.
  rewrite Hyw in Hc1, Hc2.
  split; apply lt_IZR;
    rewrite ?minus_IZR, ?plus_IZR, !mult_IZR; fold pR tR; lra.
Qed.

(** The two cases without a quotient of positive numbers. *)
Lemma passRate_none_passed totalTests :
  0 < totalTests < 2 ^ 32 → passRate 0 totalTests = Integer 0.
Proof.
  intros Ht.
  destruct (number_finite totalTests ltac:(lia)) as (T & et & HT & _).
  destruct (number_finite 100 ltac:(lia)) as (C & ec & HC & _).
  unfold passRate, Math_round.
  rewrite FloatAxioms.mul_spec, FloatAxioms.div_spec, HT, HC.
  by change (Prim2SF (number 0)) with (S754_zero false).
Qed.

Lemma passRate_no_tests passed :
  0 < passed < 2 ^ 32 → passRate passed 0 = Infinity false.
Proof.
  intros Hp.
  destruct (number_finite passed ltac:(lia)) as (P & ep & HP & _).
  destruct (number_finite 100 ltac:(lia)) as (C & ec & HC & _).
  unfold passRate, Math_round.
  rewrite FloatAxioms.mul_spec, FloatAxioms.div_spec, HP, HC.
  by change (Prim2SF (number 0)) with (S754_zero false).
Qed.

(** The pass rate of the counts of a result list. *)
Lemma passRate_counts passed totalTests :
  0 <= passed < 2 ^ 32 → 0 < totalTests < 2 ^ 32 →
  passRate passed totalTests = Integer (round_percent passed totalTests) ∨
  (tie passed totalTests = true ∧
   passRate passed totalTests = Integer (round_percent passed totalTests - 1)).
Proof.
  intros Hp Ht. destruct (Z.eq_dec passed 0) as [->|Hne].
  - left. rewrite passRate_none_passed by done. f_equal. unfold round_percent.
    rewrite Z.mul_0_r, Z.add_0_l. symmetry. apply Z.div_small. lia.
  - apply passRate_nearest; lia.
Qed.

End Binary64.

(** ** The email reporter *)

Section EmailClaims.
Import EmailReporter PassRate Samples.

Lemma agrees_upto_spec bound passed total :
  agrees_upto bound = true →
  0 < total <= Z.of_nat bound → 0 <= passed <= total →
  agrees passed total = true.
Proof.
  unfold agrees_upto. rewrite forallb_forall. intros H Ht Hp.
  specialize (H (Z.to_nat total)). rewrite forallb_forall in H.
  specialize (H ltac:(apply in_seq; lia) (Z.to_nat passed) ltac:(apply in_seq; lia)).
  by rewrite !Z2Nat.id in H by lia.
Qed.

Lemma agrees_upto_200 : agrees_upto 200 = true.
Proof. vm_compute. reflexivity. Qed.

(** C4, as stated, fails: with 23 tests passed out of 40 the exact value
    of 100 × passed / total is 57.5, which rounds to 58 (a tie going up, and
    58 is also the even neighbour); the reporter divides first, gets
    0.575 × 100 = 57.49999999999999 in double precision, and reports 57.
    It fails in two more ways for summaries that are not the counts of a
    result list: with counts near 2^52 the two roundings can move the value
    across a half that the exact quotient does not reach (24 for a quotient
    that rounds to 23), and with no test but one passed the value is
    Infinity, not NaN. *)
Lemma C4_counterexample :
  (passRate 23 40 = Integer 57 ∧ round_percent 23 40 = 58) ∧
  (passRate 1185374223820055 5044145633276830 = Integer 24 ∧
   round_percent 1185374223820055 5044145633276830 = 23 ∧
   tie 1185374223820055 5044145633276830 = false) ∧
  passRate 1 0 = Infinity false.
Proof. repeat split; vm_compute; reflexivity. Qed.

(** C4, amended.  The reporter computes the pass rate as
    [Math.round((passed / totalTests) * 100)] in double-precision
    arithmetic.  For every summary whose counts are below 2^32, as the
    counts of a result list are, and with at least one test, this is
    round(100 × passed / totalTests), except that where the exact quotient
    ends in one half it may be one less: 8 passed out of 10 give 80, and
    the subject carries 80% Pass Rate; 23 passed out of 40 give 57.  With no
    test at all and none passed it is NaN (Infinity when the summary counts
    a passed test), printed as the text NaN, and that text stands in the
    generated report wherever the template had the pass-rate
    placeholder. *)
Theorem C4_pass_rate :
  (∀ passed totalTests,
     0 <= passed < 2 ^ 32 → 0 < totalTests < 2 ^ 32 →
     passRate passed totalTests = Integer (round_percent passed totalTests) ∨
     (tie passed totalTests = true ∧
      passRate passed totalTests = Integer (round_percent passed totalTests - 1))) ∧
  passRate 8 10 = Integer 80 ∧
  generateSubject (summary_of 8 2 0) =
    "❌ FAILED | Test Report | 80% Pass Rate | QA | 10 Tests" ∧
  (tie 23 40 = true ∧ round_percent 23 40 = 58 ∧ passRate 23 40 = Integer 57) ∧
  passRate 0 0 = NaN ∧
  (∀ passed, 0 < passed < 2 ^ 32 → passRate passed 0 = Infinity false) ∧
  String_of_rounded (passRate 0 0) = "NaN" ∧
  generateSubject (summary_of 0 0 0) =
    "✅ PASSED | Test Report | NaN% Pass Rate | QA | 0 Tests" ∧
  (∃ html,
     generateHtmlReport
       (runtime_with ∅ sample_settings (λ _, Ok JNull) (Throw (JsValue "")) None None)
       (EmailReportData.mk (summary_of 0 0 0) [] None None) [] = (Ok html, []) ∧
     includes "<strong>Pass Rate:</strong> NaN%" html = true ∧
     includes "{{PASS_RATE}}" html = false).
Proof.
  split; [exact passRate_counts|].
  split; [vm_compute; reflexivity|]. split; [vm_compute; reflexivity|].
  split; [repeat split; vm_compute; reflexivity|].
  split; [vm_compute; reflexivity|]. split; [exact passRate_no_tests|].
  split; [vm_compute; reflexivity|]. split; [vm_compute; reflexivity|].
  eexists. split; [vm_compute; reflexivity|]. split; vm_compute; reflexivity.
Qed.

(** C4 (amended) at 1 passed out of 3: 33. *)
Lemma C4_pass_rate_witness :
  passRate 1 3 = Integer 33 ∨
  (tie 1 3 = true ∧ passRate 1 3 = Integer 32).
Proof.
  apply (proj1 C4_pass_rate 1 3); lia.
Defined.

End EmailClaims.

(** ** The Squash TM client *)

(** *** Matching [/literal(class+)/i] *)

Section Matching.
Import SquashTM Markers.
#[local] Arguments String.append !_ _ / : simpl nomatch.

Variable head : ascii.
Variable tail : string.
Variable class : ascii → bool.

(** The literal starts with a character that does not come back in it and
    that the class does not hold, in either case. *)
Hypothesis head_once : free_of head tail = true.
Hypothesis head_outside : ∀ c, lower c = lower head → class c = false.

#[local] Abbreviation literal := (String head tail).

Lemma search_unfold l cl s :
  search l cl s =
  match match_here l cl s with
  | Some capture => Some capture
  | None =>
      match s with
      | String _ s' => search l cl s'
      | EmptyString => None
      end
  end.
Proof. by destruct s. Qed.

(** Text put after [p] does not help a literal free of its first
    character to match. *)
Lemma match_literal_app l p c rest :
  free_of c l = true →
  match_literal l (p +:+ String c rest) =
  match match_literal l p with
  | Some r => Some (r +:+ String c rest)
  | None => None
  end.
Proof.
  revert p. induction l as [|x l IH]; intros p Hfree; simpl; [done|].
  simpl in Hfree. apply andb_prop in Hfree as [Hx Hl].
  destruct p as [|d p]; simpl.
  - rewrite Ascii.eqb_sym. by destruct (Ascii.eqb (lower x) (lower c)).
  - destruct (Ascii.eqb (lower d) (lower x)); [by apply IH|done].
Qed.

Lemma take_class_stops run rest :
  all_class class run = true → stops class rest = true →
  take_class class (run +:+ rest) = run.
Proof.
  intros Hrun Hrest. induction run as [|c run IH]; simpl in *.
  - destruct rest as [|c rest]; [done|]. simpl in *. by destruct (class c).
  - apply andb_prop in Hrun as [-> Hrun]. by rewrite IH.
Qed.





Lemma match_literal_ci l m rest :
  ci_eqb m l = true → match_literal l (m +:+ rest) = Some rest.
Proof.
  revert m. induction l as [|x l IH]; intros [|y m]; simpl; try done.
  intros [-> Hm]%andb_prop. by apply IH.
Qed.


(** The marker, then a run of the class that ends before [post]: the
    capture group is the run. *)
Lemma match_here_marker m run post :
  ci_eqb m literal = true → run ≠ "" →
  all_class class run = true → stops class post = true →
  match_here literal class (m +:+ run +:+ post) = Some run.
Proof.
  intros Hm Hne Hrun Hpost. unfold match_here.
  rewrite match_literal_ci, take_class_stops by done. by destruct run.
Qed.

Lemma search_here s capture :
  match_here literal class s = Some capture → search literal class s = Some capture.
Proof. intros H. by rewrite search_unfold, H. Qed.




End Matching.

Section SquashClaims.
Import SquashTM Markers Samples Traces.





(** C7.  With the integration disabled, [reportResult] returns false for
    every result: it throws nothing, and all it leaves in the trace is one
    debug line, so the remote calls issued are those issued before, none of
    its own. *)
Theorem C7_disabled_is_a_no_op rt this result tr :
  enabled this = false →
  reportResult rt this result tr =
    (Ok false, tr ++ [Logged DEBUG "[SquashTM] Squash TM reporting is disabled"]) ∧
  remote_calls (snd (reportResult rt this result tr)) = remote_calls tr.
Proof.
  intros Hoff. unfold reportResult. rewrite Hoff. simpl. split; [done|].
  unfold remote_calls. by rewrite List.filter_app, app_nil_r.
Qed.

(** C7 at the client the default settings give, for a failed result with a
    screenshot, on a runtime whose HTTP client would reject every call. *)
Lemma C7_disabled_is_a_no_op_witness :
  reportResult
    (runtime_with ∅ sample_settings (λ _, Ok JNull) (Throw (JsValue ""))
       None (Some (JsError "ECONNREFUSED")))
    disabled_client failed_result [] =
    (Ok false, [Logged DEBUG "[SquashTM] Squash TM reporting is disabled"]) ∧
  remote_calls
    (snd (reportResult
            (runtime_with ∅ sample_settings (λ _, Ok JNull) (Throw (JsValue ""))
               None (Some (JsError "ECONNREFUSED")))
            disabled_client failed_result [])) = remote_calls [].
Proof.
  apply (C7_disabled_is_a_no_op _ disabled_client failed_result []). reflexivity.
Defined.

End SquashClaims.

(** ** Files that are missing, and the email transport *)

Section FileClaims.
Import Settings EmailReporter SendEmailReport TestDataLoader Files Samples Traces.

Lemma loadTestData_missing rt filename format tr :
  existsSync rt (data_file_path rt filename format) = false →
  loadTestData rt filename format tr =
    (Throw (JsError ("Test data file not found: " +:+ data_file_path rt filename format)),
     tr ++ [Logged DEBUG ("[TestDataLoader] Loading test data from: " +:+
                          data_file_path rt filename format)]).
Proof.
  intros H. unfold loadTestData, data_file_path in *. unfold getDataFormat.
  unfold mbind, M_bind, bind, Logger.debug, Logger.log, emit. by rewrite H.
Qed.

(** Report generation reads the world but leaves no event. *)
Lemma generateHtmlReport_pure rt data tr :
  generateHtmlReport rt data tr = (fst (generateHtmlReport rt data []), tr).
Proof.
  unfold generateHtmlReport, mbind, M_bind, bind, lift, mret, M_ret, ret.
  destruct (existsSync rt (templatePath rt)).
  - destruct (readFileSync rt (templatePath rt)); [|done].
    destruct (toISOString rt _); [|done]. by destruct (toISOString rt _).
  - destruct (toISOString rt _); [|done]. by destruct (toISOString rt _).
Qed.

Lemma generateHtmlReport_without_template rt data tr start finish :
  existsSync rt (templatePath rt) = false →
  toISOString rt (TestResultSummary.startTime (EmailReportData.summary data)) = Ok start →
  toISOString rt (TestResultSummary.endTime (EmailReportData.summary data)) = Ok finish →
  ∃ html, generateHtmlReport rt data tr = (Ok html, tr).
Proof.
  intros Hno Hs Hf. unfold generateHtmlReport, mbind, M_bind, bind, lift, mret, M_ret, ret.
  rewrite Hno, Hs, Hf. by eexists.
Qed.

(** C5, as stated, fails for the email template: on a runtime without any
    file, so without [templates/email-report.html], report generation
    returns a report and throws nothing. *)
Lemma C5_counterexample :
  existsSync (runtime_with ∅ sample_settings (λ _, Ok JNull) (Throw (JsValue "")) None None)
    (templatePath
       (runtime_with ∅ sample_settings (λ _, Ok JNull) (Throw (JsValue "")) None None))
    = false ∧
  ∃ html,
    generateHtmlReport
      (runtime_with ∅ sample_settings (λ _, Ok JNull) (Throw (JsValue "")) None None)
      (EmailReportData.mk (summary_of 8 2 0) [] None None) [] = (Ok html, []).
Proof.
  split; [reflexivity|].
  by apply (generateHtmlReport_without_template _ _ []
              "2023-11-14T22:13:20.000Z" "2023-11-14T22:13:20.000Z").
Qed.

(** C5, amended.  A missing test data file makes [loadTestData] throw the
    error Test data file not found, which its caller [loadTestDataArray]
    lets through; a missing report file makes [parsePlaywrightReport] throw
    the error Report file not found.  A missing email template is no error:
    report generation goes on as if the file held the built-in default
    template, and returns a report whenever the two dates print. *)
Theorem C5_missing_files :
  (∀ rt filename format tr,
     existsSync rt (data_file_path rt filename format) = false →
     loadTestData rt filename format tr =
       (Throw (JsError ("Test data file not found: " +:+
                        data_file_path rt filename format)),
        tr ++ [Logged DEBUG ("[TestDataLoader] Loading test data from: " +:+
                             data_file_path rt filename format)])) ∧
  (∀ rt filename arrayKey tr,
     existsSync rt (data_file_path rt filename None) = false →
     fst (loadTestDataArray rt filename arrayKey tr) =
       Throw (JsError ("Test data file not found: " +:+
                       data_file_path rt filename None))) ∧
  (∀ rt reportPath tr,
     existsSync rt reportPath = false →
     parsePlaywrightReport rt reportPath tr =
       (Throw (JsError ("Report file not found: " +:+ reportPath)), tr)) ∧
  (∀ rt data tr,
     existsSync rt (templatePath rt) = false →
     generateHtmlReport rt data tr =
     generateHtmlReport (with_file rt (templatePath rt) getDefaultTemplate) data tr) ∧
  (∀ rt data tr start finish,
     existsSync rt (templatePath rt) = false →
     toISOString rt (TestResultSummary.startTime (EmailReportData.summary data)) = Ok start →
     toISOString rt (TestResultSummary.endTime (EmailReportData.summary data)) = Ok finish →
     ∃ html, generateHtmlReport rt data tr = (Ok html, tr)).
Proof.
  split; [exact loadTestData_missing|]. split; [|split; [|split]].
  - intros rt filename arrayKey tr H. unfold loadTestDataArray, mbind, M_bind, bind.
    by rewrite (loadTestData_missing rt filename None tr H).
  - intros rt reportPath tr H. unfold parsePlaywrightReport. by rewrite H.
  - intros rt data tr H. unfold generateHtmlReport. rewrite H.
    unfold existsSync, readFileSync, templatePath. simpl.
    rewrite lookup_insert_eq. rewrite bool_decide_true by eauto. done.
  - exact generateHtmlReport_without_template.
Qed.

(** C5 (amended) on a runtime without any file: the users file and the
    report are missing. *)
Lemma C5_missing_files_witness :
  loadTestData
    (runtime_with ∅ sample_settings (λ _, Ok JNull) (Throw (JsValue "")) None None)
    "users" None [] =
    (Throw (JsError "Test data file not found: /repo/test-data/json/users.json"),
     [Logged DEBUG
        "[TestDataLoader] Loading test data from: /repo/test-data/json/users.json"]) ∧
  parsePlaywrightReport
    (runtime_with ∅ sample_settings (λ _, Ok JNull) (Throw (JsValue "")) None None)
    "/repo/reports/test-results.json" [] =
    (Throw (JsError "Report file not found: /repo/reports/test-results.json"), []).
Proof.
  split.
  - apply (proj1 C5_missing_files
             (runtime_with ∅ sample_settings (λ _, Ok JNull) (Throw (JsValue "")) None None)
             "users" None []).
    reflexivity.
  - apply (proj1 (proj2 (proj2 C5_missing_files))
             (runtime_with ∅ sample_settings (λ _, Ok JNull) (Throw (JsValue "")) None None)
             "/repo/reports/test-results.json" []).
    reflexivity.
Defined.

(** C9.  [sendReport] never throws: it returns a boolean for every report
    data, attachment list and runtime.  When the report is generated and
    the transport rejects the message, the error is logged and the result
    is false; when the transport accepts it, the result is true; when the
    report itself cannot be generated, the error is logged and the result
    is false as well. *)
Theorem C9_sendReport_never_throws :
  (∀ rt data attachmentPaths tr,
     ∃ sent tr', sendReport rt data attachmentPaths tr = (Ok sent, tr')) ∧
  (∀ rt data attachmentPaths tr html error,
     fst (generateHtmlReport rt data []) = Ok html →
     transporter_sendMail rt (mailOptions rt data attachmentPaths html) = Some error →
     sendReport rt data attachmentPaths tr =
       (Ok false,
        tr ++ [Logged INFO "[EmailReporter] Preparing email report...";
               MailSent (mailOptions rt data attachmentPaths html);
               Logged ERROR ("[EmailReporter] Failed to send email report: " +:+
                             errorMessage error)])) ∧
  (∀ rt data attachmentPaths tr html,
     fst (generateHtmlReport rt data []) = Ok html →
     transporter_sendMail rt (mailOptions rt data attachmentPaths html) = None →
     sendReport rt data attachmentPaths tr =
       (Ok true,
        tr ++ [Logged INFO "[EmailReporter] Preparing email report...";
               MailSent (mailOptions rt data attachmentPaths html);
               Logged INFO ("[EmailReporter] Report sent to: " +:+
                            join ", " (recipients (email (settings rt))))])) ∧
  (∀ rt data attachmentPaths tr error,
     fst (generateHtmlReport rt data []) = Throw error →
     sendReport rt data attachmentPaths tr =
       (Ok false,
        tr ++ [Logged INFO "[EmailReporter] Preparing email report...";
               Logged ERROR ("[EmailReporter] Failed to send email report: " +:+
                             errorMessage error)])).
Proof.
  assert (Hrun : ∀ rt data attachmentPaths tr,
    sendReport rt data attachmentPaths tr =
    match fst (generateHtmlReport rt data []) with
    | Ok html =>
        match transporter_sendMail rt (mailOptions rt data attachmentPaths html) with
        | Some error =>
            (Ok false,
             tr ++ [Logged INFO "[EmailReporter] Preparing email report...";
                    MailSent (mailOptions rt data attachmentPaths html);
                    Logged ERROR ("[EmailReporter] Failed to send email report: " +:+
                                  errorMessage error)])
        | None =>
            (Ok true,
             tr ++ [Logged INFO "[EmailReporter] Preparing email report...";
                    MailSent (mailOptions rt data attachmentPaths html);
                    Logged INFO ("[EmailReporter] Report sent to: " +:+
                                 join ", " (recipients (email (settings rt))))])
        end
    | Throw error =>
        (Ok false,
         tr ++ [Logged INFO "[EmailReporter] Preparing email report...";
                Logged ERROR ("[EmailReporter] Failed to send email report: " +:+
                              errorMessage error)])
    end).
  { intros rt data attachmentPaths tr.
    unfold sendReport, try_catch, mbind, M_bind, bind, Logger.info, Logger.error,
      Logger.log, emit, settle, throw, mret, M_ret, ret.
    rewrite generateHtmlReport_pure.
    destruct (fst (generateHtmlReport rt data [])) as [html|error]; simpl.
    - fold (mailOptions rt data attachmentPaths html).
      destruct (transporter_sendMail rt _); simpl;
        rewrite ?string_app_nil_r, <- ?app_assoc; reflexivity.
    - rewrite ?string_app_nil_r, <- ?app_assoc. reflexivity. }
  split; [|split; [|split]].
  - intros rt data attachmentPaths tr. rewrite Hrun.
    destruct (fst (generateHtmlReport rt data [])); [|by eauto].
    destruct (transporter_sendMail rt _); by eauto.
  - intros rt data attachmentPaths tr html error Hhtml Hmail.
    by rewrite Hrun, Hhtml, Hmail.
  - intros rt data attachmentPaths tr html Hhtml Hmail.
    by rewrite Hrun, Hhtml, Hmail.
  - intros rt data attachmentPaths tr error Hhtml. by rewrite Hrun, Hhtml.
Qed.

(** C9 on a runtime whose transport rejects every message. *)
Lemma C9_sendReport_never_throws_witness :
  sendReport
    (runtime_with one_line_template sample_settings (λ _, Ok JNull) (Throw (JsValue ""))
       (Some (JsError "connect ECONNREFUSED 127.0.0.1:587")) None)
    (EmailReportData.mk (summary_of 8 2 0) [] None None) None [] =
    (Ok false,
     [Logged INFO "[EmailReporter] Preparing email report...";
      MailSent
        (mkMail "test-reports@example.com" "qa@example.com"
           "❌ FAILED | Test Report | 80% Pass Rate | QA | 10 Tests"
           "<p>80% of 10</p>" []);
      Logged ERROR
        "[EmailReporter] Failed to send email report: connect ECONNREFUSED 127.0.0.1:587"]).
Proof.
  apply (proj1 (proj2 C9_sendReport_never_throws)
           (runtime_with one_line_template sample_settings (λ _, Ok JNull)
              (Throw (JsValue "")) (Some (JsError "connect ECONNREFUSED 127.0.0.1:587")) None)
           (EmailReportData.mk (summary_of 8 2 0) [] None None) None []
           "<p>80% of 10</p>" (JsError "connect ECONNREFUSED 127.0.0.1:587")).
  - vm_compute. reflexivity.
  - reflexivity.
Defined.

End FileClaims.

(** ** The test data loader *)

Section LoaderClaims.
Import Settings TestDataLoader Files Samples.

(** The two errors of [loadTestDataArray] are told apart by their text. *)
Lemma key_errors_differ arrayKey filename :
  key_not_found arrayKey filename ≠ key_not_an_array arrayKey filename.
Proof.
  unfold key_not_found, key_not_an_array. intros [= H].
  apply (inj (String.app _)) in H. apply (inj (String.app _)) in H.
  vm_compute in H. discriminate H.
Qed.

(** A record inherits exactly the names of [Object.prototype]. *)
Lemma inherited_Object_prototype key :
  inherited "Object.prototype" [] key =
  if has_name Object_prototype key
  then Some (Builtin (if String.eqb key "__proto__" then "Object.prototype"
                      else "Object.prototype." +:+ key))
  else None.
Proof.
  unfold inherited. destruct (String.eqb_spec key "__proto__") as [->|Hne]; [done|].
  cbn [has_name existsb]. by destruct (has_name Object_prototype key).
Qed.

(** What [loadTestDataArray] does with a loaded record, by what the key
    denotes in it: the value it is bound to or, when it is bound to none,
    the member the record inherits under that name. *)
Lemma loadTestDataArray_record rt filename arrayKey tr members tr1 :
  loadTestData rt filename None tr = (Ok (JObj members), tr1) →
  loadTestDataArray rt filename arrayKey tr =
  (match members !! arrayKey with
   | Some (JArr items) => Ok items
   | Some v =>
       if truthy (Some (Data v))
       then Throw (key_not_an_array arrayKey filename)
       else Throw (key_not_found arrayKey filename)
   | None =>
       if has_name Object_prototype arrayKey
       then Throw (key_not_an_array arrayKey filename)
       else Throw (key_not_found arrayKey filename)
   end, tr1).
Proof.
  intros Hload. unfold loadTestDataArray, mbind, M_bind, bind, lift. rewrite Hload.
  cbn [property]. destruct (members !! arrayKey) as [v|].
  - destruct (truthy (Some (Data v))) eqn:Htruthy; destruct v; simpl in *;
      rewrite ?Htruthy; try done; discriminate.
  - rewrite inherited_Object_prototype.
    by destruct (has_name Object_prototype arrayKey).
Qed.

(** C8, as stated, fails in both of its error cases.  In the drafts file the
    key users is present and bound to null, which is not a sequence, and
    the error is the not-found one, not the not-an-array one.  In the users
    file the key toString is absent, and the error is the not-an-array one:
    the lookup finds the method every record inherits under that name. *)
Lemma C8_counterexample :
  (drafts_record !! "users" = Some JNull ∧
   loadTestDataArray
     (runtime_with drafts_file sample_settings (λ _, Ok (JObj drafts_record))
        (Throw (JsValue "")) None None)
     "drafts" "users" [] =
     (Throw (JsError (dq "Key 'users' not found in test data file: drafts")),
      [Logged DEBUG
         "[TestDataLoader] Loading test data from: /repo/test-data/json/drafts.json"])) ∧
  (users_record !! "toString" = None ∧
   loadTestDataArray
     (runtime_with users_file sample_settings (λ _, Ok (JObj users_record))
        (Throw (JsValue "")) None None)
     "users" "toString" [] =
     (Throw (JsError (dq "Key 'toString' is not an array in test data file: users")),
      [Logged DEBUG
         "[TestDataLoader] Loading test data from: /repo/test-data/json/users.json"])).
Proof. repeat split; vm_compute; reflexivity. Qed.

(** C8, amended.  For a loaded record and a requested key,
    [loadTestDataArray] returns the elements of the array the key is bound
    to.  It throws the error Key ... not found when the key is bound to a
    falsy value, or is bound to nothing and is not a name that every record
    inherits.  It throws the error Key ... is not an array when the key is
    bound to a truthy value that is not an array, or is bound to nothing
    and is a name that every record inherits (toString, constructor and
    the other names of Object.prototype). *)
Theorem C8_loadTestDataArray rt filename arrayKey tr members tr1 :
  loadTestData rt filename None tr = (Ok (JObj members), tr1) →
  (∀ items,
     members !! arrayKey = Some (JArr items) →
     loadTestDataArray rt filename arrayKey tr = (Ok items, tr1)) ∧
  (members !! arrayKey = None → has_name Object_prototype arrayKey = false →
   loadTestDataArray rt filename arrayKey tr =
     (Throw (key_not_found arrayKey filename), tr1)) ∧
  (∀ v,
     members !! arrayKey = Some v → truthy (Some (Data v)) = false →
     loadTestDataArray rt filename arrayKey tr =
       (Throw (key_not_found arrayKey filename), tr1)) ∧
  (∀ v,
     members !! arrayKey = Some v →
     truthy (Some (Data v)) = true → isArray (Some (Data v)) = false →
     loadTestDataArray rt filename arrayKey tr =
       (Throw (key_not_an_array arrayKey filename), tr1)) ∧
  (members !! arrayKey = None → has_name Object_prototype arrayKey = true →
   loadTestDataArray rt filename arrayKey tr =
     (Throw (key_not_an_array arrayKey filename), tr1)).
Proof.
  intros Hload. rewrite (loadTestDataArray_record _ _ _ _ _ _ Hload).
  split; [|split; [|split; [|split]]].
  - by intros items ->.
  - by intros -> ->.
  - intros v -> Hfalsy. rewrite Hfalsy. by destruct v.
  - intros v -> Htruthy Harr. rewrite Htruthy. by destruct v.
  - by intros -> ->.
Qed.

(** C8 (amended) on the users file: the key validUsers gives a one-element
    sequence whose element has username a; the key lockedUsers, which the
    record does not have and does not inherit, gives the not-found error;
    the key constructor, which it inherits, gives the not-an-array error.
    On the drafts file, the key count, bound to 0, gives the not-found
    error and the key owner, bound to a string, the not-an-array error. *)
Lemma C8_loadTestDataArray_witness :
  loadTestDataArray
    (runtime_with users_file sample_settings (λ _, Ok (JObj users_record))
       (Throw (JsValue "")) None None)
    "users" "validUsers" [] =
    (Ok [JObj {[ "username" := JStr "a" ]}],
     [Logged DEBUG
        "[TestDataLoader] Loading test data from: /repo/test-data/json/users.json"]) ∧
  loadTestDataArray
    (runtime_with users_file sample_settings (λ _, Ok (JObj users_record))
       (Throw (JsValue "")) None None)
    "users" "lockedUsers" [] =
    (Throw (JsError (dq "Key 'lockedUsers' not found in test data file: users")),
     [Logged DEBUG
        "[TestDataLoader] Loading test data from: /repo/test-data/json/users.json"]) ∧
  loadTestDataArray
    (runtime_with drafts_file sample_settings (λ _, Ok (JObj drafts_record))
       (Throw (JsValue "")) None None)
    "drafts" "count" [] =
    (Throw (JsError (dq "Key 'count' not found in test data file: drafts")),
     [Logged DEBUG
        "[TestDataLoader] Loading test data from: /repo/test-data/json/drafts.json"]) ∧
  loadTestDataArray
    (runtime_with drafts_file sample_settings (λ _, Ok (JObj drafts_record))
       (Throw (JsValue "")) None None)
    "drafts" "owner" [] =
    (Throw (JsError (dq "Key 'owner' is not an array in test data file: drafts")),
     [Logged DEBUG
        "[TestDataLoader] Loading test data from: /repo/test-data/json/drafts.json"]) ∧
  loadTestDataArray
    (runtime_with users_file sample_settings (λ _, Ok (JObj users_record))
       (Throw (JsValue "")) None None)
    "users" "constructor" [] =
    (Throw (JsError (dq "Key 'constructor' is not an array in test data file: users")),
     [Logged DEBUG
        "[TestDataLoader] Loading test data from: /repo/test-data/json/users.json"]).
Proof.
  split; [|split; [|split; [|split]]].
  - apply (proj1 (C8_loadTestDataArray
                    (runtime_with users_file sample_settings (λ _, Ok (JObj users_record))
                       (Throw (JsValue "")) None None)
                    "users" "validUsers" [] users_record _ ltac:(vm_compute; reflexivity))).
    vm_compute. reflexivity.
  - apply (proj1 (proj2 (C8_loadTestDataArray
                    (runtime_with users_file sample_settings (λ _, Ok (JObj users_record))
                       (Throw (JsValue "")) None None)
                    "users" "lockedUsers" [] users_record _ ltac:(vm_compute; reflexivity)))).
    + vm_compute. reflexivity.
    + reflexivity.
  - apply (proj1 (proj2 (proj2 (C8_loadTestDataArray
                    (runtime_with drafts_file sample_settings (λ _, Ok (JObj drafts_record))
                       (Throw (JsValue "")) None None)
                    "drafts" "count" [] drafts_record _ ltac:(vm_compute; reflexivity))))
             (JNum 0)).
    + vm_compute. reflexivity.
    + reflexivity.
  - apply (proj1 (proj2 (proj2 (proj2 (C8_loadTestDataArray
                    (runtime_with drafts_file sample_settings (λ _, Ok (JObj drafts_record))
                       (Throw (JsValue "")) None None)
                    "drafts" "owner" [] drafts_record _ ltac:(vm_compute; reflexivity)))))
             (JStr "qa")).
    + vm_compute. reflexivity.
    + reflexivity.
    + reflexivity.
  - apply (proj2 (proj2 (proj2 (proj2 (C8_loadTestDataArray
                    (runtime_with users_file sample_settings (λ _, Ok (JObj users_record))
                       (Throw (JsValue "")) None None)
                    "users" "constructor" [] users_record _
                    ltac:(vm_compute; reflexivity)))))).
    + vm_compute. reflexivity.
    + reflexivity.
Defined.

(** C10, as stated, fails in its second half: on the drafts file the key
    constructor is not present in the record, yet the error is the
    not-an-array one.  The lookup finds the constructor every record
    inherits, a truthy value that is not an array. *)
Lemma C10_counterexample :
  drafts_record !! "constructor" = None ∧
  loadTestDataArray
    (runtime_with drafts_file sample_settings (λ _, Ok (JObj drafts_record))
       (Throw (JsValue "")) None None)
    "drafts" "constructor" [] =
    (Throw (key_not_an_array "constructor" "drafts"),
     [Logged DEBUG
        "[TestDataLoader] Loading test data from: /repo/test-data/json/drafts.json"]).
Proof. split; vm_compute; reflexivity. Qed.

(** C10, amended.  For a loaded record in which the requested key is bound
    to a falsy value, [loadTestDataArray] throws the not-found error, not
    the not-an-array error; null, false, 0 and the empty string are falsy.
    The not-an-array error is thrown only for a truthy value that is not an
    array: the value the key is bound to or, when the key is bound to
    nothing, the member every record inherits under that name. *)
Theorem C10_falsy_value_is_missing rt filename arrayKey tr members tr1 :
  loadTestData rt filename None tr = (Ok (JObj members), tr1) →
  (∀ v,
     members !! arrayKey = Some v → truthy (Some (Data v)) = false →
     loadTestDataArray rt filename arrayKey tr =
       (Throw (key_not_found arrayKey filename), tr1) ∧
     fst (loadTestDataArray rt filename arrayKey tr) ≠
       Throw (key_not_an_array arrayKey filename)) ∧
  (fst (loadTestDataArray rt filename arrayKey tr) =
     Throw (key_not_an_array arrayKey filename) →
   (∃ v, members !! arrayKey = Some v ∧
         truthy (Some (Data v)) = true ∧ isArray (Some (Data v)) = false) ∨
   (members !! arrayKey = None ∧ has_name Object_prototype arrayKey = true ∧
    ∃ path, property (JObj members) arrayKey = Ok (Some (Builtin path)) ∧
            truthy (Some (Builtin path)) = true ∧
            isArray (Some (Builtin path)) = false)) ∧
  truthy (Some (Data JNull)) = false ∧
  truthy (Some (Data (JBool false))) = false ∧
  truthy (Some (Data (JNum 0))) = false ∧
  truthy (Some (Data (JStr ""))) = false.
Proof.
  intros Hload. rewrite (loadTestDataArray_record _ _ _ _ _ _ Hload).
  split; [|split; [|by repeat split]].
  - intros v -> Hfalsy. rewrite Hfalsy.
    destruct v; simpl; try done; (split; [done|]);
      intros H; apply (key_errors_differ arrayKey filename); congruence.
  - cbn [fst property]. destruct (members !! arrayKey) as [v|].
    + destruct (truthy (Some (Data v))) eqn:Htruthy; destruct v; simpl in *;
        rewrite ?Htruthy; try discriminate;
        try (intros _; left; eexists; by repeat split);
        intros H; destruct (key_errors_differ arrayKey filename); congruence.
    + rewrite inherited_Object_prototype.
      destruct (has_name Object_prototype arrayKey).
      * intros _. right. split; [done|]. split; [done|]. by eexists.
      * intros H. destruct (key_errors_differ arrayKey filename). congruence.
Qed.

(** C10 (amended) on the drafts file: each of the keys bound to null, false,
    0 and the empty string gives the not-found error. *)
Lemma C10_falsy_value_is_missing_witness :
  (loadTestDataArray
     (runtime_with drafts_file sample_settings (λ _, Ok (JObj drafts_record))
        (Throw (JsValue "")) None None)
     "drafts" "users" [] =
     (Throw (key_not_found "users" "drafts"),
      [Logged DEBUG
         "[TestDataLoader] Loading test data from: /repo/test-data/json/drafts.json"]) ∧
   fst (loadTestDataArray
          (runtime_with drafts_file sample_settings (λ _, Ok (JObj drafts_record))
             (Throw (JsValue "")) None None)
          "drafts" "users" []) ≠ Throw (key_not_an_array "users" "drafts")) ∧
  (loadTestDataArray
     (runtime_with drafts_file sample_settings (λ _, Ok (JObj drafts_record))
        (Throw (JsValue "")) None None)
     "drafts" "ready" [] =
     (Throw (key_not_found "ready" "drafts"),
      [Logged DEBUG
         "[TestDataLoader] Loading test data from: /repo/test-data/json/drafts.json"]) ∧
   fst (loadTestDataArray
          (runtime_with drafts_file sample_settings (λ _, Ok (JObj drafts_record))
             (Throw (JsValue "")) None None)
          "drafts" "ready" []) ≠ Throw (key_not_an_array "ready" "drafts")) ∧
  (loadTestDataArray
     (runtime_with drafts_file sample_settings (λ _, Ok (JObj drafts_record))
        (Throw (JsValue "")) None None)
     "drafts" "count" [] =
     (Throw (key_not_found "count" "drafts"),
      [Logged DEBUG
         "[TestDataLoader] Loading test data from: /repo/test-data/json/drafts.json"]) ∧
   fst (loadTestDataArray
          (runtime_with drafts_file sample_settings (λ _, Ok (JObj drafts_record))
             (Throw (JsValue "")) None None)
          "drafts" "count" []) ≠ Throw (key_not_an_array "count" "drafts")) ∧
  (loadTestDataArray
     (runtime_with drafts_file sample_settings (λ _, Ok (JObj drafts_record))
        (Throw (JsValue "")) None None)
     "drafts" "label" [] =
     (Throw (key_not_found "label" "drafts"),
      [Logged DEBUG
         "[TestDataLoader] Loading test data from: /repo/test-data/json/drafts.json"]) ∧
   fst (loadTestDataArray
          (runtime_with drafts_file sample_settings (λ _, Ok (JObj drafts_record))
             (Throw (JsValue "")) None None)
          "drafts" "label" []) ≠ Throw (key_not_an_array "label" "drafts")).
Proof.
  split; [|split; [|split]].
  - apply (proj1 (C10_falsy_value_is_missing
                    (runtime_with drafts_file sample_settings (λ _, Ok (JObj drafts_record))
                       (Throw (JsValue "")) None None)
                    "drafts" "users" [] drafts_record _ ltac:(vm_compute; reflexivity))
             JNull); [vm_compute|]; reflexivity.
  - apply (proj1 (C10_falsy_value_is_missing
                    (runtime_with drafts_file sample_settings (λ _, Ok (JObj drafts_record))
                       (Throw (JsValue "")) None None)
                    "drafts" "ready" [] drafts_record _ ltac:(vm_compute; reflexivity))
             (JBool false)); [vm_compute|]; reflexivity.
  - apply (proj1 (C10_falsy_value_is_missing
                    (runtime_with drafts_file sample_settings (λ _, Ok (JObj drafts_record))
                       (Throw (JsValue "")) None None)
                    "drafts" "count" [] drafts_record _ ltac:(vm_compute; reflexivity))
             (JNum 0)); [vm_compute|]; reflexivity.
  - apply (proj1 (C10_falsy_value_is_missing
                    (runtime_with drafts_file sample_settings (λ _, Ok (JObj drafts_record))
                       (Throw (JsValue "")) None None)
                    "drafts" "label" [] drafts_record _ ltac:(vm_compute; reflexivity))
             (JStr "")); [vm_compute|]; reflexivity.
Defined.

End LoaderClaims.

(** ** More on the report parser *)

Section ParserMore.
Import PlaywrightReport EmailReporter SendEmailReport ReportShape Samples.

Lemma substring0_length n s : (String.length (substring0 n s) <= n)%nat.
Proof.
  revert s. induction n as [|n IH]; intros [|c s]; simpl; try lia.
  specialize (IH s). lia.
Qed.

(** What the parser pushes for one element of [tests], field by field. *)
Lemma parseTest_fields spec t r :
  r ∈ parseTest spec t [] →
  ∃ rs lastResult,
    results t = Some rs ∧ last rs = Some lastResult ∧
    TestResult.retries r = Some (Z.of_nat (length rs) - 1) ∧
    TestResult.error r =
      match error lastResult with
      | Some e => Some (substring0 200 (or_string (message e) (String_of_error e)))
      | None => None
      end.
Proof.
  unfold parseTest. destruct (results t) as [rs|] eqn:Hrs; [|by intros ?%elem_of_nil].
  destruct (last rs) as [l|] eqn:Hl; [|by intros ?%elem_of_nil].
  simpl. intros ->%list_elem_of_singleton. by exists rs, l.
Qed.

(** X1.  Every flattened result has a retry count that is a non-negative
    integer, and an error text, when it has one, of at most 200 code
    units; it has one exactly when its last attempt carries an error. *)
Theorem flattened_result_bounds report r :
  r ∈ flatten report →
  (∃ n, TestResult.retries r = Some n ∧ 0 <= n) ∧
  (∀ e, TestResult.error r = Some e → (String.length e <= 200)%nat).
Proof.
  intros (spec & t & _ & Hr)%elem_of_flatten.
  apply parseTest_fields in Hr as (rs & l & Hrs & Hl & Hretries & Herr).
  split.
  - eexists. split; [exact Hretries|]. destruct rs; [done|]. simpl length. lia.
  - intros e. rewrite Herr. destruct (error l) as [r0|]; [|done].
    intros H.
    assert (e = substring0 200 (or_string (message r0) (String_of_error r0))) as ->
      by congruence.
    apply substring0_length.
Qed.

Lemma flattened_result_bounds_witness :
  (∃ n, TestResult.retries (TestResult.mk "login works" "passed" 900 None (Some 1)) = Some n
        ∧ 0 <= n) ∧
  (∀ e, TestResult.error (TestResult.mk "login works" "passed" 900 None (Some 1)) = Some e →
        (String.length e <= 200)%nat).
Proof.
  apply (flattened_result_bounds retried_report).
  apply list_elem_of_In. vm_compute. auto.
Defined.

(** X2.  [parseTestSuite] only appends: the results already in the array stay
    in front, as they were, and what is appended depends neither on them
    nor on the third argument. *)
Theorem parseTestSuite_appends suite tests counts counts' :
  parseTestSuite suite tests counts = tests ++ parseTestSuite suite [] counts'.
Proof. by rewrite !parseTestSuite_push. Qed.

(** X3.  The flattened list of a report is the flattened lists of its
    top-level suites, one after the other; a report without [suites] and a
    report with an empty one flatten to nothing. *)
Theorem flatten_suites suites1 suites2 stats1 config1 :
  flatten (mkReport (Some (suites1 ++ suites2)) stats1 config1) =
    flatten (mkReport (Some suites1) stats1 config1) ++
    flatten (mkReport (Some suites2) stats1 config1) ∧
  flatten (mkReport None stats1 config1) = [] ∧
  flatten (mkReport (Some []) stats1 config1) = [].
Proof.
  split; [|done]. rewrite !flatten_entries. unfold report_entries, report_specs. simpl.
  by rewrite !flat_map_app.
Qed.

Lemma countResults_nonneg tests : ∀ p f k,
  let '(p', f', k') :=
    fold_left
      (λ '(passed, failed, skipped) test,
         if String.eqb (TestResult.status test) "passed" then (passed + 1, failed, skipped)
         else if String.eqb (TestResult.status test) "failed" then (passed, failed + 1, skipped)
         else if String.eqb (TestResult.status test) "skipped" then (passed, failed, skipped + 1)
         else (passed, failed, skipped))
      tests (p, f, k) in
  p <= p' ∧ f <= f' ∧ k <= k'.
Proof.
  induction tests as [|t tests IH]; intros p f k; simpl; [lia|].
  destruct (String.eqb (TestResult.status t) "passed").
  { specialize (IH (p + 1) f k). destruct (fold_left _ _ _) as [[p' f'] k']. lia. }
  destruct (String.eqb (TestResult.status t) "failed").
  { specialize (IH p (f + 1) k). destruct (fold_left _ _ _) as [[p' f'] k']. lia. }
  destruct (String.eqb (TestResult.status t) "skipped").
  { specialize (IH p f (k + 1)). destruct (fold_left _ _ _) as [[p' f'] k']. lia. }
  apply IH.
Qed.

Lemma filter_length_all {A} (f : A → bool) (l : list A) :
  length (List.filter f l) = length l ↔ Forall (λ x, f x = true) l.
Proof.
  induction l as [|x l IH]; simpl; [by split|].
  pose proof (List.filter_length_le f l) as Hle.
  destruct (f x) eqn:E; simpl.
  - split.
    + intros [= H]. constructor; [done|]. by apply IH.
    + intros [_ H]%Forall_cons. f_equal. by apply IH.
  - split; [lia|]. intros [H _]%Forall_cons. congruence.
Qed.

Lemma parsePlaywrightReport_inv rt reportPath tr data tr' :
  parsePlaywrightReport rt reportPath tr = (Ok data, tr') →
  ∃ content report,
    files rt !! reportPath = Some content ∧ JSON_parse_report rt content = Ok report.
Proof.
  unfold parsePlaywrightReport, existsSync, readFileSync.
  destruct (files rt !! reportPath) as [content|] eqn:Hfile.
  - rewrite bool_decide_true by eauto. simpl. unfold mbind, M_bind, bind, lift.
    destruct (JSON_parse_report rt content) as [report|] eqn:Hparse; [|done].
    intros _. by exists content, report.
  - rewrite bool_decide_false by (by intros [? ?]). done.
Qed.

(** X4.  Whenever a report is parsed, the summary is consistent with the list
    it comes with: the total is the number of flattened results, no counter
    is negative, the three counters together never exceed the total, and
    they reach it exactly when every status is passed, failed or skipped.
    Parsing leaves no event. *)
Theorem summary_counts rt reportPath tr data tr' :
  parsePlaywrightReport rt reportPath tr = (Ok data, tr') →
  tr' = tr ∧
  TestResultSummary.totalTests (EmailReportData.summary data) =
    Z.of_nat (length (EmailReportData.tests data)) ∧
  0 <= TestResultSummary.passed (EmailReportData.summary data) ∧
  0 <= TestResultSummary.failed (EmailReportData.summary data) ∧
  0 <= TestResultSummary.skipped (EmailReportData.summary data) ∧
  TestResultSummary.passed (EmailReportData.summary data) +
  TestResultSummary.failed (EmailReportData.summary data) +
  TestResultSummary.skipped (EmailReportData.summary data)
    <= TestResultSummary.totalTests (EmailReportData.summary data) ∧
  (TestResultSummary.passed (EmailReportData.summary data) +
   TestResultSummary.failed (EmailReportData.summary data) +
   TestResultSummary.skipped (EmailReportData.summary data)
     = TestResultSummary.totalTests (EmailReportData.summary data) ↔
   Forall (λ t, counted t = true) (EmailReportData.tests data)).
Proof.
  intros Hrun.
  destruct (parsePlaywrightReport_inv _ _ _ _ _ Hrun) as (content & report & Hfile & Hparse).
  destruct (parsePlaywrightReport_ok rt reportPath content report tr Hfile Hparse)
    as (data' & Hrun' & Htests & Htotal & Hcounts).
  rewrite Hrun in Hrun'. injection Hrun' as <- ->. split; [done|].
  rewrite Htotal, Htests. split; [done|].
  pose proof (countResults_sum (flatten report)) as Hsum.
  pose proof (countResults_nonneg (flatten report) 0 0 0) as Hpos.
  unfold countResults in *. rewrite <- Hcounts in Hsum, Hpos.
  pose proof (List.filter_length_le counted (flatten report)) as Hle.
  rewrite <- (filter_length_all counted). repeat split; lia.
Qed.

Lemma summary_counts_witness :
  ∃ data,
    parsePlaywrightReport
      (runtime_with {[ "reports/test-results.json" := "{}" ]} sample_settings
         (λ _, Ok JNull) (Ok retried_report) None None)
      "reports/test-results.json" [] = (Ok data, []) ∧
    TestResultSummary.passed (EmailReportData.summary data) +
    TestResultSummary.failed (EmailReportData.summary data) +
    TestResultSummary.skipped (EmailReportData.summary data)
      <= TestResultSummary.totalTests (EmailReportData.summary data).
Proof.
  eexists. split; [vm_compute; reflexivity|].
  apply (summary_counts
           (runtime_with {[ "reports/test-results.json" := "{}" ]} sample_settings
              (λ _, Ok JNull) (Ok retried_report) None None)
           "reports/test-results.json" [] _ []).
  vm_compute. reflexivity.
Defined.

End ParserMore.

(** ** More on the email reporter and the report script *)

Section EmailMore.
Import Settings EmailReporter SendEmailReport PassRate Files Samples Traces.
#[local] Arguments String.append !_ _ / : simpl nomatch.

(** X5.  The attachments handed to the transporter are the paths that exist,
    in the order given: every attachment is an existing file among the
    paths, named by its base name, and no existing path is left out. *)
Theorem prepareAttachments_existing rt paths :
  map path (prepareAttachments rt (Some paths)) =
    List.filter (existsSync rt) paths ∧
  (∀ a, a ∈ prepareAttachments rt (Some paths) →
        existsSync rt (path a) = true ∧ path a ∈ paths ∧
        filename a = path_basename rt (path a)) ∧
  (length (prepareAttachments rt (Some paths)) <= length paths)%nat ∧
  prepareAttachments rt None = [].
Proof.
  assert (Hall : prepareAttachments rt (Some paths) =
                 map (λ p, mkAttachment (path_basename rt p) p)
                     (List.filter (existsSync rt) paths)).
  { unfold prepareAttachments. destruct paths as [|p ps]; [done|].
    f_equal. generalize (p :: ps). intros l.
    induction l as [|x l IH]; [done|]. rewrite filter_cons. simpl.
    destruct (existsSync rt x) eqn:E.
    - rewrite decide_True by done. by rewrite IH.
    - rewrite decide_False by congruence. done. }
  rewrite Hall. split; [|split; [|split]].
  - rewrite map_map. simpl. by rewrite map_id.
  - intros a (p & -> & Hp)%list_elem_of_fmap. simpl.
    apply list_elem_of_In, filter_In in Hp as [Hin Hex].
    by rewrite list_elem_of_In.
  - rewrite length_map. apply List.filter_length_le.
  - done.
Qed.

Lemma prefix_trans a b c :
  String.prefix a b = true → String.prefix b c = true → String.prefix a c = true.
Proof.
  revert b c. induction a as [|x a IH]; intros [|y b] [|z c]; simpl; try done.
  destruct (ascii_dec x y) as [->|]; [|intros; discriminate].
  destruct (ascii_dec y z) as [->|]; [|intros; discriminate].
  destruct (ascii_dec z z); [apply IH|congruence].
Qed.

Lemma includes_unfold needle s :
  includes needle s =
  String.prefix needle s ||
  match s with
  | String _ s' => includes needle s'
  | EmptyString => false
  end.
Proof. by destruct s. Qed.

Lemma includes_prefix a pattern s :
  String.prefix a pattern = true → includes a s = false → includes pattern s = false.
Proof.
  intros Ha. induction s as [|c s IH]; rewrite (includes_unfold a), (includes_unfold pattern).
  - intros [H _]%orb_false_elim.
    destruct (String.prefix pattern "") eqn:E; [|done].
    by rewrite (prefix_trans a pattern "" Ha E) in H.
  - intros [H1 H2]%orb_false_elim. rewrite (IH H2), orb_false_r.
    destruct (String.prefix pattern (String c s)) eqn:E; [|done].
    by rewrite (prefix_trans _ _ _ Ha E) in H1.
Qed.

(** Text in which the pattern does not occur is left as it is. *)
Lemma replace_from_absent global pattern replacement s : ∀ before,
  includes pattern s = false →
  replace_from global pattern replacement before 0 s = s.
Proof.
  induction s as [|c s IH]; intros before; [done|].
  rewrite includes_unfold. intros [H1 H2]%orb_false_elim.
  change (replace_from global pattern replacement before 0 (String c s)) with
    (if String.prefix pattern (String c s)
     then
       substitution replacement pattern before
         (drop_string (String.length pattern) (String c s)) +:+
       (if global
        then replace_from global pattern replacement (before +:+ String c "")
               (String.length pattern - 1) s
        else drop_string (String.length pattern) (String c s))
     else String c (replace_from global pattern replacement (before +:+ String c "") 0 s)).
  by rewrite H1, IH.
Qed.

(** X6.  A template file without any double opening brace has no placeholder:
    the report generated from it is the file's text, whatever the data. *)
Theorem template_without_placeholders rt data tr content start finish :
  files rt !! templatePath rt = Some content →
  includes "{{" content = false →
  toISOString rt (TestResultSummary.startTime (EmailReportData.summary data)) = Ok start →
  toISOString rt (TestResultSummary.endTime (EmailReportData.summary data)) = Ok finish →
  generateHtmlReport rt data tr = (Ok content, tr).
Proof.
  intros Hfile Hfree Hs Hf.
  unfold generateHtmlReport, existsSync, readFileSync, mbind, M_bind, bind, lift, mret,
    M_ret, ret.
  rewrite Hfile, bool_decide_true by eauto. rewrite Hs, Hf.
  unfold replace_all, replace_first.
  repeat (rewrite (replace_from_absent _ _ _ content)
            by (by apply (includes_prefix "{{"))).
  done.
Qed.

Lemma template_without_placeholders_witness :
  generateHtmlReport
    (runtime_with {[ "/repo/templates/email-report.html" := "<p>Nightly run</p>" ]}
       sample_settings (λ _, Ok JNull) (Throw (JsValue "")) None None)
    (EmailReportData.mk (summary_of 8 2 0) [] None None) [] =
    (Ok "<p>Nightly run</p>", []).
Proof.
  apply (template_without_placeholders _ _ [] "<p>Nightly run</p>"
           "2023-11-14T22:13:20.000Z" "2023-11-14T22:13:20.000Z"); reflexivity.
Defined.

(** X7.  Between no test passed and all of them, with at most 200 tests, the
    pass rate is a whole percentage from 0 to 100: 0 when none passed and
    100 when all did. *)
Theorem passRate_percentage passed totalTests :
  0 < totalTests <= 200 → 0 <= passed <= totalTests →
  ∃ k, passRate passed totalTests = Integer k ∧ 0 <= k <= 100 ∧
       (passed = 0 → k = 0) ∧ (passed = totalTests → k = 100).
Proof.
  intros Ht Hp.
  pose proof (agrees_upto_spec 200 passed totalTests agrees_upto_200 ltac:(lia) Hp) as H.
  unfold agrees in H. destruct (passRate passed totalTests) as [| |k]; try discriminate H.
  exists k. split; [done|].
  assert (Hr : round_percent passed totalTests = k ∨
               (tie passed totalTests = true ∧ round_percent passed totalTests - 1 = k)).
  { apply orb_prop in H as [H|H]; [left|right].
    - symmetry. by apply Z.eqb_eq.
    - apply andb_prop in H as [? H]. split; [done|]. symmetry. by apply Z.eqb_eq. }
  clear H. unfold round_percent, tie in Hr.
  assert (Hq : 0 <= (200 * passed + totalTests) / (2 * totalTests) <= 100).
  { split; [apply Z.div_pos; lia|].
    apply Z.lt_succ_r, Z.div_lt_upper_bound; lia. }
  assert (Htie : (200 * passed) mod (2 * totalTests) = totalTests →
                 1 <= (200 * passed + totalTests) / (2 * totalTests)).
  { intros Hm. apply Z.div_le_lower_bound; [lia|].
    pose proof (Z.div_mod (200 * passed) (2 * totalTests) ltac:(lia)) as Hd.
    assert (0 <= 200 * passed / (2 * totalTests)) by (apply Z.div_pos; lia). nia. }
  split; [|split].
  - destruct Hr as [<-|[Hm <-]]; [lia|]. apply Z.eqb_eq in Hm. specialize (Htie Hm). lia.
  - intros ->. destruct Hr as [<-|[Hm _]].
    + rewrite Z.mul_0_r, Z.add_0_l. apply Z.div_small. lia.
    + apply Z.eqb_eq in Hm. rewrite Z.mul_0_r, Z.mod_0_l in Hm by lia. lia.
  - intros ->. destruct Hr as [<-|[Hm _]].
    + replace (200 * totalTests + totalTests) with (100 * (2 * totalTests) + totalTests)
        by lia.
      rewrite Z.div_add_l by lia. rewrite Z.div_small by lia. lia.
    + apply Z.eqb_eq in Hm.
      replace (200 * totalTests) with (100 * (2 * totalTests)) in Hm by lia.
      rewrite Z.mod_mul in Hm by lia. lia.
Qed.

Lemma passRate_percentage_witness :
  ∃ k, passRate 10 10 = Integer k ∧ 0 <= k <= 100 ∧
       (10 = 0 → k = 0) ∧ (10 = 10 → k = 100).
Proof. apply (passRate_percentage 10 10); lia. Defined.

End EmailMore.

(** ** The report script *)

Section ScriptMore.
Import Settings EmailReporter SendEmailReport Files Samples Traces.

Lemma parsePlaywrightReport_pure rt reportPath tr :
  parsePlaywrightReport rt reportPath tr =
  (fst (parsePlaywrightReport rt reportPath []), tr).
Proof.
  unfold parsePlaywrightReport, mbind, M_bind, bind, lift, throw, mret, M_ret, ret.
  destruct (negb (existsSync rt reportPath)); [done|].
  destruct (readFileSync rt reportPath); [|done].
  destruct (JSON_parse_report rt a); [|done].
  by destruct (countResults _) as [[? ?] ?].
Qed.

(** What [sendReport] returns and leaves in the trace, by what report
    generation and the transporter answer. *)
Lemma sendReport_run rt data attachmentPaths tr :
  sendReport rt data attachmentPaths tr =
  match fst (generateHtmlReport rt data []) with
  | Ok html =>
      match transporter_sendMail rt (mailOptions rt data attachmentPaths html) with
      | Some error =>
          (Ok false,
           tr ++ [Logged INFO "[EmailReporter] Preparing email report...";
                  MailSent (mailOptions rt data attachmentPaths html);
                  Logged ERROR ("[EmailReporter] Failed to send email report: " +:+
                                errorMessage error)])
      | None =>
          (Ok true,
           tr ++ [Logged INFO "[EmailReporter] Preparing email report...";
                  MailSent (mailOptions rt data attachmentPaths html);
                  Logged INFO ("[EmailReporter] Report sent to: " +:+
                               join ", " (recipients (email (settings rt))))])
      end
  | Throw error =>
      (Ok false,
       tr ++ [Logged INFO "[EmailReporter] Preparing email report...";
              Logged ERROR ("[EmailReporter] Failed to send email report: " +:+
                            errorMessage error)])
  end.
Proof.
  unfold sendReport, try_catch, mbind, M_bind, bind, Logger.info, Logger.error,
    Logger.log, emit, settle, throw, mret, M_ret, ret.
  rewrite generateHtmlReport_pure.
  destruct (fst (generateHtmlReport rt data [])) as [html|error]; simpl.
  - fold (mailOptions rt data attachmentPaths html).
    destruct (transporter_sendMail rt _); simpl;
      rewrite ?string_app_nil_r, <- ?app_assoc; reflexivity.
  - rewrite ?string_app_nil_r, <- ?app_assoc. reflexivity.
Qed.

(** The events [sendReport] adds hold at most one mail, and that one has
    the attachments [prepareAttachments] gives. *)
Lemma sendReport_calls rt data attachmentPaths tr :
  ∃ sent added,
    sendReport rt data attachmentPaths tr = (Ok sent, tr ++ added) ∧
    (remote_calls added = [] ∧ sent = false ∨
     ∃ html, remote_calls added = [MailSent (mailOptions rt data attachmentPaths html)]).
Proof.
  rewrite sendReport_run.
  destruct (fst (generateHtmlReport rt data [])) as [html|error].
  - destruct (transporter_sendMail rt _); do 2 eexists; (split; [done|]); right; by exists html.
  - do 2 eexists. split; [done|]. by left.
Qed.

Lemma remote_calls_app tr1 tr2 :
  remote_calls (tr1 ++ tr2) = remote_calls tr1 ++ remote_calls tr2.
Proof. apply List.filter_app. Qed.

(** X8.  [main] never throws: it ends in exit code 1 or returns.  It returns
    exactly when the report was parsed, the SMTP connection verified and
    the mail sent; in every other case it calls [process.exit(1)]. *)
Theorem main_exit_code rt transporter_verify tr :
  ∃ code tr',
    main rt transporter_verify tr = (Ok code, tr') ∧
    (code = None ∨ code = Some 1) ∧
    (code = None ↔
     ∃ data,
       fst (parsePlaywrightReport rt (main_report_path rt) []) = Ok data ∧
       transporter_verify = None ∧
       fst (sendReport rt data (Some []) []) = Ok true).
Proof.
  unfold main, main_report_path, try_catch, verifyConnection, try_catch, mbind, M_bind,
    bind, Logger.info, Logger.error, Logger.log, emit, settle, throw, mret, M_ret, ret.
  rewrite parsePlaywrightReport_pure.
  destruct (fst (parsePlaywrightReport rt _ [])) as [data|e].
  2:{ do 2 eexists. split; [done|]. split; [by right|].
      split; [done|]. by intros (? & ? & _). }
  destruct transporter_verify as [e|]; simpl.
  { do 2 eexists. split; [done|]. split; [by right|].
    split; [done|]. by intros (? & _ & ? & _). }
  destruct (existsSync rt _); simpl.
  all: match goal with
       | |- context [sendReport ?r ?d (Some []) ?t] =>
           rewrite (sendReport_run r d (Some []) t);
           pose proof (sendReport_run r d (Some []) []) as Hsend
       end.
  all: destruct (fst (generateHtmlReport rt data [])) as [html|e]; simpl.
  all: try destruct (transporter_sendMail rt _); simpl.
  all: do 2 eexists; (split; [done|]).
  all: split; [first [by left | by right]|].
  all: split;
    [ intros Hc;
      first [ discriminate Hc
            | exists data; split; [done|]; split; [done|]; by rewrite Hsend ]
    | intros (d & Hd & _ & H); injection Hd as <-; rewrite Hsend in H; simpl in H;
      first [done | discriminate H] ].
Qed.

(** X9.  [main] sends at most one mail, without attachments, and none at all
    when the report cannot be parsed or the SMTP connection is not
    verified: then its only outcome is exit code 1. *)
Theorem main_mail rt transporter_verify tr :
  (∃ added,
     snd (main rt transporter_verify tr) = tr ++ added ∧
     (length (remote_calls added) <= 1)%nat ∧
     ∀ e, e ∈ remote_calls added →
          ∃ options, e = MailSent options ∧ attachments options = []) ∧
  ((∃ error, fst (parsePlaywrightReport rt (main_report_path rt) []) = Throw error) ∨
   (∃ error, transporter_verify = Some error) →
   fst (main rt transporter_verify tr) = Ok (Some 1) ∧
   remote_calls (snd (main rt transporter_verify tr)) = remote_calls tr).
Proof.
  unfold main, main_report_path, try_catch, verifyConnection, try_catch, mbind, M_bind,
    bind, Logger.info, Logger.error, Logger.log, emit, settle, throw, mret, M_ret, ret.
  rewrite parsePlaywrightReport_pure.
  destruct (fst (parsePlaywrightReport rt _ [])) as [data|e].
  2:{ simpl. split.
      - eexists. rewrite <- !app_assoc. split; [done|]. split; [simpl; lia|].
        by intros ? ?%elem_of_nil.
      - intros _. split; [done|]. by rewrite !remote_calls_app, !app_nil_r. }
  destruct transporter_verify as [e|]; simpl.
  { split.
    - eexists. rewrite <- !app_assoc. split; [done|]. split; [simpl; lia|].
      by intros ? ?%elem_of_nil.
    - intros _. split; [done|]. by rewrite !remote_calls_app, !app_nil_r. }
  split; [|by intros [[? ?]|[? ?]]].
  destruct (existsSync rt _); simpl.
  all: match goal with
       | |- context [sendReport ?r ?d (Some []) ?t] =>
           destruct (sendReport_calls r d (Some []) t)
             as (sent & added & -> & Hcalls)
       end.
  all: destruct sent; simpl.
  all: eexists; rewrite <- !app_assoc; (split; [done|]).
  all: rewrite !remote_calls_app; simpl.
  all: destruct Hcalls as [[-> ?]|[html ->]]; try done; simpl.
  all: try (split; [lia|]; by intros ? ?%elem_of_nil).
  all: split; [lia|]; intros e ->%list_elem_of_singleton; by eexists.
Qed.

Lemma main_mail_witness :
  fst (main
         (runtime_with ∅ sample_settings (λ _, Ok JNull) (Ok retried_report) None None)
         None []) = Ok (Some 1) ∧
  remote_calls
    (snd (main
            (runtime_with ∅ sample_settings (λ _, Ok JNull) (Ok retried_report) None None)
            None [])) = remote_calls [].
Proof.
  apply (proj2 (main_mail
                  (runtime_with ∅ sample_settings (λ _, Ok JNull) (Ok retried_report)
                     None None)
                  None [])).
  left. eexists. vm_compute. reflexivity.
Defined.

End ScriptMore.

(** ** More on the Squash TM client *)

Section SquashMore.
Import SquashTM SquashTM.TestExecutionResult Markers Samples Traces.
#[local] Arguments String.append !_ _ / : simpl nomatch.

(** A capture group is never empty. *)
Lemma search_nonempty literal class s capture :
  search literal class s = Some capture → capture ≠ "".
Proof.
  induction s as [|c s IH]; rewrite search_unfold; unfold match_here.
  - destruct (match_literal literal ""); [|done].
    destruct (take_class class s); [done|]. by intros [= <-].
  - destruct (match_literal literal (String c s)) as [rest|]; [|exact IH].
    destruct (take_class class rest); [exact IH|]. by intros [= <-].
Qed.

(** Text that starts with a character foreign to both the literal's tail
    and the class cannot complete a match begun before it. *)
Lemma search_skip_foreign h t class pre c rest :
  free_of c t = true → class c = false →
  search (String h t) class pre = None →
  search (String h t) class (pre +:+ String c rest) =
  search (String h t) class (String c rest).
Proof.
  intros Hfree Hc. induction pre as [|d pre IH]; [done|].
  intros Hnone. rewrite search_unfold in Hnone.
  destruct (match_here (String h t) class (String d pre)) eqn:Hhere; [done|].
  rewrite search_unfold.
  assert (match_here (String h t) class (String d pre +:+ String c rest) = None) as ->.
  { revert Hhere. unfold match_here. simpl.
    destruct (Ascii.eqb (lower d) (lower h)); [|done].
    rewrite match_literal_app by done.
    destruct (match_literal t pre) as [r|]; [|done].
    destruct (take_class class r) as [|e run] eqn:Hrun; [|done]. intros _.
    destruct r as [|e r]; simpl in *; [by rewrite Hc|]. by destruct (class e). }
  by apply IH.
Qed.

(** X10.  Round trip of the naming convention.  A title made of a name that
    holds no marker, a space and [squashTM id], for an identifier of
    letters, digits and hyphens, gives the identifier back. *)
Theorem parseSquashId_squashTM name id :
  parseSquashId name = None →
  id ≠ "" → all_class id_char id = true →
  parseSquashId (name +:+ " " +:+ squashTM id) = Some id.
Proof.
  intros Hname Hne Hid. unfold parseSquashId, squashTM in *.
  change (" " +:+ "@squashTM:" +:+ id) with (String " " ("@squashTM:" +:+ id)).
  rewrite (search_skip_foreign "@" "squashTM:" id_char name " " ("@squashTM:" +:+ id))
    by done.
  rewrite search_unfold.
  change (match_here "@squashTM:" id_char (String " " ("@squashTM:" +:+ id))) with
    (@None string).
  apply search_here.
  pose proof (match_here_marker "@" "squashTM:" id_char "@squashTM:" id "" eq_refl Hne Hid
                eq_refl) as H.
  by rewrite string_app_nil_r in H.
Qed.

Lemma parseSquashId_squashTM_witness :
  parseSquashId ("standard_user can log in" +:+ " " +:+ squashTM "CAMP-4-TC-101")
    = Some "CAMP-4-TC-101".
Proof.
  apply (parseSquashId_squashTM "standard_user can log in" "CAMP-4-TC-101");
    [reflexivity|discriminate|reflexivity].
Defined.

Lemma lower_idempotent c : lower (lower c) = lower c.
Proof. destruct c as [[] [] [] [] [] [] [] []]; reflexivity. Qed.

Lemma lower_upper c : lower (upper c) = lower c.
Proof. destruct c as [[] [] [] [] [] [] [] []]; reflexivity. Qed.

Lemma toLowerCase_toUpperCase s : toLowerCase (toUpperCase s) = toLowerCase s.
Proof.
  unfold toLowerCase, toUpperCase.
  induction s as [|c s IH]; simpl; [done|]. by rewrite lower_upper, IH.
Qed.

(** X11.  [toSquashStatus] answers PASSED, FAILED or NOT_RUN and nothing else,
    whatever text it is given.  On a text of ASCII characters the case of
    the letters does not matter: the text in capitals gets the same answer.
    The answer is PASSED exactly when the text in lower case is passed. *)
Theorem toSquashStatus_range playwrightStatus :
  (toSquashStatus playwrightStatus = PASSED ∨
   toSquashStatus playwrightStatus = FAILED ∨
   toSquashStatus playwrightStatus = NOT_RUN) ∧
  (ascii_text playwrightStatus = true →
   toSquashStatus (toUpperCase playwrightStatus) = toSquashStatus playwrightStatus) ∧
  (toSquashStatus playwrightStatus = PASSED ↔ toLowerCase playwrightStatus = "passed").
Proof.
  unfold toSquashStatus. rewrite toLowerCase_toUpperCase.
  split; [|split; [done|]].
  - destruct (String.eqb _ "passed"); [by left|].
    destruct (_ || _); [right; by left|right; by right].
  - destruct (String.eqb_spec (toLowerCase playwrightStatus) "passed") as [->|Hne].
    + done.
    + split; [|done]. by destruct (_ || _).
Qed.

(** X11 on the status timedOut, as Playwright writes it. *)
Lemma toSquashStatus_range_witness :
  toSquashStatus (toUpperCase "timedOut") = toSquashStatus "timedOut".
Proof.
  apply (proj1 (proj2 (toSquashStatus_range "timedOut"))). reflexivity.
Defined.

Lemma uploadScreenshot_run rt this testCaseId screenshotPath tr :
  ∃ added,
    uploadScreenshot rt this testCaseId screenshotPath tr = (Ok tt, tr ++ added) ∧
    patch_requests added = [] ∧
    (length (remote_calls added) <= 1)%nat ∧
    (existsSync rt screenshotPath = false → remote_calls added = []).
Proof.
  unfold uploadScreenshot, try_catch, mbind, M_bind, bind, Logger.info, Logger.warn,
    Logger.error, Logger.log, emit, settle, throw, lift, mret, M_ret, ret, existsSync,
    readFileSync.
  destruct (files rt !! screenshotPath) as [content|] eqn:Hfile.
  - rewrite bool_decide_true by eauto. simpl.
    destruct (client_post rt _ _); simpl; eexists; rewrite <- !app_assoc;
      (split; [done|]); simpl; repeat split; try lia; done.
  - rewrite bool_decide_false by (by intros [? ?]). simpl.
    eexists. split; [done|]. simpl. repeat split; try lia; done.
Qed.

(** What an enabled client does with a result, by what the identifier
    holds and what the PATCH request is answered. *)
Lemma reportResult_enabled rt this result tr lastExecutedOn :
  enabled this = true →
  toISOString rt (DateOfMillis (now rt)) = Ok lastExecutedOn →
  ∃ added,
    snd (reportResult rt this result tr) = tr ++ added ∧
    match extractTestCaseId (squashId result) with
    | Some (String c d) =>
        patch_requests added = [patch_of rt this result (String c d) lastExecutedOn] ∧
        fst (reportResult rt this result tr) =
          Ok (bool_decide
                (client_patch rt
                   (baseURL this +:+ "/iterations/" +:+ String c d +:+ "/test-plan")
                   (ExecutionPayload (status_text (status result)) (buildComment result)
                      lastExecutedOn) = None)) ∧
        (client_patch rt
           (baseURL this +:+ "/iterations/" +:+ String c d +:+ "/test-plan")
           (ExecutionPayload (status_text (status result)) (buildComment result)
              lastExecutedOn) ≠ None →
         remote_calls added = [patch_of rt this result (String c d) lastExecutedOn])
    | _ =>
        remote_calls added = [] ∧ fst (reportResult rt this result tr) = Ok false
    end.
Proof.
  intros Hon Hiso. unfold reportResult. rewrite Hon. simpl.
  unfold try_catch, mbind, M_bind, bind, Logger.info, Logger.warn, Logger.error,
    Logger.log, emit, settle, throw, lift, mret, M_ret, ret.
  destruct (extractTestCaseId (squashId result)) as [[|c d]|]; simpl.
  - eexists. rewrite <- !app_assoc. by split.
  - rewrite Hiso. simpl. unfold patch_of.
    destruct (client_patch rt _ _) as [e|] eqn:Hpatch; simpl.
    + eexists. rewrite <- !app_assoc. split; [done|]. simpl.
      try rewrite bool_decide_false by done. by repeat split.
    + try rewrite bool_decide_true by done.
      destruct (screenshotPath result) as [[|p q]|]; simpl.
      1,3: eexists; rewrite <- !app_assoc; split; [done|]; by repeat split.
      destruct (is_FAILED (status result)); simpl.
      2: eexists; rewrite <- !app_assoc; split; [done|]; by repeat split.
      match goal with
      | |- context [uploadScreenshot ?r ?t ?i ?p ?tr0] =>
          destruct (uploadScreenshot_run r t i p tr0) as (added & -> & Hpatches & _)
      end.
      simpl. eexists. rewrite <- !app_assoc. split; [done|]. simpl.
      unfold patch_requests in *. rewrite List.filter_app, Hpatches. by repeat split.
  - eexists. rewrite <- !app_assoc. by split.
Qed.

Lemma reportResult_returns rt this result tr :
  ∃ reported added, reportResult rt this result tr = (Ok reported, tr ++ added).
Proof.
  unfold reportResult. destruct (enabled this); simpl.
  2:{ by do 2 eexists. }
  unfold try_catch, mbind, M_bind, bind, Logger.info, Logger.warn, Logger.error,
    Logger.log, emit, settle, throw, lift, mret, M_ret, ret.
  destruct (extractTestCaseId (squashId result)) as [[|c d]|]; simpl.
  1,3: do 2 eexists; by rewrite <- !app_assoc.
  destruct (toISOString rt _); simpl.
  2: do 2 eexists; by rewrite <- !app_assoc.
  destruct (client_patch rt _ _); simpl.
  1: do 2 eexists; by rewrite <- !app_assoc.
  destruct (screenshotPath result) as [[|p q]|]; simpl.
  1,3: do 2 eexists; by rewrite <- !app_assoc.
  destruct (is_FAILED (status result)); simpl.
  2: do 2 eexists; by rewrite <- !app_assoc.
  match goal with
  | |- context [uploadScreenshot ?r ?t ?i ?p ?tr0] =>
      destruct (uploadScreenshot_run r t i p tr0) as (added & -> & _)
  end.
  simpl. do 2 eexists. by rewrite <- !app_assoc.
Qed.

(** X12.  [reportResult] never throws, whatever the runtime, the client
    and the result: it returns a boolean, and the trace it was given stays
    in front of what it adds. *)
Theorem reportResult_never_throws rt this result tr :
  ∃ reported added, reportResult rt this result tr = (Ok reported, tr ++ added).
Proof. apply reportResult_returns. Qed.

(** X19.  [uploadScreenshot] never throws and issues no PATCH request: it
    issues at most one request, the upload, and none at all when the
    screenshot file does not exist. *)
Theorem uploadScreenshot_never_throws rt this testCaseId screenshotPath tr :
  ∃ added,
    uploadScreenshot rt this testCaseId screenshotPath tr = (Ok tt, tr ++ added) ∧
    patch_requests added = [] ∧
    (length (remote_calls added) <= 1)%nat ∧
    (existsSync rt screenshotPath = false → remote_calls added = []).
Proof. apply uploadScreenshot_run. Qed.

(** X13.  An enabled client that finds no test case id in the identifier
    returns false and contacts nobody: the trace gains two log lines. *)
Theorem reportResult_without_id rt this result tr :
  enabled this = true →
  extractTestCaseId (squashId result) = None →
  reportResult rt this result tr =
    (Ok false,
     tr ++ [Logged INFO ("[SquashTM] Reporting result to Squash TM: " +:+
                         squashId result +:+ " - " +:+ status_text (status result));
            Logged WARN ("[SquashTM] Could not extract test case ID from: " +:+
                         squashId result)]).
Proof.
  intros Hon Hid. unfold reportResult. rewrite Hon, Hid. simpl.
  unfold try_catch, mbind, M_bind, bind, Logger.info, Logger.warn, Logger.log, emit,
    mret, M_ret, ret.
  by rewrite <- !app_assoc.
Qed.

Lemma reportResult_without_id_witness :
  reportResult
    (runtime_with ∅ sample_settings (λ _, Ok JNull) (Throw (JsValue "")) None None)
    (mkClient "https://demo.squashtest.org/api/rest/latest" "4" true)
    (TestExecutionResult.mk "CAMP-4" PASSED None None None None None) [] =
    (Ok false,
     [Logged INFO "[SquashTM] Reporting result to Squash TM: CAMP-4 - PASSED";
      Logged WARN "[SquashTM] Could not extract test case ID from: CAMP-4"]).
Proof.
  apply (reportResult_without_id
           (runtime_with ∅ sample_settings (λ _, Ok JNull) (Throw (JsValue "")) None None)
           (mkClient "https://demo.squashtest.org/api/rest/latest" "4" true)
           (TestExecutionResult.mk "CAMP-4" PASSED None None None None None) []);
    reflexivity.
Defined.

(** X14.  With an enabled client, a test case id in the identifier and a clock
    that prints, [reportResult] issues exactly one PATCH request, to the
    test plan of that id, and returns true exactly when the request is
    accepted: the screenshot upload that may follow cannot change the
    result, and after a rejected request nothing else is sent. *)
Theorem reportResult_patch rt this result tr testCaseId lastExecutedOn :
  enabled this = true →
  extractTestCaseId (squashId result) = Some testCaseId →
  toISOString rt (DateOfMillis (now rt)) = Ok lastExecutedOn →
  ∃ added,
    snd (reportResult rt this result tr) = tr ++ added ∧
    patch_requests added = [patch_of rt this result testCaseId lastExecutedOn] ∧
    (fst (reportResult rt this result tr) = Ok true ↔
     client_patch rt
       (baseURL this +:+ "/iterations/" +:+ testCaseId +:+ "/test-plan")
       (ExecutionPayload (status_text (status result)) (buildComment result)
          lastExecutedOn) = None) ∧
    (fst (reportResult rt this result tr) = Ok false →
     remote_calls added = [patch_of rt this result testCaseId lastExecutedOn]).
Proof.
  intros Hon Hid Hiso.
  destruct (reportResult_enabled rt this result tr lastExecutedOn Hon Hiso)
    as (added & Htr & H).
  rewrite Hid in H. pose proof (search_nonempty _ _ _ _ Hid) as Hne.
  destruct testCaseId as [|c d]; [done|]. destruct H as (Hp & Hres & Hrej).
  exists added. split; [done|]. split; [done|]. rewrite Hres. split.
  - split.
    + intros [= H]. by apply bool_decide_eq_true in H.
    + intros H. by rewrite bool_decide_true.
  - intros [= H]. apply bool_decide_eq_false in H. by apply Hrej.
Qed.

Lemma reportResult_patch_witness :
  ∃ added,
    snd (reportResult
           (runtime_with ∅ sample_settings (λ _, Ok JNull) (Throw (JsValue ""))
              None (Some (JsError "ECONNREFUSED")))
           (mkClient "https://demo.squashtest.org/api/rest/latest" "4" true)
           failed_result []) = [] ++ added ∧
    patch_requests added =
      [patch_of
         (runtime_with ∅ sample_settings (λ _, Ok JNull) (Throw (JsValue ""))
            None (Some (JsError "ECONNREFUSED")))
         (mkClient "https://demo.squashtest.org/api/rest/latest" "4" true)
         failed_result "101" "2023-11-14T22:13:20.000Z"].
Proof.
  destruct (reportResult_patch
              (runtime_with ∅ sample_settings (λ _, Ok JNull) (Throw (JsValue ""))
                 None (Some (JsError "ECONNREFUSED")))
              (mkClient "https://demo.squashtest.org/api/rest/latest" "4" true)
              failed_result [] "101" "2023-11-14T22:13:20.000Z"
              eq_refl eq_refl eq_refl) as (added & H1 & H2 & _).
  by exists added.
Defined.

Lemma patch_requests_app tr1 tr2 :
  patch_requests (tr1 ++ tr2) = patch_requests tr1 ++ patch_requests tr2.
Proof. apply List.filter_app. Qed.

Lemma reportDDTResults_from_run rt this lastExecutedOn results : ∀ i tr,
  enabled this = true →
  toISOString rt (DateOfMillis (now rt)) = Ok lastExecutedOn →
  ∃ added,
    reportDDTResults_from rt this i results tr = (Ok tt, tr ++ added) ∧
    patch_requests added = batch_patches rt this lastExecutedOn i results.
Proof.
  induction results as [|r results IH]; intros i tr Hon Hiso; simpl.
  - exists []. by rewrite app_nil_r.
  - unfold mbind, M_bind, bind. fold (at_iteration i r).
    destruct (reportResult_returns rt this (at_iteration i r) tr)
      as (b & added1 & Hrun).
    destruct (reportResult_enabled rt this (at_iteration i r) tr lastExecutedOn Hon Hiso)
      as (added1' & Htr & H).
    rewrite Hrun in *. simpl in Htr. apply app_inv_head in Htr as <-.
    destruct (IH (i + 1) (tr ++ added1) Hon Hiso) as (added2 & -> & Hp2).
    exists (added1 ++ added2). rewrite app_assoc. split; [done|].
    rewrite patch_requests_app, Hp2. f_equal.
    change (squashId r) with (squashId (at_iteration i r)).
    destruct (extractTestCaseId (squashId (at_iteration i r))) as [[|c d]|].
    + destruct H as [H _]. unfold remote_calls, patch_requests in *.
      clear -H. induction added1 as [|e l IHl]; [done|]. simpl in *.
      destruct e; simpl in *; try done; by apply IHl.
    + by destruct H as [-> _].
    + destruct H as [H _]. unfold remote_calls, patch_requests in *.
      clear -H. induction added1 as [|e l IHl]; [done|]. simpl in *.
      destruct e; simpl in *; try done; by apply IHl.
Qed.

(** X15.  [reportDDTResults] never throws.  A disabled client leaves the trace
    as it was.  An enabled one, with a clock that prints, issues one PATCH
    request for each result whose identifier holds a test case id, in the
    order of the batch and with the result's position as iteration index,
    whatever the remote system answers to the requests before. *)
Theorem reportDDTResults_patches rt this results tr :
  (∃ added, reportDDTResults rt this results tr = (Ok tt, tr ++ added)) ∧
  (enabled this = false → reportDDTResults rt this results tr = (Ok tt, tr)) ∧
  (∀ lastExecutedOn,
     enabled this = true →
     toISOString rt (DateOfMillis (now rt)) = Ok lastExecutedOn →
     patch_requests (snd (reportDDTResults rt this results tr)) =
       patch_requests tr ++ batch_patches rt this lastExecutedOn 0 results).
Proof.
  unfold reportDDTResults. destruct (enabled this) eqn:Hon; simpl.
  - unfold mbind, M_bind, bind, Logger.info, Logger.log, emit.
    assert (Hall : ∀ i results tr, ∃ added,
              reportDDTResults_from rt this i results tr = (Ok tt, tr ++ added)).
    { clear. intros i results. revert i.
      induction results as [|r results IH]; intros i tr; simpl.
      - exists []. by rewrite app_nil_r.
      - unfold mbind, M_bind, bind.
        destruct (reportResult_returns rt this
                    (TestExecutionResult.mk (squashId r) (status r) (comment r)
                       (screenshotPath r) (duration r) (Some i) (iterationData r)) tr)
          as (b & added1 & ->).
        destruct (IH (i + 1) (tr ++ added1)) as (added2 & ->).
        exists (added1 ++ added2). by rewrite app_assoc. }
    split; [|split; [done|]].
    + match goal with
      | |- context [reportDDTResults_from _ _ 0 _ ?t] =>
          destruct (Hall 0 results t) as (added & ->)
      end.
      eexists. by rewrite <- app_assoc.
    + intros iso _ Hiso.
      match goal with
      | |- context [reportDDTResults_from _ _ 0 _ ?t] =>
          destruct (reportDDTResults_from_run rt this iso results 0 t Hon Hiso)
            as (added & -> & Hp)
      end.
      simpl. by rewrite !patch_requests_app, Hp, app_nil_r.
  - split; [|split; [done|done]]. exists []. by rewrite app_nil_r.
Qed.

Lemma reportDDTResults_patches_witness :
  patch_requests
    (snd (reportDDTResults
            (runtime_with ∅ sample_settings (λ _, Ok JNull) (Throw (JsValue ""))
               None (Some (JsError "ECONNREFUSED")))
            (mkClient "https://demo.squashtest.org/api/rest/latest" "4" true)
            [failed_result; failed_result] [])) =
    patch_requests [] ++
    batch_patches
      (runtime_with ∅ sample_settings (λ _, Ok JNull) (Throw (JsValue ""))
         None (Some (JsError "ECONNREFUSED")))
      (mkClient "https://demo.squashtest.org/api/rest/latest" "4" true)
      "2023-11-14T22:13:20.000Z" 0 [failed_result; failed_result].
Proof.
  apply (proj2 (proj2 (reportDDTResults_patches
                  (runtime_with ∅ sample_settings (λ _, Ok JNull) (Throw (JsValue ""))
                     None (Some (JsError "ECONNREFUSED")))
                  (mkClient "https://demo.squashtest.org/api/rest/latest" "4" true)
                  [failed_result; failed_result] []))); reflexivity.
Defined.

(** X20.  The client is built once.  The first call of
    [getSquashTMClient] builds it from the settings in force, logging at
    most one line; every later call returns that same client and leaves no
    event, whatever the settings have become. *)
Theorem getSquashTMClient_once rt rt' tr :
  ∃ client added,
    getSquashTMClient rt None tr = (Ok (client, Some client), tr ++ added) ∧
    enabled client = Settings.reportToSquash (settings rt) ∧
    (length added <= 1)%nat ∧ remote_calls added = [] ∧
    ∀ tr', getSquashTMClient rt' (Some client) tr' = (Ok (client, Some client), tr').
Proof.
  unfold getSquashTMClient, new_SquashTMClient, mbind, M_bind, bind, Logger.info,
    Logger.log, emit, mret, M_ret, ret.
  simpl. destruct (Settings.reportToSquash (settings rt)); simpl.
  - do 2 eexists. split; [done|]. simpl. repeat split; lia.
  - exists (mkClient (Settings.url (Settings.squashTM (settings rt)) +:+ "/api/rest/latest")
              (Settings.campaignId (Settings.squashTM (settings rt))) false), [].
    rewrite app_nil_r. repeat split. simpl. lia.
Qed.

End SquashMore.

(** ** More on the test data loader *)

Section LoaderMore.
Import Settings TestDataLoader Files Samples.

(** X16.  A file that exists is handed to the parser of the format in force
    (the override if given, the configured format otherwise).  What the
    parser returns is returned; what it throws is thrown again as an error
    that names the format in capitals, the path and the parser's message. *)
Theorem loadTestData_parse rt filename format tr content :
  files rt !! data_file_path rt filename format = Some content →
  loadTestData rt filename format tr =
  (match
     match default (dataFormat (settings rt)) format with
     | json_format => JSON_parse rt content
     | yaml_format => YAML_parse rt content
     end
   with
   | Ok value => Ok value
   | Throw error =>
       Throw (JsError ("Failed to parse " +:+
                       match default (dataFormat (settings rt)) format with
                       | json_format => "JSON"
                       | yaml_format => "YAML"
                       end +:+
                       " file " +:+ data_file_path rt filename format +:+ ": " +:+
                       errorMessage error))
   end,
   tr ++ [Logged DEBUG ("[TestDataLoader] Loading test data from: " +:+
                        data_file_path rt filename format)]).
Proof.
  intros Hfile. unfold loadTestData, data_file_path in *. unfold getDataFormat.
  unfold mbind, M_bind, bind, Logger.debug, Logger.log, emit, existsSync, readFileSync,
    lift, try_catch, throw.
  rewrite Hfile, bool_decide_true by eauto. simpl.
  destruct (default (dataFormat (settings rt)) format); simpl.
  - by destruct (JSON_parse rt content).
  - by destruct (YAML_parse rt content).
Qed.

Lemma loadTestData_parse_witness :
  loadTestData
    (runtime_with users_file sample_settings
       (λ _, Throw (JsError "Unexpected token } in JSON at position 12"))
       (Throw (JsValue "")) None None)
    "users" None [] =
    (Throw (JsError
       "Failed to parse JSON file /repo/test-data/json/users.json: Unexpected token } in JSON at position 12"),
     [Logged DEBUG
        "[TestDataLoader] Loading test data from: /repo/test-data/json/users.json"]).
Proof.
  apply (loadTestData_parse
           (runtime_with users_file sample_settings
              (λ _, Throw (JsError "Unexpected token } in JSON at position 12"))
              (Throw (JsValue "")) None None)
           "users" None [] (dq "{'validUsers':[{'username':'a'}]}")).
  vm_compute. reflexivity.
Defined.

(** No member that a value inherits is a string. *)
Lemma inherited_not_string prototype names key s :
  inherited prototype names key ≠ Some (Data (JStr s)).
Proof.
  unfold inherited. destruct (String.eqb key "__proto__"); [done|].
  destruct (has_name names key); [done|].
  by destruct (has_name Object_prototype key).
Qed.

(** An item that has a string under a key is a truthy value. *)
Lemma property_string_truthy item key s :
  property item key = Ok (Some (Data (JStr s))) → truthy (Some (Data item)) = true.
Proof.
  destruct item as [|b|x|t|items|members]; simpl; try done.
  - intros [= H]. by apply inherited_not_string in H.
  - intros [= H]. by apply inherited_not_string in H.
  - destruct (String.eqb key "length"); [done|].
    destruct (array_index key) as [i|].
    + destruct t; [|done]. by destruct i.
    + intros [= H]. by apply inherited_not_string in H.
Qed.

(** The items [find] passes over: those that can be read and do not hold
    the wanted id. *)
Lemma find_by_id_passes idKey testCaseId x :
  x ≠ JNull → property x idKey ≠ Ok (Some (Data (JStr testCaseId))) →
  ∃ v, property x idKey = Ok v ∧ strictly_equals v testCaseId = false.
Proof.
  intros Hnull Hid.
  assert (∃ v, property x idKey = Ok v) as (v & Hv).
  { destruct x as [|b|n|t|items|members]; simpl; try done; try by eexists.
    - destruct (String.eqb idKey "length"); [by eexists|].
      destruct (array_index idKey); by eexists.
    - destruct (String.eqb idKey "length"); [by eexists|].
      destruct (array_index idKey); [by eexists|].
      destruct (String.eqb idKey "__proto__"); by eexists.
    - destruct (members !! idKey); by eexists. }
  exists v. split; [done|].
  destruct v as [[[| | |s| |]|]|]; try done. simpl.
  destruct (String.eqb_spec s testCaseId) as [->|]; [|done]. by rewrite Hv in Hid.
Qed.

Lemma find_by_id_first idKey testCaseId pre item post :
  Forall (λ x, x ≠ JNull ∧
               property x idKey ≠ Ok (Some (Data (JStr testCaseId)))) pre →
  property item idKey = Ok (Some (Data (JStr testCaseId))) →
  find_by_id idKey testCaseId (pre ++ item :: post) = Ok (Some item).
Proof.
  intros Hpre Hitem. induction Hpre as [|x pre [Hnull Hid] _ IH]; simpl.
  - rewrite Hitem. simpl. by rewrite String.eqb_refl.
  - destruct (find_by_id_passes idKey testCaseId x Hnull Hid) as (v & -> & ->). done.
Qed.

Lemma find_by_id_none idKey testCaseId items :
  Forall (λ x, x ≠ JNull ∧
               property x idKey ≠ Ok (Some (Data (JStr testCaseId)))) items →
  find_by_id idKey testCaseId items = Ok None.
Proof.
  intros H. induction H as [|x l [Hnull Hid] _ IH]; simpl; [done|].
  destruct (find_by_id_passes idKey testCaseId x Hnull Hid) as (v & -> & ->). done.
Qed.

Lemma find_by_id_null idKey testCaseId pre post :
  Forall (λ x, x ≠ JNull ∧
               property x idKey ≠ Ok (Some (Data (JStr testCaseId)))) pre →
  find_by_id idKey testCaseId (pre ++ JNull :: post) =
  Throw (JsError ("Cannot read properties of null (reading '" +:+ idKey +:+ "')")).
Proof.
  intros Hpre. induction Hpre as [|x pre [Hnull Hid] _ IH]; simpl; [done|].
  destruct (find_by_id_passes idKey testCaseId x Hnull Hid) as (v & -> & ->). done.
Qed.

Lemma find_by_id_sound idKey testCaseId items item :
  find_by_id idKey testCaseId items = Ok (Some item) →
  ∃ pre post,
    items = pre ++ item :: post ∧
    Forall (λ x, x ≠ JNull ∧
                 property x idKey ≠ Ok (Some (Data (JStr testCaseId)))) pre ∧
    property item idKey = Ok (Some (Data (JStr testCaseId))).
Proof.
  induction items as [|x l IH]; simpl; [done|].
  destruct (property x idKey) as [v|] eqn:Hv; [|done].
  destruct (strictly_equals v testCaseId) eqn:Heq.
  - intros [= ->]. exists [], l. split; [done|]. split; [constructor|].
    destruct v as [[[| | |s| |]|]|]; try done. simpl in Heq.
    apply String.eqb_eq in Heq as ->. done.
  - intros (pre & post & -> & Hpre & Hitem)%IH.
    exists (x :: pre), post. split; [done|]. split; [|done].
    constructor; [|done]. split.
    + intros ->. discriminate Hv.
    + rewrite Hv. intros [= ->]. simpl in Heq. by rewrite String.eqb_refl in Heq.
Qed.

(** X17.  [getTestDataById] over a loaded array scans the items in order.
    It returns the first item that holds the wanted id, as a string, under
    the id key, when no item before it is null; an item it returns is that
    first item.  When no item is null and none holds the id, it throws the
    error Test case ... not found.  When a null item comes before every
    item that holds the id, it throws the TypeError of reading a property
    of null. *)
Theorem getTestDataById_first rt filename arrayKey testCaseId idKey tr items tr1 :
  loadTestDataArray rt filename arrayKey tr = (Ok items, tr1) →
  (∀ pre item post,
     items = pre ++ item :: post →
     Forall (λ x, x ≠ JNull ∧
                  property x (default "id" idKey) ≠ Ok (Some (Data (JStr testCaseId))))
            pre →
     property item (default "id" idKey) = Ok (Some (Data (JStr testCaseId))) →
     getTestDataById rt filename arrayKey testCaseId idKey tr = (Ok item, tr1)) ∧
  (∀ item tr',
     getTestDataById rt filename arrayKey testCaseId idKey tr = (Ok item, tr') →
     tr' = tr1 ∧
     ∃ pre post,
       items = pre ++ item :: post ∧
       Forall (λ x, x ≠ JNull ∧
                    property x (default "id" idKey) ≠ Ok (Some (Data (JStr testCaseId))))
              pre ∧
       property item (default "id" idKey) = Ok (Some (Data (JStr testCaseId)))) ∧
  (Forall (λ x, x ≠ JNull ∧
                property x (default "id" idKey) ≠ Ok (Some (Data (JStr testCaseId))))
          items →
   getTestDataById rt filename arrayKey testCaseId idKey tr =
     (Throw (test_case_not_found (default "id" idKey) testCaseId filename arrayKey), tr1)) ∧
  (∀ pre post,
     items = pre ++ JNull :: post →
     Forall (λ x, x ≠ JNull ∧
                  property x (default "id" idKey) ≠ Ok (Some (Data (JStr testCaseId))))
            pre →
     getTestDataById rt filename arrayKey testCaseId idKey tr =
       (Throw (JsError ("Cannot read properties of null (reading '" +:+
                        default "id" idKey +:+ "')")), tr1)).
Proof.
  intros Hload.
  unfold getTestDataById, mbind, M_bind, bind, lift, throw, mret, M_ret, ret.
  rewrite Hload. split; [|split; [|split]].
  - intros pre item post -> Hpre Hitem.
    rewrite (find_by_id_first _ _ _ _ _ Hpre Hitem). cbn [fmap option_fmap option_map].
    by rewrite (property_string_truthy _ _ _ Hitem).
  - intros item tr'.
    destruct (find_by_id (default "id" idKey) testCaseId items) as [[found|]|e] eqn:Hfind.
    + destruct (find_by_id_sound _ _ _ _ Hfind) as (pre & post & Hitems & Hpre & Hp).
      cbn [fmap option_fmap option_map].
      rewrite (property_string_truthy _ _ _ Hp). simpl. intros [= <- <-].
      split; [done|]. by exists pre, post.
    + simpl. intros H. discriminate H.
    + intros H. discriminate H.
  - intros Hnone. by rewrite (find_by_id_none _ _ _ Hnone).
  - intros pre post -> Hpre. by rewrite (find_by_id_null _ _ _ _ Hpre).
Qed.

(** X17 on the users file, whose one item has username a, and on an array
    whose first item is null. *)
Lemma getTestDataById_first_witness :
  getTestDataById
    (runtime_with users_file sample_settings (λ _, Ok (JObj users_record))
       (Throw (JsValue "")) None None)
    "users" "validUsers" "a" (Some "username") [] = (Ok user_a, users_log) ∧
  getTestDataById
    (runtime_with users_file sample_settings
       (λ _, Ok (JObj null_first_record))
       (Throw (JsValue "")) None None)
    "users" "validUsers" "a" (Some "username") [] =
    (Throw (JsError "Cannot read properties of null (reading 'username')"), users_log).
Proof.
  split.
  - apply (proj1 (getTestDataById_first
                    (runtime_with users_file sample_settings (λ _, Ok (JObj users_record))
                       (Throw (JsValue "")) None None)
                    "users" "validUsers" "a" (Some "username") [] [user_a] users_log
                    ltac:(vm_compute; reflexivity))
             [] user_a []).
    + reflexivity.
    + constructor.
    + vm_compute. reflexivity.
  - apply (proj2 (proj2 (proj2 (getTestDataById_first
                    (runtime_with users_file sample_settings
                       (λ _, Ok (JObj null_first_record))
                       (Throw (JsValue "")) None None)
                    "users" "validUsers" "a" (Some "username") [] [JNull; user_a] users_log
                    ltac:(vm_compute; reflexivity))))
             [] [user_a]).
    + reflexivity.
    + constructor.
Defined.

Lemma property_not_null item key :
  item ≠ JNull → ∃ v, property item key = Ok v.
Proof.
  destruct item as [|b|x|t|items|members]; simpl; try done; intros _; try by eexists.
  - destruct (String.eqb key "length"); [by eexists|].
    destruct (array_index key); by eexists.
  - destruct (String.eqb key "length"); [by eexists|].
    destruct (array_index key); [by eexists|].
    destruct (String.eqb key "__proto__"); by eexists.
  - destruct (members !! key); by eexists.
Qed.

Lemma toParameterized_from_run nameKey items : ∀ index,
  Forall (λ item, item ≠ JNull) items →
  ∃ entries,
    toParameterized_from nameKey index items = Ok entries ∧
    map ParameterizedTestData.data entries = items ∧
    ∀ i entry,
      entries !! i = Some entry →
      (∃ value,
         property (ParameterizedTestData.data entry) nameKey = Ok (Some value) ∧
         truthy (Some value) = true ∧ ParameterizedTestData.name entry = value) ∨
      ((∃ v, property (ParameterizedTestData.data entry) nameKey = Ok v ∧ truthy v = false) ∧
       ParameterizedTestData.name entry =
         JStr ("Test Case " +:+ string_of_Z (index + Z.of_nat i + 1))).
Proof.
  induction items as [|item items IH]; intros index Hall.
  - exists []. repeat split. by intros i entry ?.
  - apply Forall_cons in Hall as [Hitem Hall]. simpl.
    destruct (property_not_null item nameKey Hitem) as (name & Hname).
    destruct (property_not_null item "tags" Hitem) as (tags & Htags).
    destruct (property_not_null item "squashId" Hitem) as (squashId & Hsquash).
    destruct (IH (index + 1) Hall) as (entries & Hrest & Hdata & Hnames).
    rewrite Hname, Htags, Hsquash, Hrest.
    eexists. split; [done|]. split; [cbn [map ParameterizedTestData.data]; by rewrite Hdata|].
    intros [|i] entry.
    + intros [= <-]. cbn [ParameterizedTestData.data ParameterizedTestData.name].
      rewrite Z.add_0_r, Hname.
      destruct name as [value|].
      * destruct (truthy (Some value)) eqn:Ht; [left; by exists value|right].
        split; [|done]. by exists (Some value).
      * right. split; [|done]. by exists None.
    + intros Hentry. change ((?x :: entries) !! S i) with (entries !! i) in Hentry.
      destruct (Hnames i entry Hentry) as [?|[? ->]]; [by left|right].
      split; [done|]. do 4 f_equal. lia.
Qed.

Lemma toParameterized_from_null nameKey items : ∀ index,
  JNull ∈ items → ∃ error, toParameterized_from nameKey index items = Throw error.
Proof.
  induction items as [|item items IH]; intros index; [by intros ?%elem_of_nil|].
  intros [<-|Hin]%elem_of_cons; simpl; [by eexists|].
  destruct (property item nameKey); [|by eexists].
  destruct (property item "tags"); [|by eexists].
  destruct (property item "squashId"); [|by eexists].
  destruct (IH (index + 1) Hin) as (e & ->). by eexists.
Qed.

(** X18.  [toParameterizedTests] over a loaded array without a null item gives
    one entry per item, in order, each carrying its item as data; an entry
    is named by the value under the name key when that value is truthy, and
    Test Case n otherwise, n being its position counted from 1.  A null
    item makes the call throw. *)
Theorem toParameterizedTests_entries rt filename arrayKey nameKey tr items tr1 :
  loadTestDataArray rt filename arrayKey tr = (Ok items, tr1) →
  (Forall (λ item, item ≠ JNull) items →
   ∃ entries,
     toParameterizedTests rt filename arrayKey nameKey tr = (Ok entries, tr1) ∧
     map ParameterizedTestData.data entries = items ∧
     ∀ i entry,
       entries !! i = Some entry →
       (∃ value,
          property (ParameterizedTestData.data entry) (default "name" nameKey)
            = Ok (Some value) ∧
          truthy (Some value) = true ∧ ParameterizedTestData.name entry = value) ∨
       ((∃ v, property (ParameterizedTestData.data entry) (default "name" nameKey) = Ok v ∧
              truthy v = false) ∧
        ParameterizedTestData.name entry =
          JStr ("Test Case " +:+ string_of_Z (Z.of_nat i + 1)))) ∧
  (JNull ∈ items →
   ∃ error, toParameterizedTests rt filename arrayKey nameKey tr = (Throw error, tr1)).
Proof.
  intros Hload. unfold toParameterizedTests, mbind, M_bind, bind, lift. rewrite Hload.
  split.
  - intros Hall.
    destruct (toParameterized_from_run (default "name" nameKey) items 0 Hall)
      as (entries & -> & Hdata & Hnames).
    exists entries. split; [done|]. split; [done|]. exact Hnames.
  - intros Hnull.
    destruct (toParameterized_from_null (default "name" nameKey) items 0 Hnull) as (e & ->).
    by exists e.
Qed.

Lemma toParameterizedTests_entries_witness :
  ∃ entries,
    toParameterizedTests
      (runtime_with users_file sample_settings (λ _, Ok (JObj users_record))
         (Throw (JsValue "")) None None)
      "users" "validUsers" None [] = (Ok entries, users_log) ∧
    map ParameterizedTestData.data entries = [user_a].
Proof.
  destruct (proj1 (toParameterizedTests_entries
                     (runtime_with users_file sample_settings (λ _, Ok (JObj users_record))
                        (Throw (JsValue "")) None None)
                     "users" "validUsers" None [] [user_a] users_log
                     ltac:(vm_compute; reflexivity))
              ltac:(by repeat constructor)) as (entries & H1 & H2 & _).
  by exists entries.
Defined.

End LoaderMore.
